(** * Cast statistics engine and frame-id wrap helper

    A shallow embedding of

    - [FrameIdWrapHelper] (media/cast/net/cast_transport_defines.h), the
      decoder that expands the 8-bit frame id carried on the wire into a
      32-bit frame id, and
    - [StatsEventSubscriber] (media/cast/logging/stats_event_subscriber.cc)
      with its [SimpleHistogram],

    together with the properties of both that the design document states.

    Conventions of the embedding.
    - [uint8], [uint16], [uint32] and [size_t] values are [Z]; where the
      source relies on unsigned wrap-around the reduction is written out.
    - [base::TimeTicks] and [base::TimeDelta] hold a signed 64-bit count of
      microseconds; they are [Z] here, and arithmetic on them is exact (the
      source has no defined behaviour when it overflows).
    - [int] counters are [Z]; signed overflow is undefined in the source and
      is not modelled.
    - A [double] is modelled by the rational it approximates. *)

From stdpp Require Import base numbers list sorting finite gmap strings.
From Stdlib Require Import ZArith QArith Lia.

Local Open Scope Z_scope.

(** ** Fixed-width unsigned arithmetic *)

Definition uint32 (z : Z) : Z := z mod 2 ^ 32.
Definition size_t (z : Z) : Z := z mod 2 ^ 64.

(** ** FrameIdWrapHelper *)

Module FrameIdWrapHelper.

Inductive Range := kLowRange | kMiddleRange | kHighRange.

Definition kLowRangeThreshold : Z := 63.
Definition kHighRangeThreshold : Z := 192.
Definition kStartFrameId : Z := 0xffffffff.

Record t := mk {
  first_ : bool;
  frame_id_wrap_count_ : Z;
  range_ : Range
}.

(** The constructor. *)
Definition new : t :=
  {| first_ := true; frame_id_wrap_count_ := 0; range_ := kLowRange |}.

(** The [switch (range_)] of [MapTo32bitsFrameId]: from the stored wrap
    count and the zone it yields the local [wrap_count] used for this
    sample, the stored wrap count and the zone after the call. *)
Definition switch_range (v : Z) (w : Z) (r : Range) : Z * Z * Range :=
  match r with
  | kLowRange =>
      let r' := if (kLowRangeThreshold <? v) && (v <? kHighRangeThreshold)
                then kMiddleRange else kLowRange in
      let wrap_count := if kHighRangeThreshold <=? v
                        then uint32 (w - 1) else w in
      (wrap_count, w, r')
  | kMiddleRange =>
      if kHighRangeThreshold <=? v then (w, w, kHighRange)
      else (w, w, kMiddleRange)
  | kHighRange =>
      if v <=? kLowRangeThreshold
      then (uint32 (w + 1), uint32 (w + 1), kLowRange)
      else (w, w, kHighRange)
  end.

(** [(wrap_count << 8) + over_the_wire_frame_id] in [uint32]. *)
Definition make_id (wrap_count v : Z) : Z :=
  uint32 (uint32 (Z.shiftl wrap_count 8) + v).

Definition MapTo32bitsFrameId (over_the_wire_frame_id : Z) (s : t)
  : Z * t :=
  if first_ s && (over_the_wire_frame_id =? 0xff) then
    (kStartFrameId,
     {| first_ := false;
        frame_id_wrap_count_ := frame_id_wrap_count_ s;
        range_ := range_ s |})
  else
    let '(wrap_count, w', r') :=
      switch_range over_the_wire_frame_id (frame_id_wrap_count_ s)
                   (range_ s) in
    (make_id wrap_count over_the_wire_frame_id,
     {| first_ := false; frame_id_wrap_count_ := w'; range_ := r' |}).

(** Feeding a sequence of wire values: the ids returned, in order, paired
    with the stored wrap count after each call, and the final state. *)
Fixpoint feed (vs : list Z) (s : t) : list (Z * Z) * t :=
  match vs with
  | [] => ([], s)
  | v :: vs' =>
      let '(id, s1) := MapTo32bitsFrameId v s in
      let '(out, s2) := feed vs' s1 in
      ((id, frame_id_wrap_count_ s1) :: out, s2)
  end.

(** A list of 32-bit ids is strictly increasing. *)
Fixpoint strictly_increasing (l : list Z) : bool :=
  match l with
  | a :: ((b :: _) as tl) => (a <? b) && strictly_increasing tl
  | _ => true
  end.

End FrameIdWrapHelper.


(** ** base::TimeTicks and base::TimeDelta *)

Module Time.

(** Both are a signed count of microseconds. A default-constructed
    [TimeTicks] holds 0 and is the null value. *)
Definition TimeTicks : Type := Z.
Definition TimeDelta : Type := Z.

Definition is_null (t : TimeTicks) : bool := t =? 0.

Definition kMicrosecondsPerMillisecond : positive := 1000.
Definition kMicrosecondsPerSecond : positive := 1000000.

(** [TimeDelta::InMillisecondsF] and [TimeDelta::InSecondsF], the
    [double] read as the exact quotient. *)
Definition InMillisecondsF (d : TimeDelta) : Q :=
  Qmake d kMicrosecondsPerMillisecond.
Definition InSecondsF (d : TimeDelta) : Q :=
  Qmake d kMicrosecondsPerSecond.

(** The implicit conversion of a [double] argument to an [int64]
    parameter: the fractional part is discarded (rounding toward 0). *)
Definition double_to_int64 (x : Q) : Z := Z.quot (Qnum x) (Zpos (Qden x)).

End Time.

(** ** StatsEventSubscriber::SimpleHistogram *)

Module SimpleHistogram.

Record t := mk {
  min_ : Z;
  max_ : Z;
  width_ : Z;
  buckets_ : list Z
}.

(** The constructor. It fails ([None]) when a [CHECK] fails, when the
    division by [width] is a division by zero, or when the bucket count
    is negative (it cannot be converted to a vector length).  The
    arithmetic is exact and a vector of any length can be allocated: what
    the source does on [int64] overflow or when the allocation fails is
    not modelled. *)
Definition new (min max width : Z) : option t :=
  if width =? 0 then None
  else
    let n := Z.quot (max - min) width + 2 in
    if n <=? 2 then None                               (* CHECK_GT *)
    else if negb (Z.rem (max - min) width =? 0) then None   (* CHECK_EQ *)
    else Some {| min_ := min; max_ := max; width_ := width;
                 buckets_ := replicate (Z.to_nat n) 0 |}.

Definition size (h : t) : nat := length (buckets_ h).

Definition with_buckets (h : t) (b : list Z) : t :=
  {| min_ := min_ h; max_ := max_ h; width_ := width_ h; buckets_ := b |}.

(** [++buckets_[i]]. An index outside the vector is excluded by the
    [DCHECK_LT] of [Add]; the model leaves the vector as it is there. *)
Definition incr (i : nat) (b : list Z) : list Z := alter Z.succ i b.

Definition Add (sample : Z) (h : t) : t :=
  if sample <? min_ h then
    with_buckets h (incr 0 (buckets_ h))                  (* front() *)
  else if max_ h <=? sample then
    with_buckets h (incr (size h - 1) (buckets_ h))       (* back() *)
  else
    let index := Z.to_nat (1 + Z.quot (sample - min_ h) (width_ h)) in
    with_buckets h (incr index (buckets_ h)).

Definition Reset (h : t) : t :=
  with_buckets h (replicate (size h) 0).

(** The labels of [GetHistogram], before formatting. *)
Inductive label :=
| Below (min : Z)              (* "< min" *)
| Between (lower upper : Z)    (* "lower - upper" *)
| AtLeast (max : Z).           (* ">= max" *)

Fixpoint interior (h : t) (i : Z) (b : list Z) : list (label * Z) :=
  match b with
  | [] | [_] => []
  | c :: b' =>
      let lower := min_ h + (i - 1) * width_ h in
      let upper := lower + width_ h - 1 in
      (Between lower upper, c) :: interior h (i + 1) b'
  end.

Definition GetHistogram (h : t) : list (label * Z) :=
  (Below (min_ h), hd 0 (buckets_ h))
    :: interior h 1 (tl (buckets_ h))
    ++ [(AtLeast (max_ h), List.last (buckets_ h) 0)].

(** The two operations that change the counts. *)
Inductive op := OpAdd (sample : Z) | OpReset.

Definition apply (o : op) (h : t) : t :=
  match o with OpAdd s => Add s h | OpReset => Reset h end.

(** [ops] is in the order of the calls. *)
Definition run (ops : list op) (h : t) : t :=
  foldl (fun h o => apply o h) h ops.

(** The number of [Add] calls after the last [Reset] of [ops]. *)
Definition adds_since_reset (ops : list op) : Z :=
  foldl (fun n o => match o with OpAdd _ => n + 1 | OpReset => 0 end) 0 ops.

(** The sum of all bucket counts. *)
Definition total (h : t) : Z := foldr Z.add 0 (buckets_ h).

(** The index of the bucket that [Add] is to increment, as the design
    document gives it. *)
Definition bucket_index (sample : Z) (h : t) : nat :=
  if sample <? min_ h then 0%nat
  else if max_ h <=? sample then (size h - 1)%nat
  else Z.to_nat (1 + (sample - min_ h) `div` width_ h).

(** Bucket [i] alone goes up by one from [b] to [b']. *)
Definition increments (i : nat) (b b' : list Z) : Prop :=
  exists c, b !! i = Some c /\ b' = <[i := c + 1]> b.

End SimpleHistogram.

(** ** std::map

    [recent_frame_infos_] and [packet_sent_times_] are [std::map]s whose
    smallest key is read through [begin()]. They are association lists kept
    in ascending key order. *)

Module OrdMap.
Section defs.
Context {K V : Type} `{EqDecision K} (ltb : K -> K -> bool).

Fixpoint find (k : K) (m : list (K * V)) : option V :=
  match m with
  | [] => None
  | (k', v) :: m' => if decide (k = k') then Some v else find k m'
  end.

(** [std::map::insert]: a key that is present keeps its value. *)
Fixpoint insert (k : K) (v : V) (m : list (K * V)) : list (K * V) :=
  match m with
  | [] => [(k, v)]
  | (k', v') :: m' =>
      if decide (k = k') then m
      else if ltb k k' then (k, v) :: m
      else (k', v') :: insert k v m'
  end.

Fixpoint erase (k : K) (m : list (K * V)) : list (K * V) :=
  match m with
  | [] => []
  | (k', v') :: m' =>
      if decide (k = k') then m' else (k', v') :: erase k m'
  end.

(** Assignment to [it->second] through the iterator [find] returned. *)
Fixpoint update (k : K) (f : V -> V) (m : list (K * V)) : list (K * V) :=
  match m with
  | [] => []
  | (k', v') :: m' =>
      if decide (k = k') then (k', f v') :: m'
      else (k', v') :: update k f m'
  end.

Definition begin (m : list (K * V)) : option (K * V) := head m.
Definition erase_begin (m : list (K * V)) : list (K * V) := tail m.
Definition size (m : list (K * V)) : nat := length m.

(** The representation invariant: keys strictly ascending. *)
Definition sorted (m : list (K * V)) : Prop :=
  StronglySorted (fun a b => ltb a.1 b.1 = true) m.
End defs.

(** [operator<] of [std::pair<RtpTimestamp, uint16>]. *)
Definition pair_ltb (a b : Z * Z) : bool :=
  (a.1 <? b.1) || (negb (b.1 <? a.1) && (a.2 <? b.2)).
End OrdMap.

(** ** The event records (logging_defines.h) *)

(** The enumerators of [CastLoggingEvent] that stats_event_subscriber.cc
    names; [OTHER_EVENT value] is the enumerator of that value among the
    others, which the subscriber only counts, each under its own key. *)
Inductive CastLoggingEvent :=
| FRAME_CAPTURE_BEGIN | FRAME_CAPTURE_END | FRAME_ENCODED
| FRAME_ACK_SENT | FRAME_DECODED | FRAME_PLAYOUT
| PACKET_SENT_TO_NETWORK | PACKET_RETRANSMITTED | PACKET_RTX_REJECTED
| PACKET_RECEIVED
| OTHER_EVENT (value : Z).

Inductive EventMediaType := AUDIO_EVENT | VIDEO_EVENT | UNKNOWN_EVENT.

Inductive CastStat :=
| CAPTURE_FPS | ENCODE_FPS | DECODE_FPS | AVG_ENCODE_TIME_MS
| AVG_PLAYOUT_DELAY_MS | AVG_NETWORK_LATENCY_MS | AVG_E2E_LATENCY_MS
| ENCODE_KBPS | TRANSMISSION_KBPS | RETRANSMISSION_KBPS
| PACKET_LOSS_FRACTION | MS_SINCE_LAST_RECEIVER_RESPONSE
| NUM_FRAMES_CAPTURED | NUM_FRAMES_DROPPED_BY_ENCODER | NUM_FRAMES_LATE
| NUM_PACKETS_SENT | NUM_PACKETS_RETRANSMITTED | NUM_PACKETS_RTX_REJECTED
| FIRST_EVENT_TIME_MS | LAST_EVENT_TIME_MS
| CAPTURE_LATENCY_MS_HISTO | ENCODE_LATENCY_MS_HISTO
| PACKET_LATENCY_MS_HISTO | FRAME_LATENCY_MS_HISTO
| PLAYOUT_DELAY_MS_HISTO.

#[global] Instance CastLoggingEvent_eq_dec : EqDecision CastLoggingEvent.
Proof. solve_decision. Defined.
#[global] Instance EventMediaType_eq_dec : EqDecision EventMediaType.
Proof. solve_decision. Defined.
#[global] Instance CastStat_eq_dec : EqDecision CastStat.
Proof. solve_decision. Defined.

#[global] Instance CastLoggingEvent_countable : Countable CastLoggingEvent.
Proof.
  refine (inj_countable'
            (fun e => match e with
                      | FRAME_CAPTURE_BEGIN => inl 0%nat
                      | FRAME_CAPTURE_END => inl 1%nat
                      | FRAME_ENCODED => inl 2%nat
                      | FRAME_ACK_SENT => inl 3%nat
                      | FRAME_DECODED => inl 4%nat
                      | FRAME_PLAYOUT => inl 5%nat
                      | PACKET_SENT_TO_NETWORK => inl 6%nat
                      | PACKET_RETRANSMITTED => inl 7%nat
                      | PACKET_RTX_REJECTED => inl 8%nat
                      | PACKET_RECEIVED => inl 9%nat
                      | OTHER_EVENT value => inr value
                      end)
            (fun x => match x with
                      | inl 0%nat => FRAME_CAPTURE_BEGIN
                      | inl 1%nat => FRAME_CAPTURE_END
                      | inl 2%nat => FRAME_ENCODED
                      | inl 3%nat => FRAME_ACK_SENT
                      | inl 4%nat => FRAME_DECODED
                      | inl 5%nat => FRAME_PLAYOUT
                      | inl 6%nat => PACKET_SENT_TO_NETWORK
                      | inl 7%nat => PACKET_RETRANSMITTED
                      | inl 8%nat => PACKET_RTX_REJECTED
                      | inl _ => PACKET_RECEIVED
                      | inr value => OTHER_EVENT value
                      end) _).
  by intros [].
Defined.

#[global] Instance CastStat_finite : Finite CastStat.
Proof.
  refine {| enum := [CAPTURE_FPS; ENCODE_FPS; DECODE_FPS; AVG_ENCODE_TIME_MS;
              AVG_PLAYOUT_DELAY_MS; AVG_NETWORK_LATENCY_MS;
              AVG_E2E_LATENCY_MS; ENCODE_KBPS; TRANSMISSION_KBPS;
              RETRANSMISSION_KBPS; PACKET_LOSS_FRACTION;
              MS_SINCE_LAST_RECEIVER_RESPONSE; NUM_FRAMES_CAPTURED;
              NUM_FRAMES_DROPPED_BY_ENCODER; NUM_FRAMES_LATE;
              NUM_PACKETS_SENT; NUM_PACKETS_RETRANSMITTED;
              NUM_PACKETS_RTX_REJECTED; FIRST_EVENT_TIME_MS;
              LAST_EVENT_TIME_MS; CAPTURE_LATENCY_MS_HISTO;
              ENCODE_LATENCY_MS_HISTO; PACKET_LATENCY_MS_HISTO;
              FRAME_LATENCY_MS_HISTO; PLAYOUT_DELAY_MS_HISTO] |}.
  - by apply (bool_decide_unpack _); vm_compute.
  - intros []; by apply (bool_decide_unpack _); vm_compute.
Defined.

Module FrameEvent.
Record t := mk {
  timestamp : Time.TimeTicks;
  type : CastLoggingEvent;
  media_type : EventMediaType;
  rtp_timestamp : Z;          (* RtpTimestamp, uint32 *)
  frame_id : Z;               (* uint32 *)
  size : Z;                   (* size_t *)
  delay_delta : Time.TimeDelta
}.
End FrameEvent.

Module PacketEvent.
Record t := mk {
  timestamp : Time.TimeTicks;
  type : CastLoggingEvent;
  media_type : EventMediaType;
  rtp_timestamp : Z;          (* RtpTimestamp, uint32 *)
  frame_id : Z;               (* uint32 *)
  packet_id : Z;              (* uint16 *)
  max_packet_id : Z;          (* uint16 *)
  size : Z                    (* size_t *)
}.
End PacketEvent.

(** ** The records of the subscriber (stats_event_subscriber.h) *)

Module FrameLogStats.
Record t := mk {
  event_counter : Z;          (* int *)
  sum_size : Z;               (* size_t *)
  sum_delay : Time.TimeDelta
}.
End FrameLogStats.

Module PacketLogStats.
Record t := mk {
  event_counter : Z;          (* int *)
  sum_size : Z                (* size_t *)
}.
End PacketLogStats.

Module FrameInfo.
Record t := mk {
  capture_time : Time.TimeTicks;
  capture_end_time : Time.TimeTicks;
  encode_time : Time.TimeTicks;
  encoded : bool
}.

(** The constructor: the three times are null, [encoded] is false. *)
Definition new : t := mk 0 0 0 false.

Definition set_capture_time (x : Time.TimeTicks) (fi : t) : t :=
  mk x (capture_end_time fi) (encode_time fi) (encoded fi).
Definition set_capture_end_time (x : Time.TimeTicks) (fi : t) : t :=
  mk (capture_time fi) x (encode_time fi) (encoded fi).
Definition set_encode_time (x : Time.TimeTicks) (fi : t) : t :=
  mk (capture_time fi) (capture_end_time fi) x (encoded fi).
End FrameInfo.

(** [histograms_], a map with the five keys [InitHistograms] gives it. *)
Module Histograms.
Record t := mk {
  capture_latency : SimpleHistogram.t;    (* CAPTURE_LATENCY_MS_HISTO *)
  encode_latency : SimpleHistogram.t;     (* ENCODE_LATENCY_MS_HISTO *)
  packet_latency : SimpleHistogram.t;     (* PACKET_LATENCY_MS_HISTO *)
  frame_latency : SimpleHistogram.t;      (* FRAME_LATENCY_MS_HISTO *)
  playout_delay : SimpleHistogram.t       (* PLAYOUT_DELAY_MS_HISTO *)
}.

Definition map (f : SimpleHistogram.t -> SimpleHistogram.t) (h : t) : t :=
  mk (f (capture_latency h)) (f (encode_latency h)) (f (packet_latency h))
     (f (frame_latency h)) (f (playout_delay h)).

Definition on_capture_latency f (h : t) : t :=
  mk (f (capture_latency h)) (encode_latency h) (packet_latency h)
     (frame_latency h) (playout_delay h).
Definition on_encode_latency f (h : t) : t :=
  mk (capture_latency h) (f (encode_latency h)) (packet_latency h)
     (frame_latency h) (playout_delay h).
Definition on_packet_latency f (h : t) : t :=
  mk (capture_latency h) (encode_latency h) (f (packet_latency h))
     (frame_latency h) (playout_delay h).
Definition on_frame_latency f (h : t) : t :=
  mk (capture_latency h) (encode_latency h) (packet_latency h)
     (f (frame_latency h)) (playout_delay h).
Definition on_playout_delay f (h : t) : t :=
  mk (capture_latency h) (encode_latency h) (packet_latency h)
     (frame_latency h) (f (playout_delay h)).
End Histograms.

(** ** StatsEventSubscriber *)

Module StatsEventSubscriber.
Import Time.

Definition kMaxPacketEventTimeMapSize : nat := 1000.
Definition kMaxLatencyBucketMs : Z := 800.
Definition kBucketWidthMs : Z := 20.

Definition IsReceiverEvent (event : CastLoggingEvent) : bool :=
  bool_decide (event = FRAME_DECODED)
  || bool_decide (event = FRAME_PLAYOUT)
  || bool_decide (event = FRAME_ACK_SENT)
  || bool_decide (event = PACKET_RECEIVED).

Record t := mk {
  event_media_type_ : EventMediaType;
  frame_stats_ : gmap CastLoggingEvent FrameLogStats.t;
  packet_stats_ : gmap CastLoggingEvent PacketLogStats.t;
  total_network_latency_ : TimeDelta;
  network_latency_datapoints_ : Z;
  total_e2e_latency_ : TimeDelta;
  e2e_latency_datapoints_ : Z;
  num_frames_dropped_by_encoder_ : Z;
  num_frames_late_ : Z;
  recent_frame_infos_ : list (Z * FrameInfo.t);
  packet_sent_times_ : list ((Z * Z) * (TimeTicks * CastLoggingEvent));
  start_time_ : TimeTicks;
  last_response_received_time_ : TimeTicks;
  histograms_ : Histograms.t;
  first_event_time_ : TimeTicks;
  last_event_time_ : TimeTicks
}.

(** Assignment to one member. *)
Definition set_frame_stats_ x (s : t) : t :=
  mk (event_media_type_ s) x (packet_stats_ s) (total_network_latency_ s)
     (network_latency_datapoints_ s) (total_e2e_latency_ s)
     (e2e_latency_datapoints_ s) (num_frames_dropped_by_encoder_ s)
     (num_frames_late_ s) (recent_frame_infos_ s) (packet_sent_times_ s)
     (start_time_ s) (last_response_received_time_ s) (histograms_ s)
     (first_event_time_ s) (last_event_time_ s).
Definition set_packet_stats_ x (s : t) : t :=
  mk (event_media_type_ s) (frame_stats_ s) x (total_network_latency_ s)
     (network_latency_datapoints_ s) (total_e2e_latency_ s)
     (e2e_latency_datapoints_ s) (num_frames_dropped_by_encoder_ s)
     (num_frames_late_ s) (recent_frame_infos_ s) (packet_sent_times_ s)
     (start_time_ s) (last_response_received_time_ s) (histograms_ s)
     (first_event_time_ s) (last_event_time_ s).
Definition set_network_latency (total : TimeDelta) (n : Z) (s : t) : t :=
  mk (event_media_type_ s) (frame_stats_ s) (packet_stats_ s) total n
     (total_e2e_latency_ s)
     (e2e_latency_datapoints_ s) (num_frames_dropped_by_encoder_ s)
     (num_frames_late_ s) (recent_frame_infos_ s) (packet_sent_times_ s)
     (start_time_ s) (last_response_received_time_ s) (histograms_ s)
     (first_event_time_ s) (last_event_time_ s).
Definition set_e2e_latency (total : TimeDelta) (n : Z) (s : t) : t :=
  mk (event_media_type_ s) (frame_stats_ s) (packet_stats_ s)
     (total_network_latency_ s) (network_latency_datapoints_ s) total n
     (num_frames_dropped_by_encoder_ s)
     (num_frames_late_ s) (recent_frame_infos_ s) (packet_sent_times_ s)
     (start_time_ s) (last_response_received_time_ s) (histograms_ s)
     (first_event_time_ s) (last_event_time_ s).
Definition set_num_frames_dropped_by_encoder_ x (s : t) : t :=
  mk (event_media_type_ s) (frame_stats_ s) (packet_stats_ s)
     (total_network_latency_ s) (network_latency_datapoints_ s)
     (total_e2e_latency_ s) (e2e_latency_datapoints_ s) x
     (num_frames_late_ s) (recent_frame_infos_ s) (packet_sent_times_ s)
     (start_time_ s) (last_response_received_time_ s) (histograms_ s)
     (first_event_time_ s) (last_event_time_ s).
Definition set_num_frames_late_ x (s : t) : t :=
  mk (event_media_type_ s) (frame_stats_ s) (packet_stats_ s)
     (total_network_latency_ s) (network_latency_datapoints_ s)
     (total_e2e_latency_ s) (e2e_latency_datapoints_ s)
     (num_frames_dropped_by_encoder_ s) x
     (recent_frame_infos_ s) (packet_sent_times_ s)
     (start_time_ s) (last_response_received_time_ s) (histograms_ s)
     (first_event_time_ s) (last_event_time_ s).
Definition set_recent_frame_infos_ x (s : t) : t :=
  mk (event_media_type_ s) (frame_stats_ s) (packet_stats_ s)
     (total_network_latency_ s) (network_latency_datapoints_ s)
     (total_e2e_latency_ s) (e2e_latency_datapoints_ s)
     (num_frames_dropped_by_encoder_ s) (num_frames_late_ s) x
     (packet_sent_times_ s)
     (start_time_ s) (last_response_received_time_ s) (histograms_ s)
     (first_event_time_ s) (last_event_time_ s).
Definition set_packet_sent_times_ x (s : t) : t :=
  mk (event_media_type_ s) (frame_stats_ s) (packet_stats_ s)
     (total_network_latency_ s) (network_latency_datapoints_ s)
     (total_e2e_latency_ s) (e2e_latency_datapoints_ s)
     (num_frames_dropped_by_encoder_ s) (num_frames_late_ s)
     (recent_frame_infos_ s) x
     (start_time_ s) (last_response_received_time_ s) (histograms_ s)
     (first_event_time_ s) (last_event_time_ s).
Definition set_last_response_received_time_ x (s : t) : t :=
  mk (event_media_type_ s) (frame_stats_ s) (packet_stats_ s)
     (total_network_latency_ s) (network_latency_datapoints_ s)
     (total_e2e_latency_ s) (e2e_latency_datapoints_ s)
     (num_frames_dropped_by_encoder_ s) (num_frames_late_ s)
     (recent_frame_infos_ s) (packet_sent_times_ s)
     (start_time_ s) x (histograms_ s)
     (first_event_time_ s) (last_event_time_ s).
Definition set_histograms_ x (s : t) : t :=
  mk (event_media_type_ s) (frame_stats_ s) (packet_stats_ s)
     (total_network_latency_ s) (network_latency_datapoints_ s)
     (total_e2e_latency_ s) (e2e_latency_datapoints_ s)
     (num_frames_dropped_by_encoder_ s) (num_frames_late_ s)
     (recent_frame_infos_ s) (packet_sent_times_ s)
     (start_time_ s) (last_response_received_time_ s) x
     (first_event_time_ s) (last_event_time_ s).
Definition set_first_last_event_time (first last : TimeTicks) (s : t) : t :=
  mk (event_media_type_ s) (frame_stats_ s) (packet_stats_ s)
     (total_network_latency_ s) (network_latency_datapoints_ s)
     (total_e2e_latency_ s) (e2e_latency_datapoints_ s)
     (num_frames_dropped_by_encoder_ s) (num_frames_late_ s)
     (recent_frame_infos_ s) (packet_sent_times_ s)
     (start_time_ s) (last_response_received_time_ s) (histograms_ s)
     first last.

(** [InitHistograms]: five histograms over (0, 800, 20). Both [CHECK]s
    of the constructor pass for these constants. *)
Definition InitHistograms : Histograms.t :=
  let h := default (SimpleHistogram.mk 0 kMaxLatencyBucketMs kBucketWidthMs [])
             (SimpleHistogram.new 0 kMaxLatencyBucketMs kBucketWidthMs) in
  Histograms.mk h h h h h.

(** The constructor; [now] is what [clock_->NowTicks()] returns. *)
Definition new (event_media_type : EventMediaType) (now : TimeTicks) : t :=
  {| event_media_type_ := event_media_type;
     frame_stats_ := ∅;
     packet_stats_ := ∅;
     total_network_latency_ := 0;
     network_latency_datapoints_ := 0;
     total_e2e_latency_ := 0;
     e2e_latency_datapoints_ := 0;
     num_frames_dropped_by_encoder_ := 0;
     num_frames_late_ := 0;
     recent_frame_infos_ := [];
     packet_sent_times_ := [];
     start_time_ := now;
     last_response_received_time_ := 0;
     histograms_ := InitHistograms;
     first_event_time_ := 0;
     last_event_time_ := 0 |}.

(** [GetReceiverOffset]. [bounds] is what
    [offset_estimator_->GetReceiverOffsetBounds] answers: [None] when it
    returns false, the lower and upper bound otherwise. *)
Definition GetReceiverOffset (bounds : option (TimeDelta * TimeDelta))
  : option TimeDelta :=
  match bounds with
  | None => None
  | Some (receiver_offset_lower_bound, receiver_offset_upper_bound) =>
      Some (Z.quot (receiver_offset_lower_bound
                    + receiver_offset_upper_bound) 2)
  end.

(** [Add] with a [double] argument. *)
Definition AddF (sample : Q) (h : SimpleHistogram.t) : SimpleHistogram.t :=
  SimpleHistogram.Add (double_to_int64 sample) h.

Section WithCapacity.
(** [kMaxFrameInfoMapSize] is declared in stats_event_subscriber.h,
    which is not among the sources; it is a parameter here. *)
Variable kMaxFrameInfoMapSize : nat.

Definition UpdateFirstLastEventTime bounds (timestamp : TimeTicks)
    (is_receiver_event : bool) (s : t) : t :=
  let corrected :=
    if is_receiver_event then
      match GetReceiverOffset bounds with
      | None => None
      | Some receiver_offset => Some (timestamp - receiver_offset)
      end
    else Some timestamp in
  match corrected with
  | None => s
  | Some timestamp =>
      set_first_last_event_time
        (if is_null (first_event_time_ s) then timestamp
         else Z.min (first_event_time_ s) timestamp)
        (if is_null (last_event_time_ s) then timestamp
         else Z.max (last_event_time_ s) timestamp)
        s
  end.

Definition MaybeInsertFrameInfo (rtp_timestamp : Z)
    (frame_info : FrameInfo.t) (s : t) : t :=
  let m := recent_frame_infos_ s in
  if bool_decide (OrdMap.size m = kMaxFrameInfoMapSize)
     && match OrdMap.begin m with
        | Some (k, _) => rtp_timestamp <? k
        | None => false     (* only for a capacity of 0 *)
        end
  then s
  else
    let m := OrdMap.insert Z.ltb rtp_timestamp frame_info m in
    if bool_decide (kMaxFrameInfoMapSize <= OrdMap.size m)%nat then
      match OrdMap.begin m with
      | Some (_, erase_it) =>
          let s :=
            if is_null (FrameInfo.encode_time erase_it)
            then set_num_frames_dropped_by_encoder_
                   (num_frames_dropped_by_encoder_ s + 1) s
            else s in
          set_recent_frame_infos_ (OrdMap.erase_begin m) s
      | None => set_recent_frame_infos_ m s   (* not reached *)
      end
    else set_recent_frame_infos_ m s.

Definition RecordFrameCaptureTime (frame_event : FrameEvent.t) (s : t)
  : t :=
  let frame_info :=
    FrameInfo.set_capture_time (FrameEvent.timestamp frame_event)
                               FrameInfo.new in
  MaybeInsertFrameInfo (FrameEvent.rtp_timestamp frame_event)
                       frame_info s.

Definition RecordCaptureLatency (frame_event : FrameEvent.t) (s : t)
  : t :=
  let rtp := FrameEvent.rtp_timestamp frame_event in
  match OrdMap.find rtp (recent_frame_infos_ s) with
  | None => s
  | Some it =>
      let s :=
        if negb (is_null (FrameInfo.capture_time it)) then
          let capture_latency_ms :=
            InMillisecondsF (FrameInfo.capture_time it
                             - FrameEvent.timestamp frame_event) in
          set_histograms_
            (Histograms.on_capture_latency (AddF capture_latency_ms)
                                           (histograms_ s)) s
        else s in
      set_recent_frame_infos_
        (OrdMap.update rtp
           (FrameInfo.set_capture_end_time
              (FrameEvent.timestamp frame_event))
           (recent_frame_infos_ s)) s
  end.

Definition RecordEncodeLatency (frame_event : FrameEvent.t) (s : t)
  : t :=
  let rtp := FrameEvent.rtp_timestamp frame_event in
  match OrdMap.find rtp (recent_frame_infos_ s) with
  | None =>
      let frame_info :=
        FrameInfo.set_encode_time (FrameEvent.timestamp frame_event)
                                  FrameInfo.new in
      MaybeInsertFrameInfo rtp frame_info s
  | Some it =>
      let s :=
        if negb (is_null (FrameInfo.capture_end_time it)) then
          let encode_latency_ms :=
            InMillisecondsF (FrameEvent.timestamp frame_event
                             - FrameInfo.capture_end_time it) in
          set_histograms_
            (Histograms.on_encode_latency (AddF encode_latency_ms)
                                          (histograms_ s)) s
        else s in
      set_recent_frame_infos_
        (OrdMap.update rtp
           (FrameInfo.set_encode_time (FrameEvent.timestamp frame_event))
           (recent_frame_infos_ s)) s
  end.

Definition RecordFrameTxLatency bounds (frame_event : FrameEvent.t)
    (s : t) : t :=
  match OrdMap.find (FrameEvent.rtp_timestamp frame_event)
                    (recent_frame_infos_ s) with
  | None => s
  | Some it =>
      if is_null (FrameInfo.encode_time it) then s
      else
        match GetReceiverOffset bounds with
        | None => s
        | Some receiver_offset =>
            let sender_time :=
              FrameEvent.timestamp frame_event - receiver_offset in
            let frame_tx_latency_ms :=
              InMillisecondsF (sender_time - FrameInfo.encode_time it) in
            set_histograms_
              (Histograms.on_frame_latency (AddF frame_tx_latency_ms)
                                           (histograms_ s)) s
        end
  end.

Definition RecordE2ELatency bounds (frame_event : FrameEvent.t) (s : t)
  : t :=
  match GetReceiverOffset bounds with
  | None => s
  | Some receiver_offset =>
      match OrdMap.find (FrameEvent.rtp_timestamp frame_event)
                        (recent_frame_infos_ s) with
      | None => s
      | Some it =>
          (* Playout time is event time + playout delay. *)
          let playout_time :=
            FrameEvent.timestamp frame_event
            + FrameEvent.delay_delta frame_event - receiver_offset in
          set_e2e_latency
            (total_e2e_latency_ s
             + (playout_time - FrameInfo.capture_time it))
            (e2e_latency_datapoints_ s + 1) s
      end
  end.

Definition UpdateLastResponseTime bounds (receiver_time : TimeTicks)
    (s : t) : t :=
  match GetReceiverOffset bounds with
  | None => s
  | Some receiver_offset =>
      set_last_response_received_time_ (receiver_time - receiver_offset) s
  end.

Definition packet_key (packet_event : PacketEvent.t) : Z * Z :=
  (PacketEvent.rtp_timestamp packet_event,
   PacketEvent.packet_id packet_event).

Definition ErasePacketSentTime (packet_event : PacketEvent.t) (s : t)
  : t :=
  set_packet_sent_times_
    (OrdMap.erase (packet_key packet_event) (packet_sent_times_ s)) s.

Definition RecordNetworkLatency bounds (packet_event : PacketEvent.t)
    (s : t) : t :=
  match GetReceiverOffset bounds with
  | None => s
  | Some receiver_offset =>
      let key := packet_key packet_event in
      match OrdMap.find key (packet_sent_times_ s) with
      | None =>
          let value := (PacketEvent.timestamp packet_event,
                        PacketEvent.type packet_event) in
          let m := OrdMap.insert OrdMap.pair_ltb key value
                                 (packet_sent_times_ s) in
          if bool_decide (kMaxPacketEventTimeMapSize < OrdMap.size m)%nat
          then set_packet_sent_times_ (OrdMap.erase_begin m) s
          else set_packet_sent_times_ m s
      | Some value =>
          let recorded_type := value.2 in
          let matched :=
            if bool_decide (recorded_type = PACKET_SENT_TO_NETWORK)
               && bool_decide (PacketEvent.type packet_event
                               = PACKET_RECEIVED)
            then Some (value.1, PacketEvent.timestamp packet_event)
            else if bool_decide (recorded_type = PACKET_RECEIVED)
                    && bool_decide (PacketEvent.type packet_event
                                    = PACKET_SENT_TO_NETWORK)
            then Some (PacketEvent.timestamp packet_event, value.1)
            else None in
          match matched with
          | Some (packet_sent_time, packet_received_time) =>
              (* Subtract by offset. *)
              let packet_received_time :=
                packet_received_time - receiver_offset in
              let latency_delta :=
                packet_received_time - packet_sent_time in
              let s := set_network_latency
                         (total_network_latency_ s + latency_delta)
                         (network_latency_datapoints_ s + 1) s in
              let s := set_histograms_
                         (Histograms.on_packet_latency
                            (AddF (InMillisecondsF latency_delta))
                            (histograms_ s)) s in
              set_packet_sent_times_
                (OrdMap.erase key (packet_sent_times_ s)) s
          | None => s
          end
      end
  end.

Definition OnReceiveFrameEvent bounds (frame_event : FrameEvent.t)
    (s : t) : t :=
  let type := FrameEvent.type frame_event in
  if negb (bool_decide (FrameEvent.media_type frame_event
                        = event_media_type_ s))
  then s
  else
    let stats :=
      match frame_stats_ s !! type with
      | None =>
          FrameLogStats.mk 1 (FrameEvent.size frame_event)
                           (FrameEvent.delay_delta frame_event)
      | Some it =>
          FrameLogStats.mk
            (FrameLogStats.event_counter it + 1)
            (size_t (FrameLogStats.sum_size it
                     + FrameEvent.size frame_event))
            (FrameLogStats.sum_delay it
             + FrameEvent.delay_delta frame_event)
      end in
    let s := set_frame_stats_ (<[type := stats]> (frame_stats_ s)) s in
    let is_receiver_event := IsReceiverEvent type in
    let s := UpdateFirstLastEventTime
               bounds (FrameEvent.timestamp frame_event)
               is_receiver_event s in
    let s :=
      match type with
      | FRAME_CAPTURE_BEGIN => RecordFrameCaptureTime frame_event s
      | FRAME_CAPTURE_END => RecordCaptureLatency frame_event s
      | FRAME_ENCODED => RecordEncodeLatency frame_event s
      | FRAME_ACK_SENT => RecordFrameTxLatency bounds frame_event s
      | FRAME_PLAYOUT =>
          let s := RecordE2ELatency bounds frame_event s in
          let delay_delta := FrameEvent.delay_delta frame_event in
          let s := set_histograms_
                     (Histograms.on_playout_delay
                        (AddF (InMillisecondsF delay_delta))
                        (histograms_ s)) s in
          if delay_delta <=? 0
          then set_num_frames_late_ (num_frames_late_ s + 1) s
          else s
      | _ => s
      end in
    if is_receiver_event
    then UpdateLastResponseTime bounds
           (FrameEvent.timestamp frame_event) s
    else s.

Definition OnReceivePacketEvent bounds (packet_event : PacketEvent.t)
    (s : t) : t :=
  let type := PacketEvent.type packet_event in
  if negb (bool_decide (PacketEvent.media_type packet_event
                        = event_media_type_ s))
  then s
  else
    let stats :=
      match packet_stats_ s !! type with
      | None => PacketLogStats.mk 1 (PacketEvent.size packet_event)
      | Some it =>
          PacketLogStats.mk
            (PacketLogStats.event_counter it + 1)
            (size_t (PacketLogStats.sum_size it
                     + PacketEvent.size packet_event))
      end in
    let s := set_packet_stats_ (<[type := stats]> (packet_stats_ s)) s in
    let is_receiver_event := IsReceiverEvent type in
    let s := UpdateFirstLastEventTime
               bounds (PacketEvent.timestamp packet_event)
               is_receiver_event s in
    let s :=
      if bool_decide (type = PACKET_SENT_TO_NETWORK)
         || bool_decide (type = PACKET_RECEIVED)
      then RecordNetworkLatency bounds packet_event s
      else if bool_decide (type = PACKET_RETRANSMITTED)
      then
        (* We only measure network latency using packets that doesn't
           have to be retransmitted as there is precisely one
           sent-receive timestamp pairs. *)
        ErasePacketSentTime packet_event s
      else s in
    if is_receiver_event
    then UpdateLastResponseTime bounds
           (PacketEvent.timestamp packet_event) s
    else s.

(** [Reset]; [now] is what [clock_->NowTicks()] returns. *)
Definition Reset (now : TimeTicks) (s : t) : t :=
  {| event_media_type_ := event_media_type_ s;
     frame_stats_ := ∅;
     packet_stats_ := ∅;
     total_network_latency_ := 0;
     network_latency_datapoints_ := 0;
     total_e2e_latency_ := 0;
     e2e_latency_datapoints_ := 0;
     num_frames_dropped_by_encoder_ := 0;
     num_frames_late_ := 0;
     recent_frame_infos_ := [];
     packet_sent_times_ := [];
     start_time_ := now;
     last_response_received_time_ := 0;
     histograms_ := Histograms.map SimpleHistogram.Reset (histograms_ s);
     first_event_time_ := 0;
     last_event_time_ := 0 |}.

(** The calls that change the subscriber, each with what the clock and
    the offset estimator answer during the call. *)
Inductive call :=
| CallFrameEvent (bounds : option (TimeDelta * TimeDelta))
                 (frame_event : FrameEvent.t)
| CallPacketEvent (bounds : option (TimeDelta * TimeDelta))
                  (packet_event : PacketEvent.t)
| CallReset (now : TimeTicks).

Definition step (s : t) (c : call) : t :=
  match c with
  | CallFrameEvent bounds e => OnReceiveFrameEvent bounds e s
  | CallPacketEvent bounds e => OnReceivePacketEvent bounds e s
  | CallReset now => Reset now s
  end.

(** [calls] is in the order of the calls. *)
Definition run (calls : list call) (s : t) : t := foldl step s calls.

End WithCapacity.
(** *** The snapshot *)

(** [stats_map->insert(std::make_pair(stat, value))]: a key that is
    present keeps its value. *)
Definition stats_insert (stat : CastStat) (value : Q)
    (stats_map : gmap CastStat Q) : gmap CastStat Q :=
  match stats_map !! stat with
  | Some _ => stats_map
  | None => <[stat := value]> stats_map
  end.

Definition PopulateFpsStat (end_time : TimeTicks) (event : CastLoggingEvent)
    (stat : CastStat) (s : t) (stats_map : gmap CastStat Q)
  : gmap CastStat Q :=
  match frame_stats_ s !! event with
  | None => stats_map
  | Some it =>
      let duration := end_time - start_time_ s in
      let count := FrameLogStats.event_counter it in
      let fps := if 0 <? duration
                 then (inject_Z count / InSecondsF duration)%Q
                 else 0%Q in
      stats_insert stat fps stats_map
  end.

Definition PopulateFrameCountStat (event : CastLoggingEvent)
    (stat : CastStat) (s : t) (stats_map : gmap CastStat Q)
  : gmap CastStat Q :=
  match frame_stats_ s !! event with
  | None => stats_map
  | Some it =>
      stats_insert stat (inject_Z (FrameLogStats.event_counter it))
                   stats_map
  end.

Definition PopulatePacketCountStat (event : CastLoggingEvent)
    (stat : CastStat) (s : t) (stats_map : gmap CastStat Q)
  : gmap CastStat Q :=
  match packet_stats_ s !! event with
  | None => stats_map
  | Some it =>
      stats_insert stat (inject_Z (PacketLogStats.event_counter it))
                   stats_map
  end.

Definition PopulatePlayoutDelayStat (s : t) (stats_map : gmap CastStat Q)
  : gmap CastStat Q :=
  match frame_stats_ s !! FRAME_PLAYOUT with
  | None => stats_map
  | Some it =>
      let sum_delay := FrameLogStats.sum_delay it in
      let count := FrameLogStats.event_counter it in
      let avg_delay_ms := if negb (count =? 0)
                          then (InMillisecondsF sum_delay / inject_Z count)%Q
                          else 0%Q in
      stats_insert AVG_PLAYOUT_DELAY_MS avg_delay_ms stats_map
  end.

Definition PopulateFrameBitrateStat (end_time : TimeTicks) (s : t)
    (stats_map : gmap CastStat Q) : gmap CastStat Q :=
  match frame_stats_ s !! FRAME_ENCODED with
  | None => stats_map
  | Some it =>
      let duration := end_time - start_time_ s in
      let kbps := if 0 <? duration
                  then (inject_Z (FrameLogStats.sum_size it)
                        / InMillisecondsF duration * 8)%Q
                  else 0%Q in
      stats_insert ENCODE_KBPS kbps stats_map
  end.

Definition PopulatePacketBitrateStat (end_time : TimeTicks)
    (event : CastLoggingEvent) (stat : CastStat) (s : t)
    (stats_map : gmap CastStat Q) : gmap CastStat Q :=
  match packet_stats_ s !! event with
  | None => stats_map
  | Some it =>
      let duration := end_time - start_time_ s in
      let kbps := if 0 <? duration
                  then (inject_Z (PacketLogStats.sum_size it)
                        / InMillisecondsF duration * 8)%Q
                  else 0%Q in
      stats_insert stat kbps stats_map
  end.

(** We assume that retransmission means that the packet's previous
    (re)transmission was lost. This means the percentage of packet loss
    is (# of retransmit events) / (# of transmit + retransmit events). *)
Definition PopulatePacketLossPercentageStat (s : t)
    (stats_map : gmap CastStat Q) : gmap CastStat Q :=
  match packet_stats_ s !! PACKET_SENT_TO_NETWORK with
  | None => stats_map
  | Some sent_it =>
      let sent_count := PacketLogStats.event_counter sent_it in
      let retransmitted_count :=
        match packet_stats_ s !! PACKET_RETRANSMITTED with
        | Some retransmitted_it =>
            PacketLogStats.event_counter retransmitted_it
        | None => 0
        end in
      let packet_loss_fraction :=
        (inject_Z retransmitted_count
         / inject_Z (sent_count + retransmitted_count))%Q in
      stats_insert PACKET_LOSS_FRACTION packet_loss_fraction stats_map
  end.

(** [GetStatsInternal]. [end_time] is what [clock_->NowTicks()] returns
    and [unix_epoch] is [base::TimeTicks::UnixEpoch()]. *)
Definition GetStatsInternal (unix_epoch end_time : TimeTicks) (s : t)
  : gmap CastStat Q :=
  let m : gmap CastStat Q := ∅ in
  let m := PopulateFpsStat end_time FRAME_CAPTURE_BEGIN CAPTURE_FPS s m in
  let m := PopulateFpsStat end_time FRAME_ENCODED ENCODE_FPS s m in
  let m := PopulateFpsStat end_time FRAME_DECODED DECODE_FPS s m in
  let m := PopulatePlayoutDelayStat s m in
  let m := PopulateFrameBitrateStat end_time s m in
  let m := PopulatePacketBitrateStat end_time PACKET_SENT_TO_NETWORK
             TRANSMISSION_KBPS s m in
  let m := PopulatePacketBitrateStat end_time PACKET_RETRANSMITTED
             RETRANSMISSION_KBPS s m in
  let m := PopulatePacketLossPercentageStat s m in
  let m := PopulateFrameCountStat FRAME_CAPTURE_END NUM_FRAMES_CAPTURED
             s m in
  let m := PopulatePacketCountStat PACKET_SENT_TO_NETWORK NUM_PACKETS_SENT
             s m in
  let m := PopulatePacketCountStat PACKET_RETRANSMITTED
             NUM_PACKETS_RETRANSMITTED s m in
  let m := PopulatePacketCountStat PACKET_RTX_REJECTED
             NUM_PACKETS_RTX_REJECTED s m in
  let m :=
    if 0 <? network_latency_datapoints_ s
    then stats_insert AVG_NETWORK_LATENCY_MS
           (InMillisecondsF (total_network_latency_ s)
            / inject_Z (network_latency_datapoints_ s))%Q m
    else m in
  let m :=
    if 0 <? e2e_latency_datapoints_ s
    then stats_insert AVG_E2E_LATENCY_MS
           (InMillisecondsF (total_e2e_latency_ s)
            / inject_Z (e2e_latency_datapoints_ s))%Q m
    else m in
  let m :=
    if negb (is_null (last_response_received_time_ s))
    then stats_insert MS_SINCE_LAST_RECEIVER_RESPONSE
           (InMillisecondsF (end_time - last_response_received_time_ s)) m
    else m in
  let m := stats_insert NUM_FRAMES_DROPPED_BY_ENCODER
             (inject_Z (num_frames_dropped_by_encoder_ s)) m in
  let m := stats_insert NUM_FRAMES_LATE
             (inject_Z (num_frames_late_ s)) m in
  let m :=
    if negb (is_null (first_event_time_ s))
    then stats_insert FIRST_EVENT_TIME_MS
           (InMillisecondsF (first_event_time_ s - unix_epoch)) m
    else m in
  if negb (is_null (last_event_time_ s))
  then stats_insert LAST_EVENT_TIME_MS
         (InMillisecondsF (last_event_time_ s - unix_epoch)) m
  else m.

(** [GetStats]: the key of the dictionary, the scalar statistics and the
    five histograms. *)
Definition GetStats (unix_epoch now : TimeTicks) (s : t)
  : string * gmap CastStat Q
    * list (CastStat * list (SimpleHistogram.label * Z)) :=
  (if bool_decide (event_media_type_ s = AUDIO_EVENT)
   then "audio" else "video",
   GetStatsInternal unix_epoch now s,
   [(CAPTURE_LATENCY_MS_HISTO,
     SimpleHistogram.GetHistogram
       (Histograms.capture_latency (histograms_ s)));
    (ENCODE_LATENCY_MS_HISTO,
     SimpleHistogram.GetHistogram
       (Histograms.encode_latency (histograms_ s)));
    (PACKET_LATENCY_MS_HISTO,
     SimpleHistogram.GetHistogram
       (Histograms.packet_latency (histograms_ s)));
    (FRAME_LATENCY_MS_HISTO,
     SimpleHistogram.GetHistogram
       (Histograms.frame_latency (histograms_ s)));
    (PLAYOUT_DELAY_MS_HISTO,
     SimpleHistogram.GetHistogram
       (Histograms.playout_delay (histograms_ s)))]).

End StatsEventSubscriber.

(** ** The properties stated of the model *)

Section Properties.
Import SimpleHistogram.

(** What the constructor of [SimpleHistogram] establishes and every
    operation keeps. *)
Definition shape (min max width : Z) (h : t) : Prop :=
  min_ h = min /\ max_ h = max /\ width_ h = width /\
  width <> 0 /\ Z.rem (max - min) width = 0 /\
  Z.of_nat (size h) = Z.quot (max - min) width + 2 /\
  (2 < size h)%nat.

End Properties.

Section SubscriberProperties.
Import StatsEventSubscriber.

Definition latency_shape (h : SimpleHistogram.t) : Prop :=
  shape 0 kMaxLatencyBucketMs kBucketWidthMs h.

Definition histograms_shape (h : Histograms.t) : Prop :=
  latency_shape (Histograms.capture_latency h) /\
  latency_shape (Histograms.encode_latency h) /\
  latency_shape (Histograms.packet_latency h) /\
  latency_shape (Histograms.frame_latency h) /\
  latency_shape (Histograms.playout_delay h).

(** What holds of the subscriber between any two calls, for a frame cache
    of capacity [kMaxFrameInfoMapSize]. *)
Record Inv (kMaxFrameInfoMapSize : nat) (s : t) : Prop := {
  inv_histograms : histograms_shape (histograms_ s);
  inv_packets_sorted :
    OrdMap.sorted OrdMap.pair_ltb (packet_sent_times_ s);
  inv_packets_size :
    (length (packet_sent_times_ s) <= kMaxPacketEventTimeMapSize)%nat;
  inv_frames_size :
    (0 < kMaxFrameInfoMapSize ->
     length (recent_frame_infos_ s) < kMaxFrameInfoMapSize)%nat;
  inv_packet_counts :
    forall e st, packet_stats_ s !! e = Some st ->
                 1 <= PacketLogStats.event_counter st;
  inv_frames_sorted : OrdMap.sorted Z.ltb (recent_frame_infos_ s)
}.

(** Frame infos put into the cache one after the other. *)
Definition insert_all (kMaxFrameInfoMapSize : nat)
    (infos : list (Z * FrameInfo.t)) (s : t) : t :=
  foldl (fun s kv => MaybeInsertFrameInfo kMaxFrameInfoMapSize kv.1 kv.2 s)
        s infos.

(** How many of the frame infos have no encode time. *)
Fixpoint never_encoded (infos : list (Z * FrameInfo.t)) : Z :=
  match infos with
  | [] => 0
  | kv :: infos' =>
      (if Time.is_null (FrameInfo.encode_time kv.2) then 1 else 0)
      + never_encoded infos'
  end.

(** The frame info [RecordFrameCaptureTime] builds. *)
Definition captured (ts : Time.TimeTicks) : FrameInfo.t :=
  FrameInfo.set_capture_time ts FrameInfo.new.

(** The two kinds of a pair, in either order of arrival. *)
Definition complementary (recorded incoming : CastLoggingEvent) : bool :=
  (bool_decide (recorded = PACKET_SENT_TO_NETWORK)
   && bool_decide (incoming = PACKET_RECEIVED))
  || (bool_decide (recorded = PACKET_RECEIVED)
      && bool_decide (incoming = PACKET_SENT_TO_NETWORK)).

(** The running network-latency total, the number of its datapoints and
    the packet-latency histogram. *)
Definition network_stats (s : t)
  : Time.TimeDelta * Z * SimpleHistogram.t :=
  (total_network_latency_ s, network_latency_datapoints_ s,
   Histograms.packet_latency (histograms_ s)).

(** All that [RecordNetworkLatency] reads and writes. *)
Definition network_view (s : t) :=
  (packet_sent_times_ s, network_stats s).

(** An entry inserted for [key] is not the one the capacity bound erases:
    the map has room, or it holds a smaller key. *)
Definition stays_after_insert (key : Z * Z)
    (m : list ((Z * Z) * (Time.TimeTicks * CastLoggingEvent))) : Prop :=
  (length m < kMaxPacketEventTimeMapSize)%nat \/
  exists k0 v0, OrdMap.begin m = Some (k0, v0) /\
                OrdMap.pair_ltb k0 key = true.

(** The pairing map holding 1000 entries, frames 1 to 1000. *)
Definition full_packet_map : t :=
  run 100
    (List.map
       (fun i => CallPacketEvent (Some (0, 0))
                   (PacketEvent.mk 5 PACKET_SENT_TO_NETWORK VIDEO_EVENT
                                   (Z.of_nat i) 0 0 0 100))
       (seq 1 1000))
    (new VIDEO_EVENT 5).

(** The five histograms, in the order of their keys. *)
Definition all_histograms (h : Histograms.t) : list SimpleHistogram.t :=
  [Histograms.capture_latency h; Histograms.encode_latency h;
   Histograms.packet_latency h; Histograms.frame_latency h;
   Histograms.playout_delay h].

(** [h'] has the bucket definitions of [h], and every count at zero. *)
Definition zeroed_like (h h' : SimpleHistogram.t) : Prop :=
  SimpleHistogram.min_ h' = SimpleHistogram.min_ h /\
  SimpleHistogram.max_ h' = SimpleHistogram.max_ h /\
  SimpleHistogram.width_ h' = SimpleHistogram.width_ h /\
  SimpleHistogram.size h' = SimpleHistogram.size h /\
  Forall (fun c => c = 0) (SimpleHistogram.buckets_ h').

End SubscriberProperties.

(** ** Further code of the two files *)

(** [TimeDelta::InMilliseconds]: the whole milliseconds, rounded toward
    0. *)
Definition InMilliseconds (d : Time.TimeDelta) : Z :=
  Z.quot d (Zpos Time.kMicrosecondsPerMillisecond).

(** [GetVideoRtpTimestamp] (cast_transport_defines.h); the cast to
    [uint32] reduces modulo 2^32. *)
Definition GetVideoRtpTimestamp (time_ticks : Time.TimeTicks) : Z :=
  let zero_time : Time.TimeTicks := 0 in
  let recorded_delta := time_ticks - zero_time in
  (* Timestamp is in 90 KHz for video. *)
  uint32 (InMilliseconds recorded_delta * 90).

(** [StatsEventSubscriber::CastStatToString]: [STAT_ENUM_TO_STRING] gives
    the name of the enumerator. *)
Definition CastStatToString (stat : CastStat) : string :=
  match stat with
  | CAPTURE_FPS => "CAPTURE_FPS"
  | ENCODE_FPS => "ENCODE_FPS"
  | DECODE_FPS => "DECODE_FPS"
  | AVG_ENCODE_TIME_MS => "AVG_ENCODE_TIME_MS"
  | AVG_PLAYOUT_DELAY_MS => "AVG_PLAYOUT_DELAY_MS"
  | AVG_NETWORK_LATENCY_MS => "AVG_NETWORK_LATENCY_MS"
  | AVG_E2E_LATENCY_MS => "AVG_E2E_LATENCY_MS"
  | ENCODE_KBPS => "ENCODE_KBPS"
  | TRANSMISSION_KBPS => "TRANSMISSION_KBPS"
  | RETRANSMISSION_KBPS => "RETRANSMISSION_KBPS"
  | PACKET_LOSS_FRACTION => "PACKET_LOSS_FRACTION"
  | MS_SINCE_LAST_RECEIVER_RESPONSE => "MS_SINCE_LAST_RECEIVER_RESPONSE"
  | NUM_FRAMES_CAPTURED => "NUM_FRAMES_CAPTURED"
  | NUM_FRAMES_DROPPED_BY_ENCODER => "NUM_FRAMES_DROPPED_BY_ENCODER"
  | NUM_FRAMES_LATE => "NUM_FRAMES_LATE"
  | NUM_PACKETS_SENT => "NUM_PACKETS_SENT"
  | NUM_PACKETS_RETRANSMITTED => "NUM_PACKETS_RETRANSMITTED"
  | NUM_PACKETS_RTX_REJECTED => "NUM_PACKETS_RTX_REJECTED"
  | FIRST_EVENT_TIME_MS => "FIRST_EVENT_TIME_MS"
  | LAST_EVENT_TIME_MS => "LAST_EVENT_TIME_MS"
  | CAPTURE_LATENCY_MS_HISTO => "CAPTURE_LATENCY_MS_HISTO"
  | ENCODE_LATENCY_MS_HISTO => "ENCODE_LATENCY_MS_HISTO"
  | PACKET_LATENCY_MS_HISTO => "PACKET_LATENCY_MS_HISTO"
  | FRAME_LATENCY_MS_HISTO => "FRAME_LATENCY_MS_HISTO"
  | PLAYOUT_DELAY_MS_HISTO => "PLAYOUT_DELAY_MS_HISTO"
  end.

(** ** Further properties stated of the model *)

Section ResolverProperties.
Import FrameIdWrapHelper.

(** The zone of a wire value. *)
Definition zone (v : Z) : Range :=
  if v <=? kLowRangeThreshold then kLowRange
  else if v <? kHighRangeThreshold then kMiddleRange
  else kHighRange.

(** The helper has followed the stream up to the frame id [latest]: it
    holds the wrap count and the zone of [latest]. *)
Definition tracks (s : t) (latest : Z) : Prop :=
  frame_id_wrap_count_ s = latest / 256 /\
  range_ s = zone (latest mod 256).

(** Every frame id of the stream is a [uint32] and at most 64 away from
    the largest id before it, [latest] at the start. *)
Fixpoint within_window (latest : Z) (ids : list Z) : Prop :=
  match ids with
  | [] => True
  | f :: ids' =>
      0 <= f < 2 ^ 32 /\ latest - 64 <= f <= latest + 64 /\
      within_window (Z.max latest f) ids'
  end.

End ResolverProperties.

Section HistogramProperties.
Import SimpleHistogram.

(** The labels of a histogram over (min, max, width) with [k] interior
    buckets, in order: the interior ranges follow one another from [min]
    on. *)
Definition labels (min max width : Z) (k : nat) : list label :=
  Below min
    :: ((fun i : nat => Between (min + Z.of_nat i * width)
                           (min + Z.of_nat i * width + width - 1))
          <$> seq 0 k)
    ++ [AtLeast max].

(** The label of the [j]-th interior bucket that the loop of
    [GetHistogram] reaches when it starts at index [i]. *)
Definition interior_label (h : t) (i : Z) (j : nat) : label :=
  Between (min_ h + (i - 1 + Z.of_nat j) * width_ h)
          (min_ h + (i - 1 + Z.of_nat j) * width_ h + width_ h - 1).

(** The arguments of the constructor are [int64] values and its
    arithmetic, [(max - min) / width + 2], does not overflow. *)
Definition int64 (z : Z) : Prop := - 2 ^ 63 <= z < 2 ^ 63.

Definition constructor_defined (min max width : Z) : Prop :=
  int64 min /\ int64 max /\ int64 width /\ int64 (max - min) /\
  int64 (Z.quot (max - min) width + 2).

(** The sample belongs under the label. *)
Definition label_holds (l : label) (sample : Z) : Prop :=
  match l with
  | Below min => sample < min
  | Between lower upper => lower <= sample <= upper
  | AtLeast max => max <= sample
  end.

End HistogramProperties.

Section EngineProperties.
Import StatsEventSubscriber.

(** The phases of [OnReceiveFrameEvent], in the order of the source:
    the per-kind counters, [UpdateFirstLastEventTime], the [Record...]
    call of the kind, and [UpdateLastResponseTime] for a receiver
    event. *)
Definition frame_counter_after (e : FrameEvent.t)
    (old : option FrameLogStats.t) : FrameLogStats.t :=
  match old with
  | None =>
      FrameLogStats.mk 1 (FrameEvent.size e) (FrameEvent.delay_delta e)
  | Some it =>
      FrameLogStats.mk
        (FrameLogStats.event_counter it + 1)
        (size_t (FrameLogStats.sum_size it + FrameEvent.size e))
        (FrameLogStats.sum_delay it + FrameEvent.delay_delta e)
  end.

Definition count_frame_event (e : FrameEvent.t) (s : t) : t :=
  set_frame_stats_
    (<[FrameEvent.type e :=
         frame_counter_after e (frame_stats_ s !! FrameEvent.type e)]>
       (frame_stats_ s)) s.

Definition record_frame_event (kMaxFrameInfoMapSize : nat) bounds
    (e : FrameEvent.t) (s : t) : t :=
  match FrameEvent.type e with
  | FRAME_CAPTURE_BEGIN => RecordFrameCaptureTime kMaxFrameInfoMapSize e s
  | FRAME_CAPTURE_END => RecordCaptureLatency e s
  | FRAME_ENCODED => RecordEncodeLatency kMaxFrameInfoMapSize e s
  | FRAME_ACK_SENT => RecordFrameTxLatency bounds e s
  | FRAME_PLAYOUT =>
      let s := RecordE2ELatency bounds e s in
      let delay_delta := FrameEvent.delay_delta e in
      let s := set_histograms_
                 (Histograms.on_playout_delay
                    (AddF (Time.InMillisecondsF delay_delta))
                    (histograms_ s)) s in
      if delay_delta <=? 0
      then set_num_frames_late_ (num_frames_late_ s + 1) s
      else s
  | _ => s
  end.

Definition respond bounds (timestamp : Time.TimeTicks)
    (type : CastLoggingEvent) (s : t) : t :=
  if IsReceiverEvent type
  then UpdateLastResponseTime bounds timestamp s
  else s.

(** The phases of [OnReceivePacketEvent]. *)
Definition packet_counter_after (e : PacketEvent.t)
    (old : option PacketLogStats.t) : PacketLogStats.t :=
  match old with
  | None => PacketLogStats.mk 1 (PacketEvent.size e)
  | Some it =>
      PacketLogStats.mk
        (PacketLogStats.event_counter it + 1)
        (size_t (PacketLogStats.sum_size it + PacketEvent.size e))
  end.

Definition count_packet_event (e : PacketEvent.t) (s : t) : t :=
  set_packet_stats_
    (<[PacketEvent.type e :=
         packet_counter_after e (packet_stats_ s !! PacketEvent.type e)]>
       (packet_stats_ s)) s.

Definition record_packet_event bounds (e : PacketEvent.t) (s : t) : t :=
  if bool_decide (PacketEvent.type e = PACKET_SENT_TO_NETWORK)
     || bool_decide (PacketEvent.type e = PACKET_RECEIVED)
  then RecordNetworkLatency bounds e s
  else if bool_decide (PacketEvent.type e = PACKET_RETRANSMITTED)
  then ErasePacketSentTime e s
  else s.

(** The call is not dropped by the media-type test of the two event
    handlers. *)
Definition relevant (mt : EventMediaType) (c : call) : bool :=
  match c with
  | CallFrameEvent _ e => bool_decide (FrameEvent.media_type e = mt)
  | CallPacketEvent _ e => bool_decide (PacketEvent.media_type e = mt)
  | CallReset _ => true
  end.

(** The calls after the last [Reset]. *)
Definition since_reset (calls : list call) : list call :=
  foldl (fun acc c => match c with
                      | CallReset _ => []
                      | _ => acc ++ [c]
                      end) [] calls.

(** The frame events of media type [mt] and kind [type] among the
    calls. *)
Definition frame_events (mt : EventMediaType) (type : CastLoggingEvent)
    (calls : list call) : list FrameEvent.t :=
  omap (fun c => match c with
                 | CallFrameEvent _ e =>
                     if bool_decide (FrameEvent.media_type e = mt)
                        && bool_decide (FrameEvent.type e = type)
                     then Some e else None
                 | _ => None
                 end) calls.

Definition packet_events (mt : EventMediaType) (type : CastLoggingEvent)
    (calls : list call) : list PacketEvent.t :=
  omap (fun c => match c with
                 | CallPacketEvent _ e =>
                     if bool_decide (PacketEvent.media_type e = mt)
                        && bool_decide (PacketEvent.type e = type)
                     then Some e else None
                 | _ => None
                 end) calls.

Definition sum_of {A : Type} (f : A -> Z) (l : list A) : Z :=
  foldr (fun a acc => f a + acc) 0 l.

(** A counter of a snapshot: absent when nothing was counted. *)
Definition count_stat (k : nat) : option Q :=
  match k with
  | O => None
  | S _ => Some (inject_Z (Z.of_nat k))
  end.

(** The time an event is given by [UpdateFirstLastEventTime]: the
    timestamp, moved to the sender's clock for a receiver event; none for
    a receiver event without offset bounds. *)
Definition corrected_time (bounds : option (Time.TimeDelta * Time.TimeDelta))
    (timestamp : Time.TimeTicks) (type : CastLoggingEvent)
  : option Time.TimeTicks :=
  if IsReceiverEvent type
  then (fun receiver_offset => timestamp - receiver_offset)
         <$> GetReceiverOffset bounds
  else Some timestamp.

(** The corrected times of the events of media type [mt] among the
    calls, in order. *)
Definition event_times (mt : EventMediaType) (calls : list call)
  : list Time.TimeTicks :=
  omap (fun c => match c with
                 | CallFrameEvent bounds e =>
                     if bool_decide (FrameEvent.media_type e = mt)
                     then corrected_time bounds (FrameEvent.timestamp e)
                                         (FrameEvent.type e)
                     else None
                 | CallPacketEvent bounds e =>
                     if bool_decide (PacketEvent.media_type e = mt)
                     then corrected_time bounds (PacketEvent.timestamp e)
                                         (PacketEvent.type e)
                     else None
                 | CallReset _ => None
                 end) calls.

(** The assignments of [UpdateFirstLastEventTime] to the pair of the
    first and the last event time. *)
Definition note_time (first_last : Time.TimeTicks * Time.TimeTicks)
    (timestamp : Time.TimeTicks) : Time.TimeTicks * Time.TimeTicks :=
  (if Time.is_null first_last.1 then timestamp
   else Z.min first_last.1 timestamp,
   if Time.is_null first_last.2 then timestamp
   else Z.max first_last.2 timestamp).

Definition first_last_event_time (s : t) : Time.TimeTicks * Time.TimeTicks :=
  (first_event_time_ s, last_event_time_ s).

(** All that the [Record...] calls of [OnReceiveFrameEvent] read and
    write. *)
Definition frame_view (s : t) :=
  (recent_frame_infos_ s, histograms_ s,
   (total_e2e_latency_ s, e2e_latency_datapoints_ s),
   num_frames_dropped_by_encoder_ s, num_frames_late_ s).

(** The histograms and the two numbers of latency datapoints. *)
Definition totals_view (s : t) :=
  (histograms_ s, e2e_latency_datapoints_ s, network_latency_datapoints_ s).

(** Every entry of the pairing map is of one of the two kinds that are
    paired. *)
Definition pairing_kinds
    (m : list ((Z * Z) * (Time.TimeTicks * CastLoggingEvent))) : Prop :=
  Forall (fun kv => kv.2.2 = PACKET_SENT_TO_NETWORK \/
                    kv.2.2 = PACKET_RECEIVED) m.

(** What [clock_->NowTicks()] returned at the construction or at the
    last [Reset]. *)
Definition start_of (now : Time.TimeTicks) (calls : list call)
  : Time.TimeTicks :=
  foldl (fun t c => match c with CallReset now' => now' | _ => t end)
        now calls.

(** A statistic computed from the events that were counted: absent when
    there was none. *)
Definition stat_of_events {A : Type} (f : list A -> Q) (events : list A)
  : option Q :=
  match events with
  | [] => None
  | _ :: _ => Some (f events)
  end.

(** The keys that [GetStats] sets in the dictionary of one media type, in
    the order of its two loops: the name of every statistic of the
    [StatsMap], then the names of the histograms. *)
Definition GetStats_keys (unix_epoch now : Time.TimeTicks) (s : t)
  : list string :=
  let stats_map := (GetStats unix_epoch now s).1.2 in
  let histograms := (GetStats unix_epoch now s).2 in
  (CastStatToString
     <$> filter (fun stat => is_Some (stats_map !! stat)) (enum CastStat))
  ++ (CastStatToString <$> histograms.*1).

End EngineProperties.
(** ** Properties of FrameIdWrapHelper *)

Section FrameIdWrapHelperFacts.
Import FrameIdWrapHelper.

Lemma make_id_shift w v : make_id w v = uint32 (w * 256 + v).
Proof.
  unfold make_id, uint32. rewrite Z.shiftl_mul_pow2 by lia.
  change (2 ^ 8) with 256. by rewrite Zplus_mod_idemp_l.
Qed.

(** C2. The per-call behaviour of the resolver: the start-up value 0xFF
    on the first call returns the sentinel and leaves the wrap count and
    zone as they are; any other call runs the three-zone machine with
    thresholds 63 and 192 and returns [(effective wrap count << 8) + v];
    and after a first call of 0xFF the wire values 0, 50, 100, 150, 200,
    250, 10, 60 give strictly increasing ids with one wrap-count
    increment, on the call that carries 10. *)
Theorem MapTo32bitsFrameId_behaviour (s : t) (v : Z) :
  0 <= v < 256 ->
  let w := frame_id_wrap_count_ s in
  let id := (MapTo32bitsFrameId v s).1 in
  let s' := (MapTo32bitsFrameId v s).2 in
  first_ s' = false /\
  (first_ s = true -> v = 0xff ->
     id = 0xffffffff /\ frame_id_wrap_count_ s' = w /\
     range_ s' = range_ s) /\
  (~ (first_ s = true /\ v = 0xff) ->
     (range_ s = kLowRange -> 63 < v < 192 ->
        range_ s' = kMiddleRange /\ frame_id_wrap_count_ s' = w /\
        id = make_id w v) /\
     (range_ s = kLowRange -> 192 <= v ->
        range_ s' = kLowRange /\ frame_id_wrap_count_ s' = w /\
        id = make_id (uint32 (w - 1)) v) /\
     (range_ s = kLowRange -> v <= 63 ->
        range_ s' = kLowRange /\ frame_id_wrap_count_ s' = w /\
        id = make_id w v) /\
     (range_ s = kMiddleRange -> 192 <= v ->
        range_ s' = kHighRange /\ frame_id_wrap_count_ s' = w /\
        id = make_id w v) /\
     (range_ s = kMiddleRange -> v < 192 ->
        range_ s' = kMiddleRange /\ frame_id_wrap_count_ s' = w /\
        id = make_id w v) /\
     (range_ s = kHighRange -> v <= 63 ->
        range_ s' = kLowRange /\
        frame_id_wrap_count_ s' = uint32 (w + 1) /\
        id = make_id (uint32 (w + 1)) v) /\
     (range_ s = kHighRange -> 63 < v ->
        range_ s' = kHighRange /\ frame_id_wrap_count_ s' = w /\
        id = make_id w v)) /\
  (let s0 := (MapTo32bitsFrameId 0xff new).2 in
   let out := (feed [0; 50; 100; 150; 200; 250; 10; 60] s0).1 in
   (MapTo32bitsFrameId 0xff new).1 = 0xffffffff /\
   out.*1 = [0; 50; 100; 150; 200; 250; 266; 316] /\
   strictly_increasing out.*1 = true /\
   out.*2 = [0; 0; 0; 0; 0; 0; 1; 1]).
Proof.
  intros Hv w id s'. subst w id s'.
  destruct s as [f w r]. cbn [first_ frame_id_wrap_count_ range_].
  unfold MapTo32bitsFrameId, switch_range, kLowRangeThreshold,
    kHighRangeThreshold, kStartFrameId.
  cbn [first_ frame_id_wrap_count_ range_].
  split; [| split; [| split]].
  - destruct (f && (v =? 255)); [done |].
    destruct r; repeat case_match; simplify_eq; done.
  - intros Hf Hv'. subst f v. done.
  - intros Hn.
    assert (Hfv : (f && (v =? 255)) = false).
    { destruct f; [| done]. apply Z.eqb_neq. intros Hv'. by apply Hn. }
    rewrite Hfv.
    repeat (apply conj); intros Hr Hc; subst r;
      repeat case_match; simplify_eq; cbn; split_and?;
      repeat match goal with
             | H : _ && _ = true |- _ => apply andb_true_iff in H as [? ?]
             | H : _ && _ = false |- _ => apply andb_false_iff in H as [?|?]
             end; try done; lia.
  - vm_compute. done.
Qed.

(** The behaviour theorem at the second sample of the sequence: zone Low,
    wire value 50. *)
Lemma MapTo32bitsFrameId_behaviour_witness :
  0 <= 50 < 256 /\
  (MapTo32bitsFrameId 50 (mk false 0 kLowRange)).1 = 50.
Proof.
  split; [lia |].
  pose proof (MapTo32bitsFrameId_behaviour (mk false 0 kLowRange) 50
                ltac:(lia)) as H.
  cbv zeta in H.
  destruct H as (_ & _ & H & _).
  destruct (H ltac:(cbn; intros [? _]; discriminate))
    as (_ & _ & H3 & _).
  destruct (H3 eq_refl ltac:(lia)) as (_ & _ & ->). reflexivity.
Defined.

(** C10. The stale-sample decrement is [uint32] arithmetic and is not
    clamped: in zone Low with a stored wrap count of 0, a wire value
    [192 <= v < 255] is given the effective wrap count [2^32 - 1], so the
    id returned is [0xFFFFFF00 + v], and the stored state does not
    move. *)
Theorem MapTo32bitsFrameId_stale_underflow (f : bool) (v : Z) :
  192 <= v < 255 ->
  let s := mk f 0 kLowRange in
  uint32 (0 - 1) = 2 ^ 32 - 1 /\
  (MapTo32bitsFrameId v s).1 = 0xFFFFFF00 + v /\
  (MapTo32bitsFrameId v s).1 = uint32 (0xFFFFFF00 + v) /\
  2 ^ 32 - 64 <= (MapTo32bitsFrameId v s).1 < 2 ^ 32 /\
  frame_id_wrap_count_ (MapTo32bitsFrameId v s).2 = 0 /\
  range_ (MapTo32bitsFrameId v s).2 = kLowRange.
Proof.
  intros Hv s. subst s.
  assert (Hid : (MapTo32bitsFrameId v (mk f 0 kLowRange)).1
                = 0xFFFFFF00 + v).
  { unfold MapTo32bitsFrameId, switch_range, kLowRangeThreshold,
      kHighRangeThreshold. cbn [first_ frame_id_wrap_count_ range_].
    assert ((f && (v =? 255)) = false) as ->.
    { apply andb_false_iff. right. apply Z.eqb_neq. lia. }
    assert ((192 <=? v) = true) as -> by (apply Z.leb_le; lia).
    cbn [fst]. rewrite make_id_shift.
    change (uint32 (0 - 1)) with 4294967295. unfold uint32.
    replace (4294967295 * 256 + v)
      with ((0xFFFFFF00 + v) + 255 * 2 ^ 32) by lia.
    rewrite Z_mod_plus_full. apply Z.mod_small. lia. }
  split; [done |]. split; [done |].
  split; [rewrite Hid; unfold uint32; symmetry; apply Z.mod_small; lia |].
  split; [rewrite Hid; lia |].
  unfold MapTo32bitsFrameId, switch_range, kLowRangeThreshold,
    kHighRangeThreshold. cbn [first_ frame_id_wrap_count_ range_].
  assert ((f && (v =? 255)) = false) as ->.
  { apply andb_false_iff. right. apply Z.eqb_neq. lia. }
  assert ((192 <=? v) = true) as -> by (apply Z.leb_le; lia).
  assert (((63 <? v) && (v <? 192)) = false) as ->.
  { apply andb_false_iff. right. apply Z.ltb_ge. lia. }
  done.
Qed.

(** The very first call of a new resolver with wire value 200. *)
Lemma MapTo32bitsFrameId_stale_underflow_witness :
  192 <= 200 < 255 /\ (MapTo32bitsFrameId 200 new).1 = 4294967240.
Proof.
  split; [lia |].
  destruct (MapTo32bitsFrameId_stale_underflow true 200 ltac:(lia))
    as (_ & H & _).
  exact H.
Defined.

End FrameIdWrapHelperFacts.

(** ** Properties of SimpleHistogram *)

Section SimpleHistogramFacts.
Import SimpleHistogram.


Lemma incr_insert (b : list Z) (i : nat) (c : Z) :
  b !! i = Some c -> incr i b = <[i := c + 1]> b.
Proof.
  intros Hc. unfold incr. rewrite list_insert_alter.
  apply list_alter_ext; [| done]. intros x Hx. by simplify_eq.
Qed.

Lemma sum_incr (b : list Z) (i : nat) :
  (i < length b)%nat ->
  foldr Z.add 0 (incr i b) = foldr Z.add 0 b + 1.
Proof.
  revert i. induction b as [|c b IH]; intros [|i] Hi; cbn in *; try lia.
  unfold incr in IH. rewrite IH by lia. lia.
Qed.

Lemma sum_replicate_0 (n : nat) : foldr Z.add 0 (replicate n 0) = 0.
Proof. induction n as [|n IH]; cbn; [done | by rewrite IH]. Qed.

Lemma new_shape min max width h :
  new min max width = Some h -> shape min max width h /\ total h = 0.
Proof.
  unfold new. intros H.
  destruct (Z.eqb_spec width 0) as [|Hw0]; [done |].
  destruct (Z.leb_spec (Z.quot (max - min) width + 2) 2) as [|Hn]; [done |].
  destruct (Z.eqb_spec (Z.rem (max - min) width) 0) as [Hr|]; [| done].
  cbn in H. simplify_eq. unfold shape, total, size. cbn.
  rewrite length_replicate, sum_replicate_0.
  split_and!; try done; lia.
Qed.

(** Under [shape] the three branches of [Add] increment the bucket
    [bucket_index] names, and that bucket exists: the [DCHECK_LT] of
    [Add] holds. *)
Lemma Add_bucket_index min max width h s :
  shape min max width h ->
  Add s h = with_buckets h (incr (bucket_index s h) (buckets_ h)) /\
  (bucket_index s h < size h)%nat.
Proof.
  intros (Hmin & Hmax & Hw & Hw0 & Hr & Hsz & Hgt).
  unfold Add, bucket_index. rewrite Hmin, Hmax, Hw.
  destruct (Z.ltb_spec s min) as [Hlo|Hlo]; [split; [done | lia] |].
  destruct (Z.leb_spec max s) as [Hhi|Hhi]; [split; [done | lia] |].
  assert (Hq : 0 < Z.quot (max - min) width) by lia.
  assert (Hwpos : 0 < width).
  { destruct (Z_lt_le_dec 0 width) as [|Hneg]; [done |].
    assert (0 <= Z.quot (max - min) (- width))
      by (apply Z.quot_pos; lia).
    rewrite Z.quot_opp_r in * by lia. lia. }
  rewrite Z.quot_div_nonneg by lia. split; [done |].
  rewrite Z.quot_div_nonneg in Hsz by lia.
  rewrite Z.rem_mod_nonneg in Hr by lia.
  assert ((s - min) `div` width < (max - min) `div` width).
  { apply Z.div_lt_upper_bound; [done |].
    rewrite <- Z_div_exact_full_2 by lia. lia. }
  assert (0 <= (s - min) `div` width) by (apply Z.div_pos; lia).
  lia.
Qed.

Lemma Add_shape min max width h s :
  shape min max width h -> shape min max width (Add s h).
Proof.
  intros Hs. destruct (Add_bucket_index _ _ _ _ s Hs) as [-> _].
  unfold shape, size, with_buckets, incr in *. cbn.
  by rewrite length_alter.
Qed.

Lemma Reset_shape min max width h :
  shape min max width h -> shape min max width (Reset h).
Proof.
  unfold shape, Reset, size, with_buckets. cbn.
  by rewrite length_replicate.
Qed.

Lemma Add_total min max width h s :
  shape min max width h -> total (Add s h) = total h + 1.
Proof.
  intros Hs. destruct (Add_bucket_index _ _ _ _ s Hs) as [-> Hlt].
  unfold total, with_buckets. cbn. by apply sum_incr.
Qed.

Lemma run_snoc ops o h : run (ops ++ [o]) h = apply o (run ops h).
Proof. unfold run. by rewrite foldl_snoc. Qed.

Lemma adds_since_reset_snoc ops o :
  adds_since_reset (ops ++ [o]) =
  match o with OpAdd _ => adds_since_reset ops + 1 | OpReset => 0 end.
Proof. unfold adds_since_reset. by rewrite foldl_snoc. Qed.

Lemma run_shape_total min max width h0 ops :
  new min max width = Some h0 ->
  shape min max width (run ops h0) /\
  total (run ops h0) = adds_since_reset ops.
Proof.
  intros Hnew. induction ops as [|o ops IH] using rev_ind.
  - by apply new_shape.
  - destruct IH as [Hs Ht].
    rewrite run_snoc, adds_since_reset_snoc. destruct o as [s|]; cbn.
    + split; [by apply Add_shape |].
      erewrite Add_total by done. by rewrite Ht.
    + split; [by apply Reset_shape |].
      unfold total, Reset, with_buckets. cbn. apply sum_replicate_0.
Qed.

(** C5. For a histogram that [SimpleHistogram(min, max, width)] has
    constructed, after any calls of [Add] and [Reset]: [Add(s)]
    increments one bucket and no other, bucket 0 when [s < min], the last
    one when [s >= max] (for a positive width, or else when not also
    [s < min]), bucket [1 + floor((s - min) / width)] otherwise;
    and the bucket counts add up to the number of [Add] calls since the
    construction or the last [Reset]. With (0, 800, 20) there are 42
    buckets; -5 goes to bucket 0, 799 to bucket 40, the last interior
    one, and 800 and 10000 to bucket 41, the overflow bucket. *)
Theorem SimpleHistogram_Add_buckets min max width h0 ops s :
  new min max width = Some h0 ->
  let h := run ops h0 in
  increments (bucket_index s h) (buckets_ h) (buckets_ (Add s h)) /\
  (s < min -> bucket_index s h = 0%nat) /\
  (min <= s -> max <= s -> bucket_index s h = (size h - 1)%nat) /\
  (0 < width -> max <= s -> bucket_index s h = (size h - 1)%nat) /\
  (min <= s < max ->
     bucket_index s h = Z.to_nat (1 + (s - min) `div` width)) /\
  total h = adds_since_reset ops /\
  total (Add s h) = adds_since_reset (ops ++ [OpAdd s]) /\
  (exists h800,
     new 0 800 20 = Some h800 /\ size h800 = 42%nat /\
     buckets_ (Add (-5) h800) = <[0%nat := 1]> (buckets_ h800) /\
     buckets_ (Add 799 h800) = <[40%nat := 1]> (buckets_ h800) /\
     buckets_ (Add 800 h800) = <[41%nat := 1]> (buckets_ h800) /\
     buckets_ (Add 10000 h800) = <[41%nat := 1]> (buckets_ h800) /\
     total (run [OpAdd (-5); OpAdd 799; OpAdd 800; OpAdd 10000] h800)
     = 4).
Proof.
  intros Hnew h.
  destruct (run_shape_total _ _ _ _ ops Hnew) as [Hs Ht]. fold h in Hs, Ht.
  destruct (Add_bucket_index _ _ _ _ s Hs) as [HAdd Hlt].
  pose proof Hs as (Hmin & Hmax & Hw & _).
  split_and!.
  - rewrite HAdd. unfold with_buckets. cbn.
    destruct (lookup_lt_is_Some_2 (buckets_ h) (bucket_index s h) Hlt)
      as [c Hc].
    exists c. split; [done |]. by apply incr_insert.
  - intros Hlo. unfold bucket_index. rewrite Hmin.
    by destruct (Z.ltb_spec s min); [| lia].
  - intros Hlo Hhi. unfold bucket_index. rewrite Hmin, Hmax.
    destruct (Z.ltb_spec s min); [lia |].
    by destruct (Z.leb_spec max s); [| lia].
  - intros Hp Hhi. unfold bucket_index. rewrite Hmin, Hmax.
    destruct (Z.ltb_spec s min) as [Hlo|_].
    + (* with a positive width [min < max], so not both [s < min] and
         [max <= s] *)
      exfalso. destruct Hs as (_ & _ & _ & Hw0 & _ & Hsz & Hgt).
      assert (0 <= Z.quot (- (max - min)) width)
        by (apply Z.quot_pos; lia).
      rewrite Z.quot_opp_l in * by lia. lia.
    + by destruct (Z.leb_spec max s); [| lia].
  - intros [Hlo Hhi]. unfold bucket_index. rewrite Hmin, Hmax, Hw.
    destruct (Z.ltb_spec s min); [lia |].
    by destruct (Z.leb_spec max s); [lia |].
  - done.
  - rewrite adds_since_reset_snoc.
    erewrite Add_total by done. by rewrite Ht.
  - eexists. split; [reflexivity |]. by vm_compute.
Qed.

(** The histogram of the engine, empty, and the sample 799. *)
Lemma SimpleHistogram_Add_buckets_witness :
  new 0 800 20 = Some (mk 0 800 20 (replicate 42 0)) /\
  bucket_index 799 (mk 0 800 20 (replicate 42 0)) = 40%nat.
Proof.
  split; [reflexivity |].
  destruct (SimpleHistogram_Add_buckets 0 800 20
              (mk 0 800 20 (replicate 42 0)) [] 799 eq_refl)
    as (_ & _ & _ & _ & H & _).
  exact (H ltac:(lia)).
Defined.

End SimpleHistogramFacts.

(** ** Properties of the ordered maps *)

Section OrdMapFacts.
Context {K V : Type} `{EqDecision K} (ltb : K -> K -> bool).
Implicit Types (k : K) (v : V) (m : list (K * V)).

Lemma find_insert_ne k k' v m :
  k <> k' -> OrdMap.find k' (OrdMap.insert ltb k v m) = OrdMap.find k' m.
Proof.
  intros Hne. induction m as [|[k0 v0] m IH]; cbn.
  - by rewrite decide_False.
  - destruct (decide (k = k0)); [done |].
    destruct (ltb k k0); cbn.
    + by rewrite (decide_False (P := k' = k)).
    + by rewrite IH.
Qed.

Lemma find_insert_None k v m :
  OrdMap.find k m = None ->
  OrdMap.find k (OrdMap.insert ltb k v m) = Some v.
Proof.
  induction m as [|[k0 v0] m IH]; cbn.
  - by rewrite decide_True.
  - destruct (decide (k = k0)); [done |]. intros Hm.
    destruct (ltb k k0); cbn.
    + by rewrite decide_True.
    + rewrite decide_False by done. by apply IH.
Qed.

Lemma insert_length_None k v m :
  OrdMap.find k m = None ->
  length (OrdMap.insert ltb k v m) = S (length m).
Proof.
  induction m as [|[k0 v0] m IH]; cbn; [done |].
  destruct (decide (k = k0)); [done |]. intros Hm.
  destruct (ltb k k0); cbn; [done |]. by rewrite IH.
Qed.

Lemma insert_length_le k v m :
  (length m <= length (OrdMap.insert ltb k v m) <= S (length m))%nat.
Proof.
  induction m as [|[k0 v0] m IH]; cbn; [lia |].
  destruct (decide (k = k0)); cbn; [lia |].
  destruct (ltb k k0); cbn; lia.
Qed.


Lemma erase_length_le k m :
  (length (OrdMap.erase k m) <= length m)%nat.
Proof.
  induction m as [|[k0 v0] m IH]; cbn; [lia |].
  destruct (decide (k = k0)); cbn; lia.
Qed.

Lemma erase_length_Some k m :
  is_Some (OrdMap.find k m) -> S (length (OrdMap.erase k m)) = length m.
Proof.
  induction m as [|[k0 v0] m IH]; cbn; [by intros [? ?] |].
  destruct (decide (k = k0)); cbn; [done |]. intros Hs. by rewrite IH.
Qed.

Lemma find_update k k' f m :
  OrdMap.find k' (OrdMap.update k f m) =
  if decide (k = k') then f <$> OrdMap.find k m else OrdMap.find k' m.
Proof.
  induction m as [|[k0 v0] m IH]; cbn; [by case_decide |].
  destruct (decide (k = k0)) as [->|Hk]; cbn.
  - destruct (decide (k' = k0)) as [->|].
    + by rewrite decide_True.
    + by rewrite (decide_False (P := k0 = k')).
  - destruct (decide (k' = k0)) as [->|]; [by rewrite decide_False |].
    apply IH.
Qed.

Lemma update_length k f m : length (OrdMap.update k f m) = length m.
Proof.
  induction m as [|[k0 v0] m IH]; cbn; [done |].
  destruct (decide (k = k0)); cbn; [done | by rewrite IH].
Qed.

Lemma Forall_update (P : K -> Prop) k f m :
  Forall (fun b => P b.1) m -> Forall (fun b => P b.1) (OrdMap.update k f m).
Proof.
  induction 1 as [|[k0 v0] m Hk Hall IH]; cbn; [done |].
  destruct (decide (k = k0)); by constructor.
Qed.

(** [update] keeps the keys, and so the order. *)
Lemma sorted_update k f m :
  OrdMap.sorted ltb m -> OrdMap.sorted ltb (OrdMap.update k f m).
Proof.
  unfold OrdMap.sorted.
  induction m as [|[k0 v0] m IH]; cbn; intros Hs; [done |].
  apply StronglySorted_cons in Hs as [Hall Hs].
  destruct (decide (k = k0)); apply StronglySorted_cons; split; try done.
  - by apply (Forall_update (fun b => ltb k0 b = true)).
  - by apply IH.
Qed.

(** A key below every key of the map is not in it. *)
Lemma find_below k m :
  (forall a, ltb a a = false) ->
  Forall (fun b => ltb k b.1 = true) m -> OrdMap.find k m = None.
Proof.
  intros Hirr. induction 1 as [|[k0 v0] m Hk _ IH]; cbn in *; [done |].
  destruct (decide (k = k0)) as [->|]; [| done].
  by rewrite Hirr in Hk.
Qed.

Section Order.
Hypothesis ltb_irrefl : forall a, ltb a a = false.
Hypothesis ltb_trans :
  forall a b c, ltb a b = true -> ltb b c = true -> ltb a c = true.
Hypothesis ltb_total : forall a b, a <> b -> ltb a b = false -> ltb b a = true.

Lemma sorted_insert k v m :
  OrdMap.sorted ltb m -> OrdMap.sorted ltb (OrdMap.insert ltb k v m).
Proof.
  unfold OrdMap.sorted.
  induction m as [|[k0 v0] m IH]; cbn; intros Hs.
  - repeat constructor.
  - destruct (decide (k = k0)); [done |].
    apply StronglySorted_cons in Hs as [Hall Hs].
    destruct (ltb k k0) eqn:Hlt.
    + apply StronglySorted_cons. split.
      * constructor; [done |].
        eapply Forall_impl; [exact Hall |]. cbn. eauto.
      * by apply StronglySorted_cons.
    + apply StronglySorted_cons. split; [| by apply IH].
      assert (Hk0 : ltb k0 k = true) by (apply ltb_total; done).
      clear IH Hs. induction m as [|[k1 v1] m IH]; cbn.
      * by repeat constructor.
      * apply Forall_cons in Hall as [H1 Hall].
        destruct (decide (k = k1)); [by constructor |].
        destruct (ltb k k1); constructor; try done.
        -- by constructor.
        -- by apply IH.
Qed.

Lemma sorted_erase k m :
  OrdMap.sorted ltb m -> OrdMap.sorted ltb (OrdMap.erase k m).
Proof.
  unfold OrdMap.sorted.
  induction m as [|[k0 v0] m IH]; cbn; intros Hs; [done |].
  apply StronglySorted_cons in Hs as [Hall Hs].
  destruct (decide (k = k0)); [done |].
  apply StronglySorted_cons. split; [| by apply IH].
  clear IH Hs. induction m as [|[k1 v1] m IH]; cbn; [done |].
  apply Forall_cons in Hall as [H1 Hall].
  destruct (decide (k = k1)); [done |]. constructor; [done |].
  by apply IH.
Qed.

Lemma sorted_erase_begin m :
  OrdMap.sorted ltb m -> OrdMap.sorted ltb (OrdMap.erase_begin m).
Proof.
  unfold OrdMap.sorted. destruct m as [|a m]; cbn; [done |].
  intros Hs. by apply StronglySorted_cons in Hs as [_ Hs].
Qed.

(** In a sorted map a key occurs once: erasing it removes it. *)
Lemma find_erase_eq k m :
  OrdMap.sorted ltb m -> OrdMap.find k (OrdMap.erase k m) = None.
Proof.
  unfold OrdMap.sorted.
  induction m as [|[k0 v0] m IH]; cbn; intros Hs; [done |].
  apply StronglySorted_cons in Hs as [Hall Hs].
  destruct (decide (k = k0)) as [->|]; cbn.
  - by apply find_below.
  - rewrite decide_False by done. by apply IH.
Qed.

(** [begin()] is the entry with the smallest key. *)
Lemma begin_smallest k0 v0 m k v :
  OrdMap.sorted ltb m -> OrdMap.begin m = Some (k0, v0) ->
  OrdMap.find k m = Some v -> k = k0 \/ ltb k0 k = true.
Proof.
  unfold OrdMap.sorted, OrdMap.begin.
  destruct m as [|[k1 v1] m]; cbn; [done |].
  intros Hs [= -> ->]. apply StronglySorted_cons in Hs as [Hall _].
  destruct (decide (k = k0)); [by left |]. intros Hf. right.
  induction Hall as [|[k2 v2] m Hk _ IH]; cbn in *; [done |].
  destruct (decide (k = k2)) as [->|]; [done | by apply IH].
Qed.
End Order.
End OrdMapFacts.

Lemma pair_ltb_irrefl a : OrdMap.pair_ltb a a = false.
Proof. unfold OrdMap.pair_ltb. destruct a as [x y]. cbn. lia. Qed.

Lemma pair_ltb_trans a b c :
  OrdMap.pair_ltb a b = true -> OrdMap.pair_ltb b c = true ->
  OrdMap.pair_ltb a c = true.
Proof.
  unfold OrdMap.pair_ltb. destruct a as [x y], b as [x' y'], c as [x'' y''].
  cbn. lia.
Qed.

Lemma pair_ltb_total a b :
  a <> b -> OrdMap.pair_ltb a b = false -> OrdMap.pair_ltb b a = true.
Proof.
  unfold OrdMap.pair_ltb. destruct a as [x y], b as [x' y']. cbn.
  intros Hne. assert (x <> x' \/ y <> y') by (destruct (decide (x = x')); [right; congruence | by left]).
  lia.
Qed.

Lemma Z_ltb_trans (a b c : Z) :
  (a <? b) = true -> (b <? c) = true -> (a <? c) = true.
Proof. lia. Qed.

Lemma Z_ltb_total (a b : Z) : a <> b -> (a <? b) = false -> (b <? a) = true.
Proof. lia. Qed.

(** ** Invariants of StatsEventSubscriber *)

Section SubscriberInvariant.
Import StatsEventSubscriber.
Variable kMaxFrameInfoMapSize : nat.

Local Abbreviation run := (run kMaxFrameInfoMapSize).
Local Abbreviation step := (step kMaxFrameInfoMapSize).
Local Abbreviation Inv := (Inv kMaxFrameInfoMapSize).


Lemma AddF_shape q h : latency_shape h -> latency_shape (AddF q h).
Proof. apply Add_shape. Qed.

Lemma InitHistograms_shape : histograms_shape InitHistograms.
Proof.
  assert (latency_shape (Histograms.capture_latency InitHistograms)).
  { apply (new_shape 0 kMaxLatencyBucketMs kBucketWidthMs). reflexivity. }
  unfold histograms_shape. split_and!; exact H.
Qed.

Lemma Inv_new mt now : Inv (new mt now).
Proof.
  split; cbn.
  - apply InitHistograms_shape.
  - constructor.
  - lia.
  - lia.
  - intros e st. by rewrite lookup_empty.
  - constructor.
Qed.

Lemma Inv_Reset now s : Inv s -> Inv (Reset now s).
Proof.
  intros [(H1 & H2 & H3 & H4 & H5) _ _ _ _ _]. split; cbn.
  - unfold histograms_shape; split_and!; by apply Reset_shape.
  - constructor.
  - lia.
  - lia.
  - intros e st. by rewrite lookup_empty.
  - constructor.
Qed.

Lemma Inv_UpdateFirstLastEventTime bounds ts r s :
  Inv s -> Inv (UpdateFirstLastEventTime bounds ts r s).
Proof.
  intros [? ? ? ? ? ?]. unfold UpdateFirstLastEventTime.
  repeat case_match; by split.
Qed.

Lemma Inv_UpdateLastResponseTime bounds ts s :
  Inv s -> Inv (UpdateLastResponseTime bounds ts s).
Proof.
  intros [? ? ? ? ? ?]. unfold UpdateLastResponseTime.
  repeat case_match; by split.
Qed.

Lemma Inv_MaybeInsertFrameInfo rtp fi s :
  Inv s -> Inv (MaybeInsertFrameInfo kMaxFrameInfoMapSize rtp fi s).
Proof.
  intros [? ? ? Hsz ? Hfs]. unfold MaybeInsertFrameInfo.
  pose proof (insert_length_le Z.ltb rtp fi (recent_frame_infos_ s)) as Hl.
  pose proof (sorted_insert Z.ltb Z_ltb_trans Z_ltb_total rtp fi _ Hfs)
    as Hfs'.
  destruct (_ && _); [by split |].
  case_bool_decide as Hfull.
  - pose proof (sorted_erase_begin Z.ltb _ Hfs') as Hfs''.
    unfold OrdMap.begin, OrdMap.size, OrdMap.erase_begin in *.
    destruct (OrdMap.insert Z.ltb rtp fi (recent_frame_infos_ s))
      as [|[k0 v0] m'] eqn:Hm; cbn in *.
    + split; cbn; try done; lia.
    + destruct (Time.is_null _); split; cbn; try done;
        intros Hpos; specialize (Hsz Hpos); lia.
  - split; cbn; try done. unfold OrdMap.size in *. lia.
Qed.

Lemma Inv_set_histograms h s :
  Inv s -> histograms_shape h -> Inv (set_histograms_ h s).
Proof. intros [? ? ? ? ? ?] Hh. by split. Qed.

Lemma Inv_set_recent_frame_infos m s :
  Inv s -> length m = length (recent_frame_infos_ s) ->
  OrdMap.sorted Z.ltb m ->
  Inv (set_recent_frame_infos_ m s).
Proof. intros [? ? ? ? ? ?] Hm ?. split; cbn; try done. by rewrite Hm. Qed.

Lemma Inv_OnReceiveFrameEvent bounds e s :
  Inv s -> Inv (OnReceiveFrameEvent kMaxFrameInfoMapSize bounds e s).
Proof.
  intros HI. unfold OnReceiveFrameEvent.
  case_match; [done |].
  set (s1 := set_frame_stats_ _ s).
  assert (H1 : Inv s1) by (destruct HI; by split).
  set (s2 := UpdateFirstLastEventTime _ _ _ s1).
  assert (H2 : Inv s2) by by apply Inv_UpdateFirstLastEventTime.
  clearbody s2. clear H1 s1 HI.
  match goal with
  | |- Inv (if _ then UpdateLastResponseTime _ _ ?x else ?x) =>
      assert (H3 : Inv x); [| by destruct (IsReceiverEvent _);
                               [apply Inv_UpdateLastResponseTime |]]
  end.
  pose proof (inv_histograms _ _ H2) as (Hc & He & Hp & Hf & Hd).
  destruct (FrameEvent.type e); try done.
  - by apply Inv_MaybeInsertFrameInfo.
  - unfold RecordCaptureLatency. case_match; [| done].
    apply Inv_set_recent_frame_infos;
      [| case_match; cbn; by rewrite update_length
       | case_match; cbn; apply sorted_update, H2].
    case_match; [| done]. apply Inv_set_histograms; [done |].
    unfold histograms_shape; split_and!; try done; by apply AddF_shape.
  - unfold RecordEncodeLatency. case_match;
      [| by apply Inv_MaybeInsertFrameInfo].
    apply Inv_set_recent_frame_infos;
      [| case_match; cbn; by rewrite update_length
       | case_match; cbn; apply sorted_update, H2].
    case_match; [| done]. apply Inv_set_histograms; [done |].
    unfold histograms_shape; split_and!; try done; by apply AddF_shape.
  - unfold RecordFrameTxLatency. repeat case_match; try done.
    apply Inv_set_histograms; [done |].
    unfold histograms_shape; split_and!; try done; by apply AddF_shape.
  - set (s3 := RecordE2ELatency _ _ _).
    assert (H3 : Inv s3).
    { unfold s3, RecordE2ELatency. repeat case_match; try done.
      destruct H2. by split. }
    pose proof (inv_histograms _ _ H3) as (Hc' & He' & Hp' & Hf' & Hd').
    assert (H4 : Inv (set_histograms_
                        (Histograms.on_playout_delay
                           (AddF (Time.InMillisecondsF
                                    (FrameEvent.delay_delta e)))
                           (histograms_ s3)) s3)).
    { apply Inv_set_histograms; [done |].
      unfold histograms_shape; split_and!; try done; by apply AddF_shape. }
    case_match; [| done]. destruct H4. by split.
Qed.

Lemma Inv_RecordNetworkLatency bounds e s :
  Inv s -> Inv (RecordNetworkLatency bounds e s).
Proof.
  intros HI. unfold RecordNetworkLatency.
  destruct (GetReceiverOffset bounds) as [off|]; [| done].
  destruct (OrdMap.find _ _) as [value|] eqn:Hfind.
  - destruct HI as [(Hc & He & Hp & Hf & Hd) Hs Hsz ? ? ?].
    repeat case_match; try (by split); simplify_eq.
    all: split; cbn; try done;
      [ unfold histograms_shape; split_and!; try done; by apply AddF_shape
      | by apply sorted_erase
      | etrans; [apply erase_length_le | done] ].
  - destruct HI as [? Hs Hsz ? ? ?].
    pose proof (insert_length_None OrdMap.pair_ltb (packet_key e)
                  (PacketEvent.timestamp e, PacketEvent.type e)
                  _ Hfind) as Hlen.
    pose proof (sorted_insert OrdMap.pair_ltb pair_ltb_trans
                  pair_ltb_total (packet_key e)
                  (PacketEvent.timestamp e, PacketEvent.type e)
                  _ Hs) as Hs'.
    case_bool_decide as Hfull; split; cbn; try done.
    + by apply sorted_erase_begin.
    + unfold OrdMap.erase_begin, OrdMap.size in *.
      destruct (OrdMap.insert _ _ _ _); cbn in *; lia.
    + unfold OrdMap.size in *. lia.
Qed.

Lemma Inv_OnReceivePacketEvent bounds e s :
  Inv s -> Inv (OnReceivePacketEvent bounds e s).
Proof.
  intros HI. unfold OnReceivePacketEvent.
  case_match; [done |].
  set (s1 := set_packet_stats_ _ s).
  assert (H1 : Inv s1).
  { destruct HI as [? ? ? ? Hcnt ?]. split; try done. cbn.
    intros e' st.
    destruct (decide (PacketEvent.type e = e')) as [<-|Hne].
    - rewrite lookup_insert_eq. intros ?; simplify_eq.
      destruct (packet_stats_ s !! PacketEvent.type e) as [it|] eqn:Hl;
        cbn; [| lia].
      apply Hcnt in Hl. lia.
    - rewrite lookup_insert_ne by done. apply Hcnt. }
  set (s2 := UpdateFirstLastEventTime _ _ _ s1).
  assert (H2 : Inv s2) by by apply Inv_UpdateFirstLastEventTime.
  clearbody s2. clear H1 s1 HI.
  match goal with
  | |- Inv (if _ then UpdateLastResponseTime _ _ ?x else ?x) =>
      assert (H3 : Inv x); [| by destruct (IsReceiverEvent _);
                               [apply Inv_UpdateLastResponseTime |]]
  end.
  case_match; [by apply Inv_RecordNetworkLatency |].
  case_match; [| done].
  destruct H2 as [? Hs Hsz ? ? ?]. split; cbn; try done.
  - by apply sorted_erase.
  - etrans; [apply erase_length_le | done].
Qed.

Lemma Inv_step c s : Inv s -> Inv (step s c).
Proof.
  destruct c; cbn.
  - apply Inv_OnReceiveFrameEvent.
  - apply Inv_OnReceivePacketEvent.
  - apply Inv_Reset.
Qed.

Lemma run_snoc_call calls c s : run (calls ++ [c]) s = step (run calls s) c.
Proof. unfold StatsEventSubscriber.run. by rewrite foldl_snoc. Qed.

Lemma Inv_run calls s : Inv s -> Inv (run calls s).
Proof.
  intros HI. induction calls as [|c calls IH] using rev_ind; [done |].
  rewrite run_snoc_call. by apply Inv_step.
Qed.

(** Every state the subscriber can reach satisfies the invariant. *)
Lemma Inv_reachable mt now calls : Inv (run calls (new mt now)).
Proof. apply Inv_run, Inv_new. Qed.

End SubscriberInvariant.

(** ** The frame working-state cache and the frame latencies *)

Section FrameFacts.
Import StatsEventSubscriber.

(** The members of the subscriber that the frame statistics bookkeeping
    at the head of [OnReceiveFrameEvent] leaves as they are. *)
Lemma frame_prologue_fields bounds ts r x s :
  let s' := UpdateFirstLastEventTime bounds ts r (set_frame_stats_ x s) in
  recent_frame_infos_ s' = recent_frame_infos_ s /\
  histograms_ s' = histograms_ s /\
  total_e2e_latency_ s' = total_e2e_latency_ s /\
  e2e_latency_datapoints_ s' = e2e_latency_datapoints_ s /\
  num_frames_dropped_by_encoder_ s' = num_frames_dropped_by_encoder_ s.
Proof. unfold UpdateFirstLastEventTime. by repeat case_match. Qed.

(** A key above every key of the map goes to its end. *)
Lemma insert_above (k : Z) (v : FrameInfo.t) (m : list (Z * FrameInfo.t)) :
  OrdMap.sorted Z.ltb (m ++ [(k, v)]) ->
  OrdMap.insert Z.ltb k v m = m ++ [(k, v)].
Proof.
  unfold OrdMap.sorted.
  induction m as [|[k0 v0] m IH]; cbn; intros Hs; [done |].
  apply StronglySorted_cons in Hs as [Hall Hs].
  assert (Hlt : k0 < k).
  { rewrite Forall_app, Forall_singleton in Hall. cbn in Hall. lia. }
  rewrite decide_False by lia.
  assert ((k <? k0) = false) as -> by lia.
  by rewrite IH.
Qed.

(** One insertion of a key above every key of a cache that holds at most
    [n] entries, the capacity being [n + 1]. *)
Lemma MaybeInsertFrameInfo_above (n : nat) k v s :
  let m := recent_frame_infos_ s in
  let s' := MaybeInsertFrameInfo (S n) k v s in
  (length m <= n)%nat ->
  OrdMap.sorted Z.ltb (m ++ [(k, v)]) ->
  recent_frame_infos_ s'
  = drop (length (m ++ [(k, v)]) - n) (m ++ [(k, v)]) /\
  num_frames_dropped_by_encoder_ s'
  = num_frames_dropped_by_encoder_ s
    + never_encoded (take (length (m ++ [(k, v)]) - n) (m ++ [(k, v)])).
Proof.
  intros m s' Hlen Hsorted. subst s'. unfold MaybeInsertFrameInfo.
  fold m. rewrite (bool_decide_false (OrdMap.size m = S n))
    by (unfold OrdMap.size; lia).
  cbn [andb]. rewrite insert_above by done.
  unfold OrdMap.size, OrdMap.begin, OrdMap.erase_begin.
  rewrite length_app. cbn [length].
  case_bool_decide as Hfull.
  - replace (length m + 1 - n)%nat with 1%nat by lia.
    destruct (m ++ [(k, v)]) as [|[k0 v0] l] eqn:HL.
    { by destruct m. }
    cbn. rewrite drop_0, take_0.
    destruct (Time.is_null (FrameInfo.encode_time v0)); cbn;
      (split; [done | lia]).
  - replace (length m + 1 - n)%nat with 0%nat by lia.
    rewrite drop_0, take_0. cbn. split; [done | lia].
Qed.

Lemma never_encoded_app l1 l2 :
  never_encoded (l1 ++ l2) = never_encoded l1 + never_encoded l2.
Proof. induction l1 as [|kv l1 IH]; cbn; [done | rewrite IH; lia]. Qed.

(** Frame infos with ascending keys, all above the keys of the cache, put
    into a cache of capacity [n + 1] that holds at most [n] entries: the
    last [n] of all the entries stay. *)
Lemma insert_all_ascending (n : nat) infos s :
  let m := recent_frame_infos_ s in
  let s' := insert_all (S n) infos s in
  (length m <= n)%nat ->
  OrdMap.sorted Z.ltb (m ++ infos) ->
  recent_frame_infos_ s'
  = drop (length (m ++ infos) - n) (m ++ infos) /\
  num_frames_dropped_by_encoder_ s'
  = num_frames_dropped_by_encoder_ s
    + never_encoded (take (length (m ++ infos) - n) (m ++ infos)).
Proof.
  revert s. induction infos as [|[k v] infos IH]; intros s m s' Hlen Hsorted.
  - subst s'. cbn. rewrite app_nil_r.
    assert (Hz : (length m - n = 0)%nat) by lia.
    rewrite Hz, drop_0, take_0. cbn. split; [done | lia].
  - subst s'. cbn [insert_all foldl fst snd].
    change (foldl _ ?a infos) with (insert_all (S n) infos a).
    set (s1 := MaybeInsertFrameInfo (S n) k v s).
    assert (Hsorted1 : OrdMap.sorted Z.ltb (m ++ [(k, v)])).
    { unfold OrdMap.sorted in *.
      replace (m ++ (k, v) :: infos) with ((m ++ [(k, v)]) ++ infos)
        in Hsorted by by rewrite <- app_assoc.
      eapply StronglySorted_app_1_l, Hsorted. }
    destruct (MaybeInsertFrameInfo_above n k v s Hlen Hsorted1)
      as [Hm1 Hd1]. fold s1 m in Hm1, Hd1.
    set (L1 := m ++ [(k, v)]) in *.
    assert (HL : m ++ (k, v) :: infos = L1 ++ infos)
      by (unfold L1; by rewrite <- app_assoc).
    rewrite HL in Hsorted |- *.
    assert (Hlen1 : length L1 = S (length m))
      by (unfold L1; rewrite length_app; cbn; lia).
    destruct (IH s1) as [Hm2 Hd2].
    { rewrite Hm1, length_drop. lia. }
    { rewrite Hm1. unfold OrdMap.sorted in *.
      rewrite <- (take_drop (length L1 - n) L1), <- app_assoc in Hsorted.
      eapply StronglySorted_app_1_r, Hsorted. }
    rewrite Hm2, Hd2, Hm1, Hd1. clear Hm2 Hd2 Hm1 Hd1 IH.
    rewrite !length_app, length_drop.
    destruct (decide (length m = n)) as [Hfull|Hroom].
    + replace (length L1 - n)%nat with 1%nat by lia.
      replace (length L1 - 1 + length infos - n)%nat
        with (length infos) by lia.
      replace (length L1 + length infos - n)%nat
        with (S (length infos)) by lia.
      destruct L1 as [|kv0 L1']; [done |]. cbn [drop take app].
      rewrite drop_0, take_0. cbn [never_encoded]. split; [done | lia].
    + replace (length L1 - n)%nat with 0%nat by lia.
      rewrite drop_0, take_0. cbn [never_encoded].
      replace (length L1 - 0 + length infos - n)%nat
        with (length L1 + length infos - n)%nat by lia.
      split; [done | lia].
Qed.

(** C1. The cache of [MaybeInsertFrameInfo] evicts when its size has
    reached [kMaxFrameInfoMapSize], not when it has gone past it. With a
    capacity of N = [n + 1] no reachable state holds more than [n]
    entries; N + 1 frame infos with ascending keys put into a new cache
    leave N - 1 entries, the two smallest keys are evicted, and the
    dropped-by-encoder counter goes up by the number of those two that have
    no encode time. With a capacity of 3, four frame infos with keys 1, 2,
    3, 4 and no encode time leave two entries, keys 3 and 4, and the
    counter at 2; the same holds of four capture-begin events. *)
Theorem MaybeInsertFrameInfo_evicts_at_capacity :
  (forall (n : nat) mt now calls,
     (length (recent_frame_infos_ (run (S n) calls (new mt now))) <= n)%nat)
  /\
  (forall (n : nat) mt now infos,
     OrdMap.sorted Z.ltb infos -> length infos = S (S n) ->
     let s := insert_all (S n) infos (new mt now) in
     recent_frame_infos_ s = drop 2 infos /\
     length (recent_frame_infos_ s) = n /\
     num_frames_dropped_by_encoder_ s = never_encoded (take 2 infos)) /\
  (let s := insert_all 3 [(1, captured 10); (2, captured 20);
                          (3, captured 30); (4, captured 40)]
                       (new VIDEO_EVENT 5) in
   (recent_frame_infos_ s).*1 = [3; 4] /\
   length (recent_frame_infos_ s) = 2%nat /\
   num_frames_dropped_by_encoder_ s = 2) /\
  (let capture_begin ts rtp :=
     CallFrameEvent None
       (FrameEvent.mk ts FRAME_CAPTURE_BEGIN VIDEO_EVENT rtp 0 0 0) in
   let s := run 3 [capture_begin 10 1; capture_begin 20 2;
                   capture_begin 30 3; capture_begin 40 4]
                (new VIDEO_EVENT 5) in
   (recent_frame_infos_ s).*1 = [3; 4] /\
   num_frames_dropped_by_encoder_ s = 2).
Proof.
  split_and!.
  - intros n mt now calls.
    pose proof (inv_frames_size _ _ (Inv_reachable (S n) mt now calls)).
    lia.
  - intros n mt now infos Hsorted Hlen s.
    destruct (insert_all_ascending n infos (new mt now)) as [Hm Hd].
    { cbn. lia. }
    { done. }
    fold s in Hm, Hd. cbn [new recent_frame_infos_ app
      num_frames_dropped_by_encoder_] in Hm, Hd.
    replace (length infos - n)%nat with 2%nat in Hm, Hd by lia.
    rewrite Hm, Hd, length_drop. split_and!; [done | lia | lia].
  - by vm_compute.
  - by vm_compute.
Qed.

(** C3. [RecordE2ELatency] tests that an offset is available and that the
    frame has an entry, and then accumulates a sample whatever the
    [capture_time] of the entry is. So after an encoded event alone has
    created the entry of frame 100, a playout event for it adds a sample
    although the capture time of the frame is null, and the sample is the
    playout time itself, 95000 microseconds since the origin of the
    clock. *)
Theorem RecordE2ELatency_null_capture_time :
  (forall bounds e s,
     let s' := RecordE2ELatency bounds e s in
     match GetReceiverOffset bounds,
           OrdMap.find (FrameEvent.rtp_timestamp e) (recent_frame_infos_ s)
     with
     | Some receiver_offset, Some it =>
         e2e_latency_datapoints_ s' = e2e_latency_datapoints_ s + 1 /\
         total_e2e_latency_ s' =
           total_e2e_latency_ s
           + (FrameEvent.timestamp e + FrameEvent.delay_delta e
              - receiver_offset - FrameInfo.capture_time it)
     | _, _ => s' = s
     end) /\
  (forall n : nat,
     let kMaxFrameInfoMapSize := S (S n) in
     let encoded :=
       FrameEvent.mk 25000 FRAME_ENCODED VIDEO_EVENT 100 0 1000 0 in
     let playout :=
       FrameEvent.mk 90000 FRAME_PLAYOUT VIDEO_EVENT 100 0 0 5000 in
     let s1 := OnReceiveFrameEvent kMaxFrameInfoMapSize None encoded
                                   (new VIDEO_EVENT 5) in
     let s2 := OnReceiveFrameEvent kMaxFrameInfoMapSize (Some (0, 0)) playout
                                   s1 in
     recent_frame_infos_ s1
       = [(100, FrameInfo.set_encode_time 25000 FrameInfo.new)] /\
     Time.is_null (FrameInfo.capture_time
                     (FrameInfo.set_encode_time 25000 FrameInfo.new))
       = true /\
     e2e_latency_datapoints_ s1 = 0 /\
     e2e_latency_datapoints_ s2 = 1 /\
     total_e2e_latency_ s2 = 95000).
Proof.
  split.
  - intros bounds e s. unfold RecordE2ELatency. by repeat case_match.
  - intros n. by vm_compute.
Qed.

(** The [double] handed to [Add] by the latency recorders, once
    converted to [int64], is the duration in whole milliseconds, rounded
    toward 0. *)
Lemma AddF_InMillisecondsF d h :
  AddF (Time.InMillisecondsF d) h = SimpleHistogram.Add (Z.quot d 1000) h.
Proof. reflexivity. Qed.

Lemma OnReceiveFrameEvent_capture_end kMaxFrameInfoMapSize bounds e s fi :
  FrameEvent.type e = FRAME_CAPTURE_END ->
  FrameEvent.media_type e = event_media_type_ s ->
  OrdMap.find (FrameEvent.rtp_timestamp e) (recent_frame_infos_ s)
    = Some fi ->
  FrameInfo.capture_time fi <> 0 ->
  Histograms.capture_latency
    (histograms_ (OnReceiveFrameEvent kMaxFrameInfoMapSize bounds e s))
  = SimpleHistogram.Add
      (Z.quot (FrameInfo.capture_time fi - FrameEvent.timestamp e) 1000)
      (Histograms.capture_latency (histograms_ s)).
Proof.
  intros Hty Hmt Hfind Hct. unfold OnReceiveFrameEvent.
  rewrite Hty, bool_decide_true by done. cbn [negb IsReceiverEvent].
  set (x := <[FRAME_CAPTURE_END := _]> _).
  destruct (frame_prologue_fields bounds (FrameEvent.timestamp e)
              (IsReceiverEvent FRAME_CAPTURE_END) x s)
    as (Hr & Hh & _).
  change (IsReceiverEvent FRAME_CAPTURE_END) with false in *.
  cbv zeta in Hr, Hh. cbn match.
  unfold RecordCaptureLatency. rewrite Hr, Hfind.
  assert (Time.is_null (FrameInfo.capture_time fi) = false) as ->
    by by apply Z.eqb_neq.
  cbn [negb histograms_ set_recent_frame_infos_ set_histograms_
       Histograms.capture_latency Histograms.on_capture_latency].
  by rewrite Hh.
Qed.

(** C6, as amended. At a capture-end event for a frame whose entry holds
    a capture time, the sample given to the capture-latency histogram is
    the capture-begin time minus the time of the capture-end event, in
    whole milliseconds rounded toward 0. When the capture-end event is at
    least one millisecond after the capture begin the sample is negative
    and bucket 0, the underflow bucket, goes up by one. *)
Theorem RecordCaptureLatency_sample
    kMaxFrameInfoMapSize mt now calls bounds e fi :
  let s := run kMaxFrameInfoMapSize calls (new mt now) in
  let s' := OnReceiveFrameEvent kMaxFrameInfoMapSize bounds e s in
  let before := Histograms.capture_latency (histograms_ s) in
  let after := Histograms.capture_latency (histograms_ s') in
  let sample :=
    Z.quot (FrameInfo.capture_time fi - FrameEvent.timestamp e) 1000 in
  FrameEvent.type e = FRAME_CAPTURE_END ->
  FrameEvent.media_type e = event_media_type_ s ->
  OrdMap.find (FrameEvent.rtp_timestamp e) (recent_frame_infos_ s)
    = Some fi ->
  FrameInfo.capture_time fi <> 0 ->
  after = SimpleHistogram.Add sample before /\
  (FrameInfo.capture_time fi + 1000 <= FrameEvent.timestamp e ->
   sample < 0 /\
   SimpleHistogram.increments 0 (SimpleHistogram.buckets_ before)
                              (SimpleHistogram.buckets_ after)).
Proof.
  intros s s' before after sample Hty Hmt Hfind Hct.
  assert (Hafter : after = SimpleHistogram.Add sample before)
    by by eapply OnReceiveFrameEvent_capture_end.
  split; [done |]. intros Hgap.
  assert (Hneg : sample < 0).
  { unfold sample.
    assert (1 <= Z.quot (FrameEvent.timestamp e
                         - FrameInfo.capture_time fi) 1000)
      by (apply Z.quot_le_lower_bound; lia).
    replace (FrameInfo.capture_time fi - FrameEvent.timestamp e)
      with (- (FrameEvent.timestamp e - FrameInfo.capture_time fi))
      by lia.
    rewrite Z.quot_opp_l by lia. lia. }
  split; [done |].
  pose proof (inv_histograms _ _
                (Inv_reachable kMaxFrameInfoMapSize mt now calls))
    as (Hshape & _). fold s before in Hshape.
  destruct (Add_bucket_index _ _ _ _ sample Hshape) as [HAdd Hlt].
  destruct Hshape as (Hmin & _).
  assert (Hidx : SimpleHistogram.bucket_index sample before = 0%nat).
  { unfold SimpleHistogram.bucket_index. rewrite Hmin.
    by destruct (Z.ltb_spec sample 0); [| lia]. }
  rewrite Hidx in HAdd, Hlt. rewrite Hafter, HAdd. cbn.
  destruct (lookup_lt_is_Some_2 (SimpleHistogram.buckets_ before) 0 Hlt)
    as [c Hc].
  exists c. split; [done |]. by apply incr_insert.
Qed.

(** Capture begin at 1 ms, capture end at 3.5 ms: the sample is -2. *)
Lemma RecordCaptureLatency_sample_witness :
  let s := run 100
             [CallFrameEvent None
                (FrameEvent.mk 1000 FRAME_CAPTURE_BEGIN VIDEO_EVENT 7 0 0
                               0)]
             (new VIDEO_EVENT 5) in
  let e := FrameEvent.mk 3500 FRAME_CAPTURE_END VIDEO_EVENT 7 0 0 0 in
  OrdMap.find 7 (recent_frame_infos_ s) = Some (captured 1000) /\
  Histograms.capture_latency
    (histograms_ (OnReceiveFrameEvent 100 None e s))
  = SimpleHistogram.Add (-2)
      (Histograms.capture_latency (histograms_ s)).
Proof.
  split; [reflexivity |].
  refine (proj1 (RecordCaptureLatency_sample 100 VIDEO_EVENT 5
                   [CallFrameEvent None
                      (FrameEvent.mk 1000 FRAME_CAPTURE_BEGIN VIDEO_EVENT
                                     7 0 0 0)]
                   None
                   (FrameEvent.mk 3500 FRAME_CAPTURE_END VIDEO_EVENT
                                  7 0 0 0)
                   (captured 1000) _ _ _ _)).
  - reflexivity.
  - reflexivity.
  - reflexivity.
  - vm_compute. discriminate.
Defined.

(** Counterexample to C6 without the one-millisecond proviso: capture
    begin at 1000 microseconds, capture end at 1500 microseconds, which is
    later; the sample is -0.5 ms, [Add] receives 0, and the bucket that
    goes up is bucket 1, not bucket 0. *)
Lemma RecordCaptureLatency_sub_millisecond :
  let s := run 100
             [CallFrameEvent None
                (FrameEvent.mk 1000 FRAME_CAPTURE_BEGIN VIDEO_EVENT 7 0 0
                               0)]
             (new VIDEO_EVENT 5) in
  let e := FrameEvent.mk 1500 FRAME_CAPTURE_END VIDEO_EVENT 7 0 0 0 in
  let before := Histograms.capture_latency (histograms_ s) in
  let after :=
    Histograms.capture_latency
      (histograms_ (OnReceiveFrameEvent 100 None e s)) in
  FrameInfo.capture_time <$> OrdMap.find 7 (recent_frame_infos_ s)
    = Some 1000 /\
  1000 < FrameEvent.timestamp e /\
  Time.double_to_int64 (Time.InMillisecondsF (1000 - 1500)) = 0 /\
  SimpleHistogram.increments 1 (SimpleHistogram.buckets_ before)
                             (SimpleHistogram.buckets_ after) /\
  ~ SimpleHistogram.increments 0 (SimpleHistogram.buckets_ before)
                               (SimpleHistogram.buckets_ after).
Proof.
  cbv zeta. split_and!; try by vm_compute.
  - exists 0. by vm_compute.
  - intros (c & Hc & Hb). vm_compute in Hc, Hb. simplify_eq.
Qed.

End FrameFacts.

(** ** Network latency pairing *)

Section PacketFacts.
Import StatsEventSubscriber.


Lemma packet_prologue_view bounds ts r x s :
  network_view (UpdateFirstLastEventTime bounds ts r (set_packet_stats_ x s))
  = network_view s.
Proof. unfold UpdateFirstLastEventTime. by repeat case_match. Qed.

Lemma UpdateLastResponseTime_view bounds ts s :
  network_view (UpdateLastResponseTime bounds ts s) = network_view s.
Proof. unfold UpdateLastResponseTime. by repeat case_match. Qed.

Lemma RecordNetworkLatency_view_congr bounds e s1 s2 :
  network_view s1 = network_view s2 ->
  network_view (RecordNetworkLatency bounds e s1)
  = network_view (RecordNetworkLatency bounds e s2).
Proof.
  unfold network_view, network_stats. intros [= Hp Ht Hd Hh].
  unfold RecordNetworkLatency. rewrite Hp.
  repeat case_match; cbn; congruence.
Qed.

(** The part of [OnReceivePacketEvent] that the pairing map and the
    network-latency statistics see. *)
Lemma OnReceivePacketEvent_pairing_view bounds e s :
  PacketEvent.media_type e = event_media_type_ s ->
  PacketEvent.type e = PACKET_SENT_TO_NETWORK
  \/ PacketEvent.type e = PACKET_RECEIVED ->
  network_view (OnReceivePacketEvent bounds e s)
  = network_view (RecordNetworkLatency bounds e s).
Proof.
  intros Hmt Hty. unfold OnReceivePacketEvent.
  rewrite bool_decide_true by done. cbn [negb].
  assert ((bool_decide (PacketEvent.type e = PACKET_SENT_TO_NETWORK)
           || bool_decide (PacketEvent.type e = PACKET_RECEIVED)) = true)
    as ->.
  { destruct Hty as [-> | ->]; reflexivity. }
  case_match; [rewrite UpdateLastResponseTime_view |];
    apply RecordNetworkLatency_view_congr, packet_prologue_view.
Qed.

Lemma OnReceivePacketEvent_retransmitted_view bounds e s :
  PacketEvent.media_type e = event_media_type_ s ->
  PacketEvent.type e = PACKET_RETRANSMITTED ->
  network_view (OnReceivePacketEvent bounds e s)
  = (OrdMap.erase (packet_key e) (packet_sent_times_ s), network_stats s).
Proof.
  intros Hmt Hty. unfold OnReceivePacketEvent.
  rewrite bool_decide_true by done. rewrite Hty. cbn [negb].
  change (IsReceiverEvent PACKET_RETRANSMITTED) with false.
  change (bool_decide (PACKET_RETRANSMITTED = PACKET_SENT_TO_NETWORK)
          || bool_decide (PACKET_RETRANSMITTED = PACKET_RECEIVED))
    with false.
  change (bool_decide (PACKET_RETRANSMITTED = PACKET_RETRANSMITTED))
    with true.
  cbn match.
  reflexivity.
Qed.

(** The first event of a pair: no sample, and the entry is stored unless
    the capacity bound erases it at once. *)
Lemma RecordNetworkLatency_absent (lo hi : Time.TimeDelta) e s :
  OrdMap.find (packet_key e) (packet_sent_times_ s) = None ->
  let s' := RecordNetworkLatency (Some (lo, hi)) e s in
  network_stats s' = network_stats s /\
  (stays_after_insert (packet_key e) (packet_sent_times_ s) ->
   OrdMap.find (packet_key e) (packet_sent_times_ s')
   = Some (PacketEvent.timestamp e, PacketEvent.type e)).
Proof.
  intros Hfind s'. subst s'. unfold RecordNetworkLatency.
  cbn [GetReceiverOffset]. rewrite Hfind.
  set (v := (PacketEvent.timestamp e, PacketEvent.type e)).
  pose proof (insert_length_None OrdMap.pair_ltb _ v _ Hfind) as Hlen.
  pose proof (find_insert_None OrdMap.pair_ltb _ v _ Hfind) as Hins.
  case_bool_decide as Hfull; (split; [done |]); cbn; [| done].
  intros [Hroom | (k0 & v0 & Hbegin & Hlt)].
  { unfold OrdMap.size in Hfull. lia. }
  destruct (packet_sent_times_ s) as [|[k1 v1] m]; [done |].
  cbn in Hbegin. simplify_eq. cbn in Hfind, Hins |- *.
  destruct (decide (packet_key e = k0)) as [|Hne]; [done |].
  destruct (OrdMap.pair_ltb (packet_key e) k0) eqn:Hgt.
  - pose proof (pair_ltb_trans _ _ _ Hlt Hgt) as Hrefl.
    by rewrite pair_ltb_irrefl in Hrefl.
  - cbn. by apply find_insert_None.
Qed.

(** The second event of a pair. *)
Lemma RecordNetworkLatency_present (lo hi : Time.TimeDelta) e s t0 k0 :
  OrdMap.sorted OrdMap.pair_ltb (packet_sent_times_ s) ->
  OrdMap.find (packet_key e) (packet_sent_times_ s) = Some (t0, k0) ->
  let s' := RecordNetworkLatency (Some (lo, hi)) e s in
  let receiver_offset := Z.quot (lo + hi) 2 in
  if complementary k0 (PacketEvent.type e) then
    let sent :=
      if bool_decide (PacketEvent.type e = PACKET_RECEIVED)
      then t0 else PacketEvent.timestamp e in
    let received :=
      if bool_decide (PacketEvent.type e = PACKET_RECEIVED)
      then PacketEvent.timestamp e else t0 in
    let latency := received - receiver_offset - sent in
    network_stats s'
    = (total_network_latency_ s + latency,
       network_latency_datapoints_ s + 1,
       SimpleHistogram.Add (Z.quot latency 1000)
                           (Histograms.packet_latency (histograms_ s))) /\
    OrdMap.find (packet_key e) (packet_sent_times_ s') = None /\
    S (length (packet_sent_times_ s')) = length (packet_sent_times_ s)
  else s' = s.
Proof.
  intros Hsorted Hfind s' off. subst s'. unfold RecordNetworkLatency.
  cbn [GetReceiverOffset]. rewrite Hfind. unfold complementary.
  cbn [fst snd].
  destruct (bool_decide (k0 = PACKET_SENT_TO_NETWORK)
            && bool_decide (PacketEvent.type e = PACKET_RECEIVED)) eqn:H1.
  - apply andb_true_iff in H1 as [_ H1]. rewrite H1. cbn.
    split_and!; [done | by apply (find_erase_eq OrdMap.pair_ltb pair_ltb_irrefl) |].
    apply erase_length_Some. by rewrite Hfind.
  - cbn [orb].
    destruct (bool_decide (k0 = PACKET_RECEIVED)
              && bool_decide (PacketEvent.type e = PACKET_SENT_TO_NETWORK))
      eqn:H2; [| done].
    apply andb_true_iff in H2 as [_ H2]. apply bool_decide_eq_true in H2.
    rewrite H2. cbn.
    split_and!; [done | by apply (find_erase_eq OrdMap.pair_ltb pair_ltb_irrefl) |].
    apply erase_length_Some. by rewrite Hfind.
Qed.

(** The first event of a pair when the map is full and the key is below
    every stored key: the entry is inserted as the smallest of 1001 and is
    the one that the capacity bound erases. *)
Lemma RecordNetworkLatency_absent_erased (lo hi : Time.TimeDelta) e s :
  (length (packet_sent_times_ s) <= kMaxPacketEventTimeMapSize)%nat ->
  OrdMap.find (packet_key e) (packet_sent_times_ s) = None ->
  ~ stays_after_insert (packet_key e) (packet_sent_times_ s) ->
  let s' := RecordNetworkLatency (Some (lo, hi)) e s in
  packet_sent_times_ s' = packet_sent_times_ s /\
  OrdMap.find (packet_key e) (packet_sent_times_ s') = None /\
  length (packet_sent_times_ s) = kMaxPacketEventTimeMapSize.
Proof.
  intros Hsz Hfind Hnot s'. subst s'.
  assert (Hfull : length (packet_sent_times_ s)
                  = kMaxPacketEventTimeMapSize).
  { destruct (decide (length (packet_sent_times_ s)
                      < kMaxPacketEventTimeMapSize)%nat) as [Hlt|]; [| lia].
    exfalso. apply Hnot. by left. }
  assert (Hsame : packet_sent_times_
                    (RecordNetworkLatency (Some (lo, hi)) e s)
                  = packet_sent_times_ s).
  { unfold RecordNetworkLatency. cbn [GetReceiverOffset]. rewrite Hfind.
    destruct (packet_sent_times_ s) as [|[k0 v0] m] eqn:Hm;
      [by cbn in Hfull |].
    cbn in Hfind. destruct (decide (packet_key e = k0)) as [|Hne]; [done |].
    assert (Hlt : OrdMap.pair_ltb (packet_key e) k0 = true).
    { apply pair_ltb_total; [done |].
      destruct (OrdMap.pair_ltb k0 (packet_key e)) eqn:Hk; [| done].
      exfalso. apply Hnot. right. by exists k0, v0. }
    cbn [OrdMap.insert]. rewrite decide_False by done. rewrite Hlt.
    unfold OrdMap.size. cbn [length] in Hfull |- *.
    by rewrite bool_decide_true by lia. }
  split_and!; [done | by rewrite Hsame | done].
Qed.

Lemma network_view_split s1 s2 :
  network_view s1 = network_view s2 ->
  packet_sent_times_ s1 = packet_sent_times_ s2 /\
  network_stats s1 = network_stats s2.
Proof.
  intros H. split; [exact (f_equal fst H) | exact (f_equal snd H)].
Qed.

(** C4, as amended. With a clock offset available, for an event of kind
    sent-to-network or received and the key (rtp_timestamp, packet_id):
    when no entry is stored for the key, no sample is credited, and the
    entry (timestamp, kind) is stored, unless the map holds its 1000
    entries and the key is smaller than every stored key: then the new
    entry is itself the one erased, and the map is as it was; when an
    entry of the complementary kind is stored,
    one sample, (received time - offset) - sent time, is added to the
    total, the count goes up by one, the packet-latency histogram receives
    the sample in whole milliseconds, the entry is erased, and a further
    event for the key is stored as the first of a new pair; when the stored
    kind is not complementary, the map and the statistics stay as they
    are. *)
Theorem RecordNetworkLatency_pairing
    kMaxFrameInfoMapSize mt now calls (lo hi : Time.TimeDelta) e :
  let s := run kMaxFrameInfoMapSize calls (new mt now) in
  let key := packet_key e in
  let receiver_offset := Z.quot (lo + hi) 2 in
  let s' := OnReceivePacketEvent (Some (lo, hi)) e s in
  PacketEvent.media_type e = event_media_type_ s ->
  PacketEvent.type e = PACKET_SENT_TO_NETWORK
  \/ PacketEvent.type e = PACKET_RECEIVED ->
  match OrdMap.find key (packet_sent_times_ s) with
  | None =>
      network_stats s' = network_stats s /\
      (stays_after_insert key (packet_sent_times_ s) ->
       OrdMap.find key (packet_sent_times_ s')
       = Some (PacketEvent.timestamp e, PacketEvent.type e)) /\
      (~ stays_after_insert key (packet_sent_times_ s) ->
       length (packet_sent_times_ s) = kMaxPacketEventTimeMapSize /\
       (forall k0 v0, OrdMap.begin (packet_sent_times_ s) = Some (k0, v0) ->
                      OrdMap.pair_ltb key k0 = true) /\
       packet_sent_times_ s' = packet_sent_times_ s /\
       OrdMap.find key (packet_sent_times_ s') = None)
  | Some (t0, k0) =>
      if complementary k0 (PacketEvent.type e) then
        let sent :=
          if bool_decide (PacketEvent.type e = PACKET_RECEIVED)
          then t0 else PacketEvent.timestamp e in
        let received :=
          if bool_decide (PacketEvent.type e = PACKET_RECEIVED)
          then PacketEvent.timestamp e else t0 in
        let latency := received - receiver_offset - sent in
        network_stats s'
        = (total_network_latency_ s + latency,
           network_latency_datapoints_ s + 1,
           SimpleHistogram.Add (Z.quot latency 1000)
             (Histograms.packet_latency (histograms_ s))) /\
        OrdMap.find key (packet_sent_times_ s') = None /\
        (forall (lo3 hi3 : Time.TimeDelta) e3,
           PacketEvent.media_type e3 = event_media_type_ s' ->
           PacketEvent.type e3 = PACKET_SENT_TO_NETWORK
           \/ PacketEvent.type e3 = PACKET_RECEIVED ->
           packet_key e3 = key ->
           let s'' := OnReceivePacketEvent (Some (lo3, hi3)) e3 s' in
           network_stats s'' = network_stats s' /\
           OrdMap.find key (packet_sent_times_ s'')
           = Some (PacketEvent.timestamp e3, PacketEvent.type e3))
      else
        packet_sent_times_ s' = packet_sent_times_ s /\
        network_stats s' = network_stats s
  end.
Proof.
  intros s key off s' Hmt Hty.
  pose proof (Inv_reachable kMaxFrameInfoMapSize mt now calls) as HI.
  fold s in HI.
  destruct (network_view_split _ _
              (OnReceivePacketEvent_pairing_view (Some (lo, hi)) e s Hmt Hty))
    as [Hp Hn]. fold s' in Hp, Hn.
  destruct (OrdMap.find key (packet_sent_times_ s)) as [[t0 k0]|] eqn:Hfind.
  - pose proof (RecordNetworkLatency_present lo hi e s t0 k0
                  (inv_packets_sorted _ _ HI) Hfind) as Hpresent.
    cbv zeta in Hpresent.
    destruct (complementary k0 (PacketEvent.type e)).
    + destruct Hpresent as (Hstats & Hgone & Hlen).
      split_and!; [by rewrite Hn | by rewrite Hp |].
      intros lo3 hi3 e3 Hmt3 Hty3 Hkey3 s''.
      destruct (network_view_split _ _
                  (OnReceivePacketEvent_pairing_view (Some (lo3, hi3)) e3 s'
                     Hmt3 Hty3)) as [Hp3 Hn3].
      fold s'' in Hp3, Hn3. rewrite Hp3, Hn3, <- Hkey3.
      assert (Hgone' : OrdMap.find (packet_key e3) (packet_sent_times_ s')
                       = None) by by rewrite Hkey3, Hp.
      assert (Hlen' : S (length (packet_sent_times_ s'))
                      = length (packet_sent_times_ s)) by by rewrite Hp.
      clear Hgone Hlen.
      destruct (RecordNetworkLatency_absent lo3 hi3 e3 s' Hgone')
        as [Hsame Hstored].
      split; [done |]. apply Hstored. left.
      pose proof (inv_packets_size _ _ HI). lia.
    + rewrite Hn, Hp, Hpresent. done.
  - rewrite Hn, Hp.
    destruct (RecordNetworkLatency_absent lo hi e s Hfind) as [Hsame Hst].
    split_and!; [done | done |]. intros Hnot.
    destruct (RecordNetworkLatency_absent_erased lo hi e s
                (inv_packets_size _ _ HI) Hfind Hnot)
      as (Hmap & Hgone & Hfull).
    split_and!; try done.
    intros k0 v0 Hbegin. apply pair_ltb_total.
    + intros ->. destruct (packet_sent_times_ s) as [|[k1 v1] m]; [done |].
      cbn in Hbegin, Hfind. simplify_eq. by rewrite decide_True in Hfind.
    + destruct (OrdMap.pair_ltb k0 key) eqn:Hk; [| done].
      exfalso. apply Hnot. right. by exists k0, v0.
Qed.

(** A sent-to-network event at 10 then a received event at 20 for packet 0
    of frame 1, the offset bounds being 2 and 4: one sample of 7. *)
Lemma RecordNetworkLatency_pairing_witness :
  let sent := PacketEvent.mk 10 PACKET_SENT_TO_NETWORK VIDEO_EVENT 1 0 0 0
                             100 in
  let received := PacketEvent.mk 20 PACKET_RECEIVED VIDEO_EVENT 1 0 0 0
                                 100 in
  let s := run 100 [CallPacketEvent (Some (2, 4)) sent] (new VIDEO_EVENT 5) in
  let s' := OnReceivePacketEvent (Some (2, 4)) received s in
  PacketEvent.media_type received = event_media_type_ s /\
  OrdMap.find (1, 0) (packet_sent_times_ s)
  = Some (10, PACKET_SENT_TO_NETWORK) /\
  total_network_latency_ s' = 7 /\
  network_latency_datapoints_ s' = 1 /\
  OrdMap.find (1, 0) (packet_sent_times_ s') = None.
Proof.
  intros sent received s s'.
  pose proof (RecordNetworkLatency_pairing 100 VIDEO_EVENT 5
                [CallPacketEvent (Some (2, 4)) sent] 2 4 received
                eq_refl (or_intror eq_refl)) as H.
  cbv zeta in H. fold s s' in H.
  change (OrdMap.find (packet_key received) (packet_sent_times_ s))
    with (Some (10, PACKET_SENT_TO_NETWORK)) in H.
  change (complementary PACKET_SENT_TO_NETWORK (PacketEvent.type received))
    with true in H.
  cbv iota beta in H. destruct H as (Hstats & Hgone & _).
  split_and!; [reflexivity | reflexivity | | | exact Hgone].
  - exact (f_equal (fun x => x.1.1) Hstats).
  - exact (f_equal (fun x => x.1.2) Hstats).
Defined.


(** Counterexample to C4 without the capacity proviso: when the pairing
    map holds 1000 entries, all with keys above (0, 0), the sent-to-network
    event for key (0, 0) is stored and at once erased, as the smallest key
    of 1001; the received event that follows meets the same fate, and no
    sample is credited. *)
Lemma RecordNetworkLatency_full_map :
  let sent := PacketEvent.mk 10 PACKET_SENT_TO_NETWORK VIDEO_EVENT 0 0 0 0
                             100 in
  let received := PacketEvent.mk 20 PACKET_RECEIVED VIDEO_EVENT 0 0 0 0
                                 100 in
  let s := full_packet_map in
  let s1 := OnReceivePacketEvent (Some (0, 0)) sent s in
  let s2 := OnReceivePacketEvent (Some (0, 0)) received s1 in
  length (packet_sent_times_ s) = 1000%nat /\
  OrdMap.find (0, 0) (packet_sent_times_ s) = None /\
  OrdMap.find (0, 0) (packet_sent_times_ s1) = None /\
  OrdMap.find (0, 0) (packet_sent_times_ s1)
  <> Some (PacketEvent.timestamp sent, PacketEvent.type sent) /\
  network_latency_datapoints_ s2 = network_latency_datapoints_ s /\
  total_network_latency_ s2 = total_network_latency_ s /\
  Histograms.packet_latency (histograms_ s2)
  = Histograms.packet_latency (histograms_ s).
Proof.
  cbv zeta. split_and!; by vm_compute.
Qed.

(** C7. A sent-to-network event followed by a retransmitted event for the
    same key, no received event being stored for the key: the pairing entry
    is gone and neither event has touched the network-latency total, its
    count or the packet-latency histogram; a received event for the key
    that comes after them credits no sample either. *)
Theorem retransmitted_packet_credits_no_latency
    kMaxFrameInfoMapSize mt now calls bounds1 bounds2 e1 e2 :
  let s := run kMaxFrameInfoMapSize calls (new mt now) in
  let key := packet_key e1 in
  let s1 := OnReceivePacketEvent bounds1 e1 s in
  let s2 := OnReceivePacketEvent bounds2 e2 s1 in
  PacketEvent.type e1 = PACKET_SENT_TO_NETWORK ->
  PacketEvent.type e2 = PACKET_RETRANSMITTED ->
  packet_key e2 = key ->
  PacketEvent.media_type e1 = event_media_type_ s ->
  PacketEvent.media_type e2 = event_media_type_ s1 ->
  (forall t0, OrdMap.find key (packet_sent_times_ s)
              <> Some (t0, PACKET_RECEIVED)) ->
  OrdMap.find key (packet_sent_times_ s2) = None /\
  network_stats s1 = network_stats s /\
  network_stats s2 = network_stats s /\
  (forall bounds3 e3,
     PacketEvent.type e3 = PACKET_RECEIVED ->
     packet_key e3 = key ->
     PacketEvent.media_type e3 = event_media_type_ s2 ->
     network_stats (OnReceivePacketEvent bounds3 e3 s2) = network_stats s).
Proof.
  intros s key s1 s2 Hty1 Hty2 Hkey Hmt1 Hmt2 Hnorecv.
  pose proof (Inv_reachable kMaxFrameInfoMapSize mt now calls) as HI.
  fold s in HI.
  pose proof (Inv_OnReceivePacketEvent kMaxFrameInfoMapSize bounds1 e1 s HI)
    as HI1. fold s1 in HI1.
  destruct (network_view_split _ _
              (OnReceivePacketEvent_pairing_view bounds1 e1 s Hmt1
                 (or_introl Hty1))) as [Hp1 Hn1]. fold s1 in Hp1, Hn1.
  assert (Hs1 : network_stats s1 = network_stats s).
  { rewrite Hn1. destruct bounds1 as [[lo hi]|]; [| done].
    destruct (OrdMap.find key (packet_sent_times_ s)) as [[t0 k0]|] eqn:Hfind.
    - pose proof (RecordNetworkLatency_present lo hi e1 s t0 k0
                    (inv_packets_sorted _ _ HI) Hfind) as Hpresent.
      cbv zeta in Hpresent.
      assert (complementary k0 (PacketEvent.type e1) = false) as Hc.
      { unfold complementary. rewrite Hty1.
        rewrite (bool_decide_false (k0 = PACKET_RECEIVED)).
        - by rewrite andb_false_r.
        - intros ->. by apply (Hnorecv t0). }
      rewrite Hc in Hpresent. by rewrite Hpresent.
    - by apply RecordNetworkLatency_absent. }
  pose proof (OnReceivePacketEvent_retransmitted_view bounds2 e2 s1 Hmt2
                Hty2) as Hv2. fold s2 in Hv2.
  pose proof (f_equal fst Hv2) as Hp2. pose proof (f_equal snd Hv2) as Hn2.
  cbn [fst snd network_view] in Hp2, Hn2.
  assert (Hgone : OrdMap.find key (packet_sent_times_ s2) = None).
  { rewrite Hp2, Hkey.
    apply (find_erase_eq OrdMap.pair_ltb pair_ltb_irrefl).
    apply (inv_packets_sorted _ _ HI1). }
  split_and!; [done | done | congruence |].
  intros bounds3 e3 Hty3 Hkey3 Hmt3.
  destruct (network_view_split _ _
              (OnReceivePacketEvent_pairing_view bounds3 e3 s2 Hmt3
                 (or_intror Hty3))) as [_ Hn3].
  rewrite Hn3. transitivity (network_stats s2); [| congruence].
  destruct bounds3 as [[lo hi]|]; [| done].
  apply RecordNetworkLatency_absent. by rewrite Hkey3.
Qed.

(** Packet 0 of frame 1 sent at 10 and retransmitted at 30. *)
Lemma retransmitted_packet_credits_no_latency_witness :
  let sent := PacketEvent.mk 10 PACKET_SENT_TO_NETWORK VIDEO_EVENT 1 0 0 0
                             100 in
  let retransmitted :=
    PacketEvent.mk 30 PACKET_RETRANSMITTED VIDEO_EVENT 1 0 0 0 100 in
  let s := new VIDEO_EVENT 5 in
  let s2 := OnReceivePacketEvent (Some (2, 4)) retransmitted
              (OnReceivePacketEvent (Some (2, 4)) sent s) in
  packet_key retransmitted = packet_key sent /\
  OrdMap.find (1, 0) (packet_sent_times_ s) = None /\
  OrdMap.find (1, 0) (packet_sent_times_ s2) = None /\
  network_stats s2 = network_stats s.
Proof.
  intros sent retransmitted s s2.
  destruct (retransmitted_packet_credits_no_latency 100 VIDEO_EVENT 5 []
              (Some (2, 4)) (Some (2, 4)) sent retransmitted
              eq_refl eq_refl eq_refl eq_refl eq_refl
              ltac:(intros t0; discriminate))
    as (Hgone & _ & Hstats & _).
  split_and!; [reflexivity | reflexivity | exact Hgone | exact Hstats].
Defined.

End PacketFacts.

(** ** Reset and the snapshot *)

Section SnapshotFacts.
Import StatsEventSubscriber.


Lemma Reset_zeroed_like h : zeroed_like h (SimpleHistogram.Reset h).
Proof.
  unfold zeroed_like, SimpleHistogram.Reset, SimpleHistogram.size. cbn.
  rewrite length_replicate. split_and!; try done.
  by apply Forall_replicate.
Qed.

Lemma Reset_latency_shape h :
  latency_shape h ->
  SimpleHistogram.Reset h
  = SimpleHistogram.mk 0 kMaxLatencyBucketMs kBucketWidthMs
      (replicate 42 0).
Proof.
  intros (Hmin & Hmax & Hw & _ & _ & Hsz & _).
  destruct h as [mi ma w b]. unfold SimpleHistogram.Reset,
    SimpleHistogram.with_buckets, SimpleHistogram.size in *. cbn in *.
  subst. f_equal.
  change (Z.quot (kMaxLatencyBucketMs - 0) kBucketWidthMs + 2) with 42
    in Hsz.
  by replace (length b) with 42%nat by lia.
Qed.

Lemma event_media_type_MaybeInsertFrameInfo n rtp fi s :
  event_media_type_ (MaybeInsertFrameInfo n rtp fi s) = event_media_type_ s.
Proof. unfold MaybeInsertFrameInfo. by repeat case_match. Qed.

Lemma event_media_type_OnReceiveFrameEvent n bounds e s :
  event_media_type_ (OnReceiveFrameEvent n bounds e s) = event_media_type_ s.
Proof.
  unfold OnReceiveFrameEvent. case_match; [done |].
  transitivity
    (event_media_type_
       (UpdateFirstLastEventTime bounds (FrameEvent.timestamp e)
          (IsReceiverEvent (FrameEvent.type e))
          (set_frame_stats_
             (<[FrameEvent.type e :=
                  match frame_stats_ s !! FrameEvent.type e with
                  | Some it =>
                      FrameLogStats.mk
                        (FrameLogStats.event_counter it + 1)
                        (size_t (FrameLogStats.sum_size it
                                 + FrameEvent.size e))
                        (FrameLogStats.sum_delay it
                         + FrameEvent.delay_delta e)
                  | None =>
                      FrameLogStats.mk 1 (FrameEvent.size e)
                                       (FrameEvent.delay_delta e)
                  end]> (frame_stats_ s)) s)));
    [| unfold UpdateFirstLastEventTime; by repeat case_match].
  set (s2 := UpdateFirstLastEventTime _ _ _ _). clearbody s2.
  unfold UpdateLastResponseTime, RecordFrameCaptureTime,
    RecordCaptureLatency, RecordEncodeLatency, RecordFrameTxLatency,
    RecordE2ELatency.
  repeat case_match; cbn;
    rewrite ?event_media_type_MaybeInsertFrameInfo; done.
Qed.

Lemma event_media_type_OnReceivePacketEvent bounds e s :
  event_media_type_ (OnReceivePacketEvent bounds e s) = event_media_type_ s.
Proof.
  unfold OnReceivePacketEvent, UpdateLastResponseTime, RecordNetworkLatency,
    ErasePacketSentTime, UpdateFirstLastEventTime.
  by repeat case_match.
Qed.

Lemma event_media_type_run n calls s :
  event_media_type_ (run n calls s) = event_media_type_ s.
Proof.
  induction calls as [|c calls IH] using rev_ind; [done |].
  rewrite run_snoc_call, <- IH. destruct c; cbn.
  - apply event_media_type_OnReceiveFrameEvent.
  - apply event_media_type_OnReceivePacketEvent.
  - done.
Qed.

(** After [Reset] the subscriber is the one the constructor builds. *)
Lemma Reset_new n mt now0 calls now :
  Reset now (run n calls (new mt now0)) = new mt now.
Proof.
  pose proof (Inv_reachable n mt now0 calls) as HI.
  destruct (inv_histograms _ _ HI) as (Hc & He & Hp & Hf & Hd).
  unfold Reset, new. rewrite event_media_type_run. cbn. f_equal.
  unfold Histograms.map, InitHistograms.
  by rewrite !Reset_latency_shape.
Qed.

(** C8. [Reset] leaves every histogram with its bucket definitions and
    all counts at zero, and the event counters empty; a snapshot taken
    then holds the two zero counts and no other scalar, and only zero
    histogram counts; the subscriber after [Reset] at [now] is the one a
    constructor call at [now] gives, so that after any further calls,
    with the same clock readings and offset bounds, the snapshots of both
    are equal. *)
Theorem Reset_equals_new n mt now0 calls now :
  let s := run n calls (new mt now0) in
  let r := Reset now s in
  Forall2 zeroed_like (all_histograms (histograms_ s))
                      (all_histograms (histograms_ r)) /\
  frame_stats_ r = ∅ /\ packet_stats_ r = ∅ /\
  (forall unix_epoch now',
     GetStatsInternal unix_epoch now' r
     = <[NUM_FRAMES_LATE := 0%Q]>
         (<[NUM_FRAMES_DROPPED_BY_ENCODER := 0%Q]> ∅) /\
     Forall (fun nh => Forall (fun lc => lc.2 = 0) nh.2)
            (GetStats unix_epoch now' r).2) /\
  r = new mt now /\
  (forall calls' unix_epoch now',
     GetStats unix_epoch now' (run n calls' r)
     = GetStats unix_epoch now' (run n calls' (new mt now))).
Proof.
  intros s r.
  assert (Hr : r = new mt now) by apply Reset_new.
  split_and!.
  - unfold r, Reset, all_histograms, Histograms.map. cbn.
    repeat constructor; apply Reset_zeroed_like.
  - done.
  - done.
  - intros unix_epoch now'. rewrite Hr. split; [reflexivity |].
    unfold GetStats. cbn [snd].
    change (histograms_ (new mt now)) with InitHistograms.
    vm_compute. repeat constructor.
  - done.
  - intros calls' unix_epoch now'. by rewrite Hr.
Qed.

(** *** The packet-loss fraction *)

Lemma stats_insert_lookup_ne (k k' : CastStat) (v : Q) (m : gmap CastStat Q) :
  k <> k' -> stats_insert k v m !! k' = m !! k'.
Proof.
  intros Hne. unfold stats_insert. case_match; [done |].
  by rewrite lookup_insert_ne.
Qed.

Lemma stats_insert_lookup_eq (k : CastStat) (v : Q) (m : gmap CastStat Q) :
  m !! k = None -> stats_insert k v m !! k = Some v.
Proof.
  intros Hm. unfold stats_insert. rewrite Hm. by rewrite lookup_insert_eq.
Qed.

Lemma PopulateFpsStat_lookup_ne end_time event stat s m k :
  stat <> k -> PopulateFpsStat end_time event stat s m !! k = m !! k.
Proof.
  intros Hne. unfold PopulateFpsStat. case_match; [| done].
  by apply stats_insert_lookup_ne.
Qed.

Lemma PopulateFrameCountStat_lookup_ne event stat s m k :
  stat <> k -> PopulateFrameCountStat event stat s m !! k = m !! k.
Proof.
  intros Hne. unfold PopulateFrameCountStat. case_match; [| done].
  by apply stats_insert_lookup_ne.
Qed.

Lemma PopulatePacketCountStat_lookup_ne event stat s m k :
  stat <> k -> PopulatePacketCountStat event stat s m !! k = m !! k.
Proof.
  intros Hne. unfold PopulatePacketCountStat. case_match; [| done].
  by apply stats_insert_lookup_ne.
Qed.

Lemma PopulatePlayoutDelayStat_lookup_ne s m k :
  AVG_PLAYOUT_DELAY_MS <> k -> PopulatePlayoutDelayStat s m !! k = m !! k.
Proof.
  intros Hne. unfold PopulatePlayoutDelayStat. case_match; [| done].
  by apply stats_insert_lookup_ne.
Qed.

Lemma PopulateFrameBitrateStat_lookup_ne end_time s m k :
  ENCODE_KBPS <> k -> PopulateFrameBitrateStat end_time s m !! k = m !! k.
Proof.
  intros Hne. unfold PopulateFrameBitrateStat. case_match; [| done].
  by apply stats_insert_lookup_ne.
Qed.

Lemma PopulatePacketBitrateStat_lookup_ne end_time event stat s m k :
  stat <> k ->
  PopulatePacketBitrateStat end_time event stat s m !! k = m !! k.
Proof.
  intros Hne. unfold PopulatePacketBitrateStat. case_match; [| done].
  by apply stats_insert_lookup_ne.
Qed.

(** Only [PopulatePacketLossPercentageStat] writes the packet-loss
    fraction of a snapshot. *)
Lemma GetStatsInternal_packet_loss unix_epoch end_time s :
  GetStatsInternal unix_epoch end_time s !! PACKET_LOSS_FRACTION
  = PopulatePacketLossPercentageStat s ∅ !! PACKET_LOSS_FRACTION.
Proof.
  unfold GetStatsInternal. cbv zeta.
  repeat first
    [ rewrite stats_insert_lookup_ne by done
    | rewrite PopulatePacketCountStat_lookup_ne by done
    | rewrite PopulateFrameCountStat_lookup_ne by done
    | case_match ].
  all: unfold PopulatePacketLossPercentageStat; case_match;
    [ rewrite !stats_insert_lookup_eq; [done | | ]
    | ];
    repeat first
      [ rewrite PopulateFpsStat_lookup_ne by done
      | rewrite PopulatePlayoutDelayStat_lookup_ne by done
      | rewrite PopulateFrameBitrateStat_lookup_ne by done
      | rewrite PopulatePacketBitrateStat_lookup_ne by done ];
    done.
Qed.

(** C9. The snapshot holds a packet-loss fraction exactly when a
    sent-to-network counter exists. Then the sent count is at least 1, the
    denominator sent + retransmitted is positive, and the fraction is
    retransmitted / (sent + retransmitted), which lies between 0 and 1.
    Without a sent-to-network counter [PopulatePacketLossPercentageStat]
    returns the statistics as they are. *)
Theorem PopulatePacketLossPercentageStat_fraction
    n mt now0 calls unix_epoch now :
  let s := run n calls (new mt now0) in
  let stats := GetStatsInternal unix_epoch now s in
  match packet_stats_ s !! PACKET_SENT_TO_NETWORK with
  | None =>
      stats !! PACKET_LOSS_FRACTION = None /\
      forall m, PopulatePacketLossPercentageStat s m = m
  | Some sent_it =>
      let sent_count := PacketLogStats.event_counter sent_it in
      let retransmitted_count :=
        match packet_stats_ s !! PACKET_RETRANSMITTED with
        | Some retransmitted_it =>
            PacketLogStats.event_counter retransmitted_it
        | None => 0
        end in
      let fraction :=
        (inject_Z retransmitted_count
         / inject_Z (sent_count + retransmitted_count))%Q in
      1 <= sent_count /\ 0 <= retransmitted_count /\
      0 < sent_count + retransmitted_count /\
      stats !! PACKET_LOSS_FRACTION = Some fraction /\
      (0 <= fraction)%Q /\ (fraction <= 1)%Q
  end.
Proof.
  intros s stats.
  pose proof (Inv_reachable n mt now0 calls) as HI. fold s in HI.
  unfold stats. rewrite GetStatsInternal_packet_loss.
  unfold PopulatePacketLossPercentageStat.
  destruct (packet_stats_ s !! PACKET_SENT_TO_NETWORK) as [sent_it|]
    eqn:Hsent; [| done].
  pose proof (inv_packet_counts _ _ HI _ _ Hsent) as Hs1.
  set (r := match packet_stats_ s !! PACKET_RETRANSMITTED with
            | Some it => PacketLogStats.event_counter it
            | None => 0
            end).
  assert (Hr : 0 <= r).
  { unfold r. destruct (packet_stats_ s !! PACKET_RETRANSMITTED) eqn:Hre;
      [| done].
    pose proof (inv_packet_counts _ _ HI _ _ Hre). lia. }
  cbv zeta.
  assert (Hd : (0 < inject_Z (PacketLogStats.event_counter sent_it + r))%Q).
  { unfold Qlt. cbn. lia. }
  split_and!; try done; try lia.
  - apply Qle_shift_div_l; [done |]. unfold Qle. cbn. lia.
  - apply Qle_shift_div_r; [done |]. unfold Qle. cbn. lia.
Qed.

End SnapshotFacts.

(** ** FrameIdWrapHelper on a stream of frame ids *)

Section FrameIdWrapHelperStream.
Import FrameIdWrapHelper.

Lemma zone_cases v :
  0 <= v < 256 ->
  (v <= 63 /\ zone v = kLowRange) \/
  (63 < v < 192 /\ zone v = kMiddleRange) \/
  (192 <= v /\ zone v = kHighRange).
Proof.
  intros Hv. unfold zone, kLowRangeThreshold, kHighRangeThreshold.
  destruct (Z.leb_spec v 63); [by left |].
  destruct (Z.ltb_spec v 192); [right; by left | right; by right].
Qed.

Lemma tracks_new : tracks new 0.
Proof. done. Qed.

(** One call on the wire value of a frame id inside the window of 64
    around the latest id. *)
Lemma MapTo32bitsFrameId_window s latest f :
  tracks s latest -> 0 <= latest ->
  0 <= f < 2 ^ 32 -> latest - 64 <= f <= latest + 64 ->
  (first_ s = true -> f mod 256 <> 255) ->
  (MapTo32bitsFrameId (f mod 256) s).1 = f /\
  first_ (MapTo32bitsFrameId (f mod 256) s).2 = false /\
  tracks (MapTo32bitsFrameId (f mod 256) s).2 (Z.max latest f) /\
  (f <= latest ->
   frame_id_wrap_count_ (MapTo32bitsFrameId (f mod 256) s).2 =
     frame_id_wrap_count_ s /\
   range_ (MapTo32bitsFrameId (f mod 256) s).2 = range_ s).
Proof.
  destruct s as [b0 w r]. unfold tracks.
  cbn [first_ frame_id_wrap_count_ range_].
  intros [-> ->] Hl Hf Hwin Hfirst.
  assert (Hfv : (b0 && (f mod 256 =? 255)) = false).
  { destruct b0; [| done]. apply Z.eqb_neq. by apply Hfirst. }
  unfold MapTo32bitsFrameId. cbn [first_ frame_id_wrap_count_ range_].
  rewrite Hfv. clear Hfv Hfirst.
  pose proof (Z.mod_pos_bound f 256 ltac:(lia)) as Hv.
  pose proof (Z.mod_pos_bound latest 256 ltac:(lia)) as Hvl.
  pose proof (Z.div_mod f 256 ltac:(lia)) as Ef.
  pose proof (Z.div_mod latest 256 ltac:(lia)) as El.
  assert (Hmax : Z.max latest f = latest \/ Z.max latest f = f) by lia.
  pose proof (zone_cases _ Hv) as Hzf.
  pose proof (zone_cases _ Hvl) as Hzl.
  assert (Hu : forall c, 0 <= c * 256 + f mod 256 < 2 ^ 32 ->
                         make_id c (f mod 256) = c * 256 + f mod 256).
  { intros c Hc. rewrite make_id_shift. by apply Z.mod_small. }
  assert (Hw : forall c, 0 <= c < 2 ^ 32 -> uint32 c = c).
  { intros c Hc. by apply Z.mod_small. }
  set (v := f mod 256) in *. set (vl := latest mod 256) in *.
  set (c := f / 256) in *. set (cl := latest / 256) in *.
  assert (Hcases :
            (f <= latest /\ c = cl) \/ (f <= latest /\ c = cl - 1 /\
                                        vl <= 63 /\ 192 <= v) \/
            (latest < f /\ c = cl) \/ (latest < f /\ c = cl + 1 /\
                                       192 <= vl /\ v <= 63)) by lia.
  assert (Hmaxeq : f <= latest -> Z.max latest f = latest) by lia.
  assert (Hmaxlt : latest < f -> Z.max latest f = f) by lia.
  unfold switch_range, kLowRangeThreshold, kHighRangeThreshold.
  destruct Hzl as [[Hz Ezl]|[[Hz Ezl]|[Hz Ezl]]]; rewrite Ezl;
    destruct Hcases
      as [[Ho Hc]|[(Ho & Hc & H1 & H2)|[[Ho Hc]|(Ho & Hc & H1 & H2)]]];
    try lia;
    repeat match goal with
           | |- context [?a <? ?b] => destruct (Z.ltb_spec a b)
           | |- context [?a <=? ?b] => destruct (Z.leb_spec a b)
           end;
    cbn [andb fst snd first_ frame_id_wrap_count_ range_];
    try lia;
    try rewrite (Hmaxeq Ho); try rewrite (Hmaxlt Ho);
    fold v vl c cl;
    repeat match goal with
           | |- context [uint32 ?x] => rewrite (Hw x) by lia
           end;
    rewrite Hu by lia;
    destruct Hzf as [[? Ezf]|[[? Ezf]|[? Ezf]]]; rewrite ?Ezf, ?Ezl;
    split_and!; try done; lia.
Qed.

Lemma feed_window ids : forall s latest,
  tracks s latest -> 0 <= latest ->
  (first_ s = true -> latest + 64 < 255) ->
  within_window latest ids ->
  (feed ((fun f => f mod 256) <$> ids) s).1.*1 = ids /\
  tracks (feed ((fun f => f mod 256) <$> ids) s).2 (foldl Z.max latest ids).
Proof.
  induction ids as [|f ids IH]; intros s latest Ht Hl Hfirst Hw; [done |].
  destruct Hw as (Hf & Hwin & Hw). cbn [fmap list_fmap feed foldl].
  assert (Hne : first_ s = true -> f mod 256 <> 255).
  { intros Hs. specialize (Hfirst Hs). rewrite Z.mod_small; lia. }
  destruct (MapTo32bitsFrameId_window s latest f Ht Hl Hf Hwin Hne)
    as (Hid & Hfalse & Ht' & _).
  destruct (MapTo32bitsFrameId (f mod 256) s) as [id s1].
  cbn in Hid, Hfalse, Ht'.
  destruct (IH s1 (Z.max latest f) Ht' ltac:(lia)
              ltac:(rewrite Hfalse; done) Hw) as [IH1 IH2].
  fold (@fmap list _ Z Z (fun f => f mod 256) ids).
  destruct (feed _ s1) as [out s2]. cbn in *. split; [| done].
  by rewrite Hid, IH1.
Qed.

(** X1. A helper that has followed the stream up to the frame id
    [latest] and is given the low byte of a frame id at most 64 ahead
    returns that frame id, and then follows the stream up to it: the wrap
    count is incremented exactly when the new id is in the next block of
    256. *)
Theorem MapTo32bitsFrameId_advances (s : t) (latest d : Z) :
  tracks s latest -> 0 <= latest -> 0 <= d <= 64 -> latest + d < 2 ^ 32 ->
  (first_ s = true -> (latest + d) mod 256 <> 255) ->
  let r := MapTo32bitsFrameId ((latest + d) mod 256) s in
  r.1 = latest + d /\ tracks r.2 (latest + d) /\ first_ r.2 = false.
Proof.
  intros Ht Hl Hd Hlt Hfirst r. subst r.
  destruct (MapTo32bitsFrameId_window s latest (latest + d) Ht Hl
              ltac:(lia) ltac:(lia) Hfirst) as (H1 & H2 & H3 & _).
  replace (Z.max latest (latest + d)) with (latest + d) in H3 by lia.
  done.
Qed.

(** From zone High at frame id 250 the id 266, wire value 10, is
    reached with a wrap. *)
Lemma MapTo32bitsFrameId_advances_witness :
  (MapTo32bitsFrameId 10 (mk false 0 kHighRange)).1 = 266 /\
  frame_id_wrap_count_ (MapTo32bitsFrameId 10 (mk false 0 kHighRange)).2 = 1.
Proof.
  destruct (MapTo32bitsFrameId_advances (mk false 0 kHighRange) 250 16)
    as (H1 & [H2 _] & _).
  - split; reflexivity.
  - lia.
  - lia.
  - lia.
  - cbn. discriminate.
  - split; [exact H1 | exact H2].
Defined.

(** X2. A frame id that arrives late, at most 64 behind the latest one,
    is returned exactly, also when it lies in the block of 256 before the
    current one, and the helper's state does not move. *)
Theorem MapTo32bitsFrameId_late_frame (s : t) (latest d : Z) :
  tracks s latest -> first_ s = false ->
  0 <= d <= 64 -> d <= latest -> latest - d < 2 ^ 32 ->
  MapTo32bitsFrameId ((latest - d) mod 256) s = (latest - d, s).
Proof.
  intros Ht Hfirst Hd Hdl Hlt.
  destruct (MapTo32bitsFrameId_window s latest (latest - d) Ht
              ltac:(lia) ltac:(lia) ltac:(lia)
              ltac:(rewrite Hfirst; done)) as (H1 & H2 & _ & H4).
  destruct (H4 ltac:(lia)) as [H5 H6].
  destruct (MapTo32bitsFrameId _ s) as [id [f' w' r']].
  destruct s as [f w r]. cbn in *. by subst.
Qed.

(** After the wrap at frame id 266 the late frame 250, wire value 250,
    is still returned as 250. *)
Lemma MapTo32bitsFrameId_late_frame_witness :
  MapTo32bitsFrameId 250 (mk false 1 kLowRange) =
  (250, mk false 1 kLowRange).
Proof.
  apply (MapTo32bitsFrameId_late_frame (mk false 1 kLowRange) 266 16).
  - split; reflexivity.
  - reflexivity.
  - lia.
  - lia.
  - lia.
Defined.

(** X3. Round trip on a stream: when every frame id of a stream is at
    most 64 away from the largest id before it, a new helper fed the low
    bytes of the ids returns the ids themselves, in order; so does a
    helper that was first given the start-up value 0xFF.  At the end the
    helper holds the wrap count and the zone of the largest id. *)
Theorem feed_reconstructs_stream (ids : list Z) :
  within_window 0 ids ->
  let wire := (fun f => f mod 256) <$> ids in
  (feed wire new).1.*1 = ids /\
  (feed wire (MapTo32bitsFrameId 0xff new).2).1.*1 = ids /\
  tracks (feed wire new).2 (foldl Z.max 0 ids).
Proof.
  intros Hw wire. subst wire.
  destruct (feed_window ids new 0 tracks_new ltac:(lia) ltac:(lia) Hw)
    as [H1 H2].
  destruct (feed_window ids (MapTo32bitsFrameId 0xff new).2 0
              ltac:(done) ltac:(lia) ltac:(done) Hw) as [H3 _].
  done.
Qed.

(** A stream that wraps once and has two late frames. *)
Lemma feed_reconstructs_stream_witness :
  (feed [0; 50; 100; 150; 200; 250; 10; 250; 60; 20] new).1.*1 =
  [0; 50; 100; 150; 200; 250; 266; 250; 316; 276].
Proof.
  destruct (feed_reconstructs_stream
              [0; 50; 100; 150; 200; 250; 266; 250; 316; 276]) as (H & _).
  - cbn. lia.
  - exact H.
Defined.

End FrameIdWrapHelperStream.

(** ** GetVideoRtpTimestamp *)

(** X4. The video RTP timestamp runs at 90 kHz in steps of whole
    milliseconds: it is a [uint32], it ignores the microseconds below the
    millisecond, and [k] milliseconds later it is larger by [90 * k]
    modulo 2^32. *)
Theorem GetVideoRtpTimestamp_90kHz (t k : Z) :
  0 <= t -> 0 <= t + 1000 * k ->
  0 <= GetVideoRtpTimestamp t < 2 ^ 32 /\
  GetVideoRtpTimestamp t = GetVideoRtpTimestamp (t - t mod 1000) /\
  GetVideoRtpTimestamp t = uint32 (t / 1000 * 90) /\
  GetVideoRtpTimestamp (t + 1000 * k) =
    uint32 (GetVideoRtpTimestamp t + 90 * k).
Proof.
  intros Ht Hk.
  assert (Hq : forall x, 0 <= x -> GetVideoRtpTimestamp x
                                   = uint32 (x / 1000 * 90)).
  { intros x Hx. unfold GetVideoRtpTimestamp, InMilliseconds,
      Time.kMicrosecondsPerMillisecond. cbv zeta.
    rewrite Z.sub_0_r, Z.quot_div_nonneg by lia. done. }
  pose proof (Z.mod_pos_bound t 1000 ltac:(lia)) as Hm.
  pose proof (Z.div_mod t 1000 ltac:(lia)) as Hdm.
  rewrite !Hq by lia.
  split; [unfold uint32; apply Z.mod_pos_bound; lia |]. split_and!.
  - replace (t - t mod 1000) with (t / 1000 * 1000) by lia.
    by rewrite Z.div_mul by lia.
  - done.
  - replace (t + 1000 * k) with (t + k * 1000) by lia.
    rewrite Z.div_add by lia. unfold uint32.
    rewrite Zplus_mod_idemp_l. f_equal. lia.
Qed.

(** One second after a time of 1.5 ms the timestamp has advanced by
    90000. *)
Lemma GetVideoRtpTimestamp_90kHz_witness :
  GetVideoRtpTimestamp (1500 + 1000 * 1000) = 90090.
Proof.
  destruct (GetVideoRtpTimestamp_90kHz 1500 1000) as (_ & _ & _ & H).
  - lia.
  - lia.
  - rewrite H. reflexivity.
Defined.

(** ** The constructor and the report of SimpleHistogram *)

Section SimpleHistogramReport.
Import SimpleHistogram.

Lemma interior_zip h b : forall i,
  interior h i b = zip (interior_label h i <$> seq 0 (length b - 1)) b.
Proof.
  induction b as [|c b IH]; intros i; [done |].
  destruct b as [|c' b]; [done |].
  change (interior h i (c :: c' :: b))
    with ((Between (min_ h + (i - 1) * width_ h)
                   (min_ h + (i - 1) * width_ h + width_ h - 1), c)
            :: interior h (i + 1) (c' :: b)).
  rewrite IH. cbn [length Nat.sub]. rewrite Nat.sub_0_r.
  cbn [seq fmap list_fmap zip zip_with]. f_equal.
  - unfold interior_label. f_equal. f_equal; f_equal; lia.
  - f_equal. rewrite <- fmap_S_seq, <- list_fmap_compose.
    apply list_fmap_ext. intros _ j _. unfold interior_label. cbn.
    f_equal; [f_equal; f_equal; lia | f_equal; f_equal; f_equal; f_equal; lia].
Qed.

Lemma GetHistogram_zip min max width h :
  shape min max width h ->
  Z.of_nat (size h - 2) * width = max - min /\
  length (labels min max width (size h - 2)) = size h /\
  GetHistogram h = zip (labels min max width (size h - 2)) (buckets_ h).
Proof.
  intros (Hmin & Hmax & Hw & Hw0 & Hr & Hsz & Hgt).
  split_and!.
  - pose proof (Z.quot_rem' (max - min) width). lia.
  - unfold labels. cbn. rewrite length_app, length_fmap, length_seq. cbn.
    lia.
  - unfold GetHistogram, labels, size in *.
    destruct (buckets_ h) as [|c0 b]; [cbn in Hgt; lia |].
    destruct b as [|cl mid _] using rev_ind; [cbn in Hgt; lia |].
    assert (Hlast : List.last (c0 :: mid ++ [cl]) 0 = cl)
      by (rewrite (app_comm_cons mid [cl] c0); apply last_last).
    rewrite Hlast. cbn [hd tl length].
    rewrite length_app. cbn [length].
    replace (S (length mid + 1) - 2)%nat with (length mid) by lia.
    cbn [zip zip_with]. rewrite Hmin, Hmax. f_equal.
    rewrite interior_zip, length_app. cbn [length].
    replace (length mid + 1 - 1)%nat with (length mid) by lia.
    assert (Hlen : length (interior_label h 1 <$> seq 0 (length mid))
                   = length mid) by by rewrite length_fmap, length_seq.
    rewrite (zip_with_app pair _ [AtLeast max] mid [cl]) by
      by rewrite length_fmap, length_seq.
    rewrite <- (app_nil_r (interior_label h 1 <$> seq 0 (length mid))) at 1.
    rewrite (zip_with_app pair _ [] mid [cl]) by done.
    cbn [zip_with]. rewrite app_nil_r. f_equal. f_equal.
    apply list_fmap_ext. intros _ j _. unfold interior_label.
    rewrite Hmin, Hw. f_equal; f_equal; lia.
Qed.

Lemma labels_lookup min max width k s i :
  0 < Z.of_nat k -> Z.of_nat k * width = max - min ->
  i = (if s <? min then 0%nat
       else if max <=? s then S k
       else Z.to_nat (1 + (s - min) `div` width)) ->
  exists l, labels min max width k !! i = Some l /\ label_holds l s.
Proof.
  intros Hk Hkw ->. unfold labels.
  destruct (Z.ltb_spec s min) as [Hlo|Hlo].
  { exists (Below min). done. }
  destruct (Z.leb_spec max s) as [Hhi|Hhi].
  { exists (AtLeast max). split; [| done]. rewrite lookup_cons.
    rewrite lookup_app_r by (rewrite length_fmap, length_seq; lia).
    rewrite length_fmap, length_seq, Nat.sub_diag. done. }
  assert (Hwpos : 0 < width) by nia.
  pose proof (Z.div_pos (s - min) width ltac:(lia) ltac:(lia)) as Hq.
  pose proof (Z.div_mod (s - min) width ltac:(lia)) as Hdm.
  pose proof (Z.mod_pos_bound (s - min) width ltac:(lia)) as Hm.
  set (q := (s - min) `div` width) in *.
  assert (Hqk : q < Z.of_nat k) by nia.
  replace (Z.to_nat (1 + q)) with (S (Z.to_nat q)) by lia.
  eexists. split.
  - rewrite lookup_cons.
    rewrite lookup_app_l by (rewrite length_fmap, length_seq; lia).
    rewrite list_lookup_fmap, lookup_seq_lt by lia. done.
  - cbn. rewrite Z2Nat.id by lia. nia.
Qed.

Lemma new_is_Some (min max width : Z) :
  is_Some (new min max width) <->
  (width | max - min) /\
  (0 < width /\ min < max \/ width < 0 /\ max < min).
Proof.
  unfold new.
  destruct (Z.eqb_spec width 0) as [->|Hw0].
  { split; [by intros [? ?] | lia]. }
  destruct (Z.leb_spec (Z.quot (max - min) width + 2) 2) as [Hn|Hn].
  { split; [by intros [? ?] |]. intros [[k Hk] Hs]. exfalso.
    rewrite Hk, Z.quot_mul in Hn by done. nia. }
  destruct (Z.eqb_spec (Z.rem (max - min) width) 0) as [Hr|Hr]; cbn.
  + split; [intros _ | by eexists].
    pose proof (Z.quot_rem' (max - min) width) as Hqr.
    split; [by apply Z.rem_divide |]. nia.
  + split; [by intros [? ?] |]. intros [Hd _].
    by apply Z.rem_divide in Hd.
Qed.

(** X5. What the constructor requires.  For [int64] arguments whose
    arithmetic does not overflow, the constructor refuses a width of 0,
    [min = max], a distance [max - min] that is not a multiple of the
    width, and a distance whose sign is not that of the width; a
    histogram it returns has the given [min], [max] and [width] and
    [(max - min) / width + 2] buckets, at least 3, all 0. *)
Theorem SimpleHistogram_new_requires (min max width : Z) :
  constructor_defined min max width ->
  (width = 0 -> new min max width = None) /\
  (min = max -> new min max width = None) /\
  (~ (width | max - min) -> new min max width = None) /\
  (0 < (max - min) * width \/ new min max width = None) /\
  (forall h, new min max width = Some h ->
     (width | max - min) /\
     (0 < width /\ min < max \/ width < 0 /\ max < min) /\
     min_ h = min /\ max_ h = max /\ width_ h = width /\
     buckets_ h = replicate (Z.to_nat ((max - min) `div` width + 2)) 0 /\
     (3 <= size h)%nat /\
     Z.of_nat (size h) < 2 ^ 63).
Proof.
  intros (_ & _ & _ & _ & Hq).
  pose proof (new_is_Some min max width) as Hiff.
  assert (Hnone : ~ ((width | max - min) /\
                     (0 < width /\ min < max \/ width < 0 /\ max < min)) ->
                  new min max width = None).
  { intros Hnot. destruct (new min max width) eqn:Hnew; [| done].
    exfalso. apply Hnot, Hiff. by eexists. }
  split_and!.
  - intros ->. apply Hnone. lia.
  - intros ->. apply Hnone. lia.
  - intros Hnd. apply Hnone. by intros [? _].
  - destruct (decide (0 < (max - min) * width)) as [|Hs]; [by left |].
    right. apply Hnone. intros [_ ?]. nia.
  - intros h Hnew.
    destruct (proj1 Hiff ltac:(by eexists)) as [Hd Hs].
    split; [done |]. split; [done |].
    unfold new in Hnew.
    destruct (Z.eqb_spec width 0) as [|Hw0]; [done |].
    destruct (Z.leb_spec (Z.quot (max - min) width + 2) 2) as [|Hn];
      [done |].
    destruct (Z.eqb_spec (Z.rem (max - min) width) 0) as [Hr|];
      [| done].
    cbn in Hnew. injection Hnew as <-. unfold size. cbn.
    rewrite length_replicate.
    split_and!; try done; [| lia | unfold int64 in Hq; lia].
    do 3 f_equal. destruct Hd as [k Hk].
    by rewrite Hk, Z.quot_mul, Z.div_mul.
Qed.

(** The histogram of the engine, over (0, 800, 20), and the bounds
    (800, 0, -20), which pass both checks as well. *)
Lemma SimpleHistogram_new_requires_witness :
  constructor_defined 0 800 20 /\
  (exists h, new 0 800 20 = Some h /\ size h = 42%nat) /\
  is_Some (new 800 0 (-20)) /\
  new 0 800 30 = None.
Proof.
  assert (Hdef : constructor_defined 0 800 20)
    by (unfold constructor_defined, int64; by vm_compute).
  split; [exact Hdef |].
  destruct (SimpleHistogram_new_requires 0 800 20 Hdef)
    as (_ & _ & _ & _ & H).
  split; [| split; [by eexists | reflexivity]].
  eexists. split; [reflexivity |].
  destruct (H _ eq_refl) as (_ & _ & _ & _ & _ & Hb & _).
  unfold size. rewrite Hb. reflexivity.
Defined.

(** X6. The report of a constructed histogram, after any calls of [Add]
    and [Reset], lists every bucket once, in order, with its count: first
    the bucket below [min], then the interior ranges
    [min + j * width .. min + (j + 1) * width - 1], which follow one
    another without gap and end at [max - 1], then the bucket from [max]
    on. *)
Theorem GetHistogram_lists_buckets (min max width : Z) (h0 : t)
    (ops : list op) :
  new min max width = Some h0 ->
  let h := run ops h0 in
  let k := (size h - 2)%nat in
  Z.of_nat k * width = max - min /\
  GetHistogram h = zip (labels min max width k) (buckets_ h) /\
  (GetHistogram h).*1 = labels min max width k /\
  (GetHistogram h).*2 = buckets_ h.
Proof.
  intros Hnew h k. subst h k.
  destruct (run_shape_total _ _ _ _ ops Hnew) as [Hs _].
  destruct (GetHistogram_zip _ _ _ _ Hs) as (H1 & H2 & H3).
  rewrite H3. split_and!; try done.
  - apply fst_zip. by rewrite H2.
  - apply snd_zip. by rewrite H2.
Qed.

(** The histogram of the engine after one sample of 25 ms. *)
Lemma GetHistogram_lists_buckets_witness :
  (GetHistogram (Add 25 (mk 0 800 20 (replicate 42 0)))) !! 2%nat
  = Some (Between 20 39, 1).
Proof.
  destruct (GetHistogram_lists_buckets 0 800 20
              (mk 0 800 20 (replicate 42 0)) [OpAdd 25] eq_refl)
    as (_ & H & _).
  cbv zeta in H. change (run [OpAdd 25] ?h) with (Add 25 h) in H.
  rewrite H. reflexivity.
Defined.

(** X7. [Add] and the report agree: a sample is counted under the label
    whose range contains it, and the report after [Add(s)] differs from
    the one before in the count of that entry alone, which is one
    larger. *)
Theorem Add_counts_under_label (min max width : Z) (h0 : t)
    (ops : list op) (s : Z) :
  new min max width = Some h0 ->
  let h := run ops h0 in
  exists l c i,
    GetHistogram h !! i = Some (l, c) /\ label_holds l s /\
    GetHistogram (Add s h) = <[i := (l, c + 1)]> (GetHistogram h).
Proof.
  intros Hnew h.
  destruct (run_shape_total _ _ _ _ ops Hnew) as [Hs _]. fold h in Hs.
  clearbody h.
  pose proof (Add_shape _ _ _ _ s Hs) as Hs'.
  destruct (Add_bucket_index _ _ _ _ s Hs) as [HAdd Hlt].
  destruct (GetHistogram_zip _ _ _ _ Hs) as (Hkw & Hlen & HG).
  destruct (GetHistogram_zip _ _ _ _ Hs') as (_ & _ & HG').
  pose proof Hs as (Hmin & Hmax & Hw & _ & _ & _ & Hgt).
  assert (Hsz : size (Add s h) = size h).
  { rewrite HAdd. unfold size, with_buckets, incr. cbn.
    by rewrite length_alter. }
  rewrite Hsz in HG'.
  destruct (labels_lookup min max width (size h - 2) s (bucket_index s h))
    as (l & Hl & Hholds); [lia | done | |].
  { unfold bucket_index. rewrite Hmin, Hmax, Hw.
    replace (S (size h - 2)) with (size h - 1)%nat by lia. done. }
  destruct (lookup_lt_is_Some_2 (buckets_ h) (bucket_index s h) Hlt)
    as [c Hc].
  exists l, c, (bucket_index s h). split_and!; [| done |].
  - rewrite HG. by rewrite lookup_zip_with, Hl, Hc.
  - assert (Hb : buckets_ (Add s h)
                 = <[bucket_index s h := c + 1]> (buckets_ h))
      by (rewrite HAdd; cbn; by apply incr_insert).
    rewrite HG', HG, Hb.
    rewrite <- (list_insert_id _ _ _ Hl) at 1.
    by rewrite <- insert_zip_with.
Qed.

(** The histogram of the engine and a sample of 799 ms. *)
Lemma Add_counts_under_label_witness :
  exists l c i,
    GetHistogram (mk 0 800 20 (replicate 42 0)) !! i = Some (l, c) /\
    label_holds l 799.
Proof.
  destruct (Add_counts_under_label 0 800 20
              (mk 0 800 20 (replicate 42 0)) [] 799 eq_refl)
    as (l & c & i & H1 & H2 & _).
  exists l, c, i. split; [exact H1 | exact H2].
Defined.

End SimpleHistogramReport.

(** ** The phases of the event handlers *)

(** [through p] moves the projection [p] of the state inward through the
    phases that do not write it. *)
Ltac through p :=
  repeat match goal with
    | |- context [p (respond ?b ?ts ?ty ?s)] =>
        replace (p (respond b ts ty s)) with (p s)
          by (unfold respond, StatsEventSubscriber.UpdateLastResponseTime;
              by repeat case_match)
    | |- context [p (StatsEventSubscriber.UpdateFirstLastEventTime
                       ?b ?ts ?r ?s)] =>
        replace (p (StatsEventSubscriber.UpdateFirstLastEventTime b ts r s))
          with (p s)
          by (unfold StatsEventSubscriber.UpdateFirstLastEventTime;
              by repeat case_match)
    | |- context [p (count_frame_event ?e ?s)] =>
        replace (p (count_frame_event e s)) with (p s) by done
    | |- context [p (count_packet_event ?e ?s)] =>
        replace (p (count_packet_event e s)) with (p s) by done
    | |- context [p (record_packet_event ?b ?e ?s)] =>
        replace (p (record_packet_event b e s)) with (p s)
          by (unfold record_packet_event,
                StatsEventSubscriber.RecordNetworkLatency,
                StatsEventSubscriber.ErasePacketSentTime;
              by repeat case_match)
    | |- context [p (record_frame_event ?n ?b ?e ?s)] =>
        replace (p (record_frame_event n b e s)) with (p s)
          by (unfold record_frame_event,
                StatsEventSubscriber.RecordFrameCaptureTime,
                StatsEventSubscriber.RecordCaptureLatency,
                StatsEventSubscriber.RecordEncodeLatency,
                StatsEventSubscriber.RecordFrameTxLatency,
                StatsEventSubscriber.RecordE2ELatency,
                StatsEventSubscriber.MaybeInsertFrameInfo;
              by repeat case_match)
    end.

Section HandlerPhases.
Import StatsEventSubscriber.
Variable kMaxFrameInfoMapSize : nat.

Local Abbreviation run := (run kMaxFrameInfoMapSize).
Local Abbreviation step := (step kMaxFrameInfoMapSize).
Local Abbreviation OnReceiveFrameEvent :=
  (OnReceiveFrameEvent kMaxFrameInfoMapSize).

Lemma OnReceiveFrameEvent_phases bounds e s :
  OnReceiveFrameEvent bounds e s =
  if bool_decide (FrameEvent.media_type e = event_media_type_ s)
  then respond bounds (FrameEvent.timestamp e) (FrameEvent.type e)
         (record_frame_event kMaxFrameInfoMapSize bounds e
            (UpdateFirstLastEventTime bounds (FrameEvent.timestamp e)
               (IsReceiverEvent (FrameEvent.type e))
               (count_frame_event e s)))
  else s.
Proof.
  unfold StatsEventSubscriber.OnReceiveFrameEvent.
  by case_bool_decide.
Qed.

Lemma OnReceivePacketEvent_phases bounds e s :
  OnReceivePacketEvent bounds e s =
  if bool_decide (PacketEvent.media_type e = event_media_type_ s)
  then respond bounds (PacketEvent.timestamp e) (PacketEvent.type e)
         (record_packet_event bounds e
            (UpdateFirstLastEventTime bounds (PacketEvent.timestamp e)
               (IsReceiverEvent (PacketEvent.type e))
               (count_packet_event e s)))
  else s.
Proof. unfold OnReceivePacketEvent. by case_bool_decide. Qed.

Lemma frame_stats_OnReceiveFrameEvent bounds e s :
  frame_stats_ (OnReceiveFrameEvent bounds e s) =
  if bool_decide (FrameEvent.media_type e = event_media_type_ s)
  then <[FrameEvent.type e :=
           frame_counter_after e (frame_stats_ s !! FrameEvent.type e)]>
         (frame_stats_ s)
  else frame_stats_ s.
Proof.
  rewrite OnReceiveFrameEvent_phases. case_bool_decide; [| done].
  by through frame_stats_.
Qed.

Lemma frame_stats_OnReceivePacketEvent bounds e s :
  frame_stats_ (OnReceivePacketEvent bounds e s) = frame_stats_ s.
Proof.
  rewrite OnReceivePacketEvent_phases. case_bool_decide; [| done].
  by through frame_stats_.
Qed.

Lemma packet_stats_OnReceivePacketEvent bounds e s :
  packet_stats_ (OnReceivePacketEvent bounds e s) =
  if bool_decide (PacketEvent.media_type e = event_media_type_ s)
  then <[PacketEvent.type e :=
           packet_counter_after e (packet_stats_ s !! PacketEvent.type e)]>
         (packet_stats_ s)
  else packet_stats_ s.
Proof.
  rewrite OnReceivePacketEvent_phases. case_bool_decide; [| done].
  by through packet_stats_.
Qed.

Lemma packet_stats_OnReceiveFrameEvent bounds e s :
  packet_stats_ (OnReceiveFrameEvent bounds e s) = packet_stats_ s.
Proof.
  rewrite OnReceiveFrameEvent_phases. case_bool_decide; [| done].
  by through packet_stats_.
Qed.

Lemma num_frames_late_record_frame_event bounds e s :
  num_frames_late_ (record_frame_event kMaxFrameInfoMapSize bounds e s) =
  num_frames_late_ s +
  (if bool_decide (FrameEvent.type e = FRAME_PLAYOUT)
      && (FrameEvent.delay_delta e <=? 0) then 1 else 0).
Proof.
  unfold record_frame_event.
  destruct (FrameEvent.type e);
    first [rewrite bool_decide_true by done
          | rewrite bool_decide_false by done];
    cbn [andb];
    unfold RecordFrameCaptureTime, RecordCaptureLatency,
      RecordEncodeLatency, RecordFrameTxLatency, RecordE2ELatency,
      MaybeInsertFrameInfo;
    repeat case_match; cbn; lia.
Qed.

Lemma num_frames_late_OnReceiveFrameEvent bounds e s :
  num_frames_late_ (OnReceiveFrameEvent bounds e s) =
  num_frames_late_ s +
  (if bool_decide (FrameEvent.media_type e = event_media_type_ s)
      && bool_decide (FrameEvent.type e = FRAME_PLAYOUT)
      && (FrameEvent.delay_delta e <=? 0) then 1 else 0).
Proof.
  rewrite OnReceiveFrameEvent_phases. case_bool_decide; cbn [andb]; [| lia].
  through num_frames_late_. rewrite num_frames_late_record_frame_event.
  by through num_frames_late_.
Qed.

Lemma num_frames_late_OnReceivePacketEvent bounds e s :
  num_frames_late_ (OnReceivePacketEvent bounds e s) = num_frames_late_ s.
Proof.
  rewrite OnReceivePacketEvent_phases. case_bool_decide; [| done].
  by through num_frames_late_.
Qed.

Lemma last_response_OnReceiveFrameEvent bounds e s :
  last_response_received_time_ (OnReceiveFrameEvent bounds e s) =
  if bool_decide (FrameEvent.media_type e = event_media_type_ s)
     && IsReceiverEvent (FrameEvent.type e)
  then default (last_response_received_time_ s)
         (corrected_time bounds (FrameEvent.timestamp e)
                         (FrameEvent.type e))
  else last_response_received_time_ s.
Proof.
  rewrite OnReceiveFrameEvent_phases. case_bool_decide; cbn [andb]; [| done].
  unfold respond, corrected_time, UpdateLastResponseTime.
  destruct (IsReceiverEvent _);
    [destruct (GetReceiverOffset bounds); cbn |];
    by through last_response_received_time_.
Qed.

Lemma last_response_OnReceivePacketEvent bounds e s :
  last_response_received_time_ (OnReceivePacketEvent bounds e s) =
  if bool_decide (PacketEvent.media_type e = event_media_type_ s)
     && IsReceiverEvent (PacketEvent.type e)
  then default (last_response_received_time_ s)
         (corrected_time bounds (PacketEvent.timestamp e)
                         (PacketEvent.type e))
  else last_response_received_time_ s.
Proof.
  rewrite OnReceivePacketEvent_phases. case_bool_decide; cbn [andb]; [| done].
  unfold respond, corrected_time, UpdateLastResponseTime.
  destruct (IsReceiverEvent _);
    [destruct (GetReceiverOffset bounds); cbn |];
    by through last_response_received_time_.
Qed.

(** The offset is the midpoint of its bounds, rounded toward 0, and so
    between them. *)
Lemma corrected_time_receiver (lo hi : Time.TimeDelta) ts ty t :
  lo <= hi -> IsReceiverEvent ty = true ->
  corrected_time (Some (lo, hi)) ts ty = Some t ->
  t = ts - Z.quot (lo + hi) 2 /\ ts - hi <= t <= ts - lo.
Proof.
  intros Hle Hr. unfold corrected_time. rewrite Hr. cbn. intros [= <-].
  split; [done |].
  pose proof (Z.quot_rem' (lo + hi) 2) as Hq.
  pose proof (Z.rem_bound_abs (lo + hi) 2 ltac:(lia)) as Hb.
  destruct (Z_lt_le_dec (lo + hi) 0) as [Hneg|Hpos].
  - pose proof (Z.rem_nonpos (lo + hi) 2 ltac:(lia) ltac:(lia)). lia.
  - pose proof (Z.rem_nonneg (lo + hi) 2 ltac:(lia) ltac:(lia)). lia.
Qed.

(** *** The events behind the counters *)

Lemma since_reset_snoc calls c :
  since_reset (calls ++ [c]) =
  match c with
  | CallReset _ => []
  | _ => since_reset calls ++ [c]
  end.
Proof. unfold since_reset. by rewrite foldl_snoc. Qed.

Lemma sum_of_snoc {A} (f : A -> Z) l a :
  sum_of f (l ++ [a]) = sum_of f l + f a.
Proof.
  unfold sum_of. induction l as [|b l IH]; cbn; [lia |]. rewrite IH. lia.
Qed.

Lemma frame_events_snoc mt ty calls c :
  frame_events mt ty (calls ++ [c]) =
  frame_events mt ty calls ++
  match c with
  | CallFrameEvent _ e =>
      if bool_decide (FrameEvent.media_type e = mt)
         && bool_decide (FrameEvent.type e = ty)
      then [e] else []
  | _ => []
  end.
Proof.
  unfold frame_events. rewrite omap_app. f_equal.
  destruct c; cbn; try done. by destruct (_ && _).
Qed.

Lemma packet_events_snoc mt ty calls c :
  packet_events mt ty (calls ++ [c]) =
  packet_events mt ty calls ++
  match c with
  | CallPacketEvent _ e =>
      if bool_decide (PacketEvent.media_type e = mt)
         && bool_decide (PacketEvent.type e = ty)
      then [e] else []
  | _ => []
  end.
Proof.
  unfold packet_events. rewrite omap_app. f_equal.
  destruct c; cbn; try done. by destruct (_ && _).
Qed.

Lemma frame_stats_run (mt : EventMediaType) (now : Time.TimeTicks)
    (calls : list call) (type : CastLoggingEvent) :
  let s := run calls (new mt now) in
  let events := frame_events mt type (since_reset calls) in
  match frame_stats_ s !! type with
  | None => events = []
  | Some it =>
      events <> [] /\
      FrameLogStats.event_counter it = Z.of_nat (length events) /\
      FrameLogStats.sum_delay it = sum_of FrameEvent.delay_delta events /\
      (Forall (fun e => 0 <= FrameEvent.size e < 2 ^ 64) events ->
       FrameLogStats.sum_size it = size_t (sum_of FrameEvent.size events))
  end.
Proof.
  cbv zeta. revert type.
  induction calls as [|c calls IH] using rev_ind; intros ty.
  { cbn. by rewrite lookup_empty. }
  rewrite run_snoc_call, since_reset_snoc.
  pose proof (event_media_type_run kMaxFrameInfoMapSize calls (new mt now))
    as Hmt. cbn [event_media_type_ new] in Hmt.
  destruct c as [bounds e|bounds e|now']; cbn [StatsEventSubscriber.step].
  - rewrite frame_stats_OnReceiveFrameEvent, frame_events_snoc, Hmt.
    case_bool_decide as Hm; cbn [andb];
      [| rewrite app_nil_r; apply IH].
    destruct (decide (FrameEvent.type e = ty)) as [<-|Hne].
    + rewrite lookup_insert_eq, bool_decide_true by done.
      specialize (IH (FrameEvent.type e)).
      destruct (frame_stats_ _ !! FrameEvent.type e) as [it|].
      * destruct IH as (Hn & Hc & Hd & Hs). cbn.
        rewrite length_app, sum_of_snoc. cbn. split_and!; try lia.
        -- by destruct (frame_events _ _ _).
        -- intros Hall. apply Forall_app in Hall as [Hall _].
           rewrite (Hs Hall), sum_of_snoc. unfold size_t.
           by rewrite Zplus_mod_idemp_l.
      * rewrite IH. cbn. split_and!; try done; try lia.
        intros Hall. rewrite Forall_singleton in Hall.
        unfold size_t. rewrite Z.add_0_r, Z.mod_small; lia.
    + rewrite lookup_insert_ne, bool_decide_false, app_nil_r by done.
      apply IH.
  - rewrite frame_stats_OnReceivePacketEvent, frame_events_snoc, app_nil_r.
    apply IH.
  - cbn. by rewrite lookup_empty.
Qed.

Lemma packet_stats_run (mt : EventMediaType)
    (now : Time.TimeTicks) (calls : list call) (type : CastLoggingEvent) :
  let s := run calls (new mt now) in
  let events := packet_events mt type (since_reset calls) in
  match packet_stats_ s !! type with
  | None => events = []
  | Some it =>
      events <> [] /\
      PacketLogStats.event_counter it = Z.of_nat (length events) /\
      (Forall (fun e => 0 <= PacketEvent.size e < 2 ^ 64) events ->
       PacketLogStats.sum_size it
       = size_t (sum_of PacketEvent.size events))
  end.
Proof.
  cbv zeta. revert type.
  induction calls as [|c calls IH] using rev_ind; intros ty.
  { cbn. by rewrite lookup_empty. }
  rewrite run_snoc_call, since_reset_snoc.
  pose proof (event_media_type_run kMaxFrameInfoMapSize calls (new mt now))
    as Hmt. cbn [event_media_type_ new] in Hmt.
  destruct c as [bounds e|bounds e|now']; cbn [StatsEventSubscriber.step].
  - rewrite packet_stats_OnReceiveFrameEvent, packet_events_snoc, app_nil_r.
    apply IH.
  - rewrite packet_stats_OnReceivePacketEvent, packet_events_snoc, Hmt.
    case_bool_decide as Hm; cbn [andb];
      [| rewrite app_nil_r; apply IH].
    destruct (decide (PacketEvent.type e = ty)) as [<-|Hne].
    + rewrite lookup_insert_eq, bool_decide_true by done.
      specialize (IH (PacketEvent.type e)).
      destruct (packet_stats_ _ !! PacketEvent.type e) as [it|].
      * destruct IH as (Hn & Hc & Hs). cbn.
        rewrite length_app. cbn. split_and!; try lia.
        -- by destruct (packet_events _ _ _).
        -- intros Hall. apply Forall_app in Hall as [Hall _].
           rewrite (Hs Hall), sum_of_snoc. unfold size_t.
           by rewrite Zplus_mod_idemp_l.
      * rewrite IH. cbn. split_and!; try done; try lia.
        intros Hall. rewrite Forall_singleton in Hall.
        unfold size_t. rewrite Z.add_0_r, Z.mod_small; lia.
    + rewrite lookup_insert_ne, bool_decide_false, app_nil_r by done.
      apply IH.
  - cbn. by rewrite lookup_empty.
Qed.

Lemma num_frames_late_run (mt : EventMediaType) (now : Time.TimeTicks)
    (calls : list call) :
  num_frames_late_ (run calls (new mt now)) =
  Z.of_nat (length (filter (fun e => FrameEvent.delay_delta e <= 0)
                           (frame_events mt FRAME_PLAYOUT
                                         (since_reset calls)))).
Proof.
  induction calls as [|c calls IH] using rev_ind; [done |].
  rewrite run_snoc_call, since_reset_snoc.
  pose proof (event_media_type_run kMaxFrameInfoMapSize calls (new mt now))
    as Hmt. cbn [event_media_type_ new] in Hmt.
  destruct c as [bounds e|bounds e|now']; cbn [StatsEventSubscriber.step].
  - rewrite num_frames_late_OnReceiveFrameEvent, frame_events_snoc, Hmt, IH.
    rewrite filter_app, length_app.
    destruct (_ && bool_decide _); cbn [andb];
      [| rewrite filter_nil; cbn; lia].
    rewrite filter_cons, filter_nil.
    destruct (Z.leb_spec (FrameEvent.delay_delta e) 0);
      [rewrite decide_True by done | rewrite decide_False by lia];
      cbn; lia.
  - rewrite num_frames_late_OnReceivePacketEvent, frame_events_snoc,
      app_nil_r. apply IH.
  - done.
Qed.

(** *** The first and the last event time *)

Lemma first_last_UpdateFirstLastEventTime bounds ts ty s :
  first_last_event_time
    (UpdateFirstLastEventTime bounds ts (IsReceiverEvent ty) s) =
  match corrected_time bounds ts ty with
  | None => first_last_event_time s
  | Some t => note_time (first_last_event_time s) t
  end.
Proof.
  unfold UpdateFirstLastEventTime, corrected_time.
  destruct (IsReceiverEvent ty); [| done].
  by destruct (GetReceiverOffset bounds).
Qed.

Lemma first_last_through_frame bounds e s :
  first_last_event_time
    (respond bounds (FrameEvent.timestamp e) (FrameEvent.type e)
       (record_frame_event kMaxFrameInfoMapSize bounds e s))
  = first_last_event_time s.
Proof.
  unfold first_last_event_time.
  through first_event_time_. by through last_event_time_.
Qed.

Lemma first_last_through_packet bounds e s :
  first_last_event_time
    (respond bounds (PacketEvent.timestamp e) (PacketEvent.type e)
       (record_packet_event bounds e s))
  = first_last_event_time s.
Proof.
  unfold first_last_event_time.
  through first_event_time_. by through last_event_time_.
Qed.

Lemma event_times_snoc mt calls c :
  event_times mt (calls ++ [c]) =
  event_times mt calls ++
  match c with
  | CallFrameEvent bounds e =>
      if bool_decide (FrameEvent.media_type e = mt)
      then option_list (corrected_time bounds (FrameEvent.timestamp e)
                                       (FrameEvent.type e))
      else []
  | CallPacketEvent bounds e =>
      if bool_decide (PacketEvent.media_type e = mt)
      then option_list (corrected_time bounds (PacketEvent.timestamp e)
                                       (PacketEvent.type e))
      else []
  | CallReset _ => []
  end.
Proof.
  unfold event_times. rewrite omap_app. f_equal.
  destruct c; cbn; try done; case_bool_decide; try done;
    by destruct (corrected_time _ _ _).
Qed.

Lemma first_last_run (mt : EventMediaType) (now : Time.TimeTicks)
    (calls : list call) :
  first_last_event_time (run calls (new mt now)) =
  foldl note_time (0, 0) (event_times mt (since_reset calls)).
Proof.
  induction calls as [|c calls IH] using rev_ind; [done |].
  rewrite run_snoc_call, since_reset_snoc.
  pose proof (event_media_type_run kMaxFrameInfoMapSize calls (new mt now))
    as Hmt. cbn [event_media_type_ new] in Hmt.
  destruct c as [bounds e|bounds e|now']; cbn [StatsEventSubscriber.step].
  - rewrite OnReceiveFrameEvent_phases, event_times_snoc, foldl_app, Hmt.
    case_bool_decide; [| done].
    rewrite first_last_through_frame, first_last_UpdateFirstLastEventTime.
    change (first_last_event_time (count_frame_event e ?s))
      with (first_last_event_time s).
    rewrite IH. by destruct (corrected_time _ _ _).
  - rewrite OnReceivePacketEvent_phases, event_times_snoc, foldl_app, Hmt.
    case_bool_decide; [| done].
    rewrite first_last_through_packet, first_last_UpdateFirstLastEventTime.
    change (first_last_event_time (count_packet_event e ?s))
      with (first_last_event_time s).
    rewrite IH. by destruct (corrected_time _ _ _).
  - done.
Qed.

Lemma note_time_bracket fl t :
  fl.1 <= fl.2 ->
  (note_time fl t).1 <= t <= (note_time fl t).2.
Proof.
  destruct fl as [f l]. unfold note_time, Time.is_null. cbn.
  intros Hfl. destruct (Z.eqb_spec f 0), (Z.eqb_spec l 0); lia.
Qed.

Lemma foldl_note_time_ordered ts :
  (foldl note_time (0, 0) ts).1 <= (foldl note_time (0, 0) ts).2.
Proof.
  induction ts as [|t ts IH] using rev_ind; [done |].
  rewrite foldl_snoc. pose proof (note_time_bracket _ t IH). lia.
Qed.

Lemma foldl_note_time_extremes ts :
  Forall (fun t => t <> 0) ts -> ts <> [] ->
  let fl := foldl note_time (0, 0) ts in
  fl.1 ∈ ts /\ fl.2 ∈ ts /\
  Forall (fun t => fl.1 <= t) ts /\ Forall (fun t => t <= fl.2) ts.
Proof.
  induction ts as [|t ts IH] using rev_ind; [done |].
  intros Hall _. apply Forall_app in Hall as [Hall Ht].
  rewrite Forall_singleton in Ht. rewrite foldl_snoc.
  destruct (decide (ts = [])) as [->|Hne].
  { cbn. unfold note_time, Time.is_null. cbn.
    split_and!; try (apply list_elem_of_singleton; done);
      by apply Forall_singleton. }
  destruct (IH Hall Hne) as (H1 & H2 & H3 & H4).
  set (fl := foldl note_time (0, 0) ts) in *.
  assert (Hf : fl.1 <> 0).
  { intros Hz. rewrite Forall_forall in Hall. by apply (Hall _ H1). }
  assert (Hl : fl.2 <> 0).
  { intros Hz. rewrite Forall_forall in Hall. by apply (Hall _ H2). }
  unfold note_time, Time.is_null.
  destruct (Z.eqb_spec fl.1 0); [done |].
  destruct (Z.eqb_spec fl.2 0); [done |]. cbn [fst snd].
  split_and!.
  - destruct (Z.min_spec fl.1 t) as [[_ ->]|[_ ->]];
      [apply elem_of_app; by left
      | apply elem_of_app; right; by apply list_elem_of_singleton].
  - destruct (Z.max_spec fl.2 t) as [[_ ->]|[_ ->]];
      [apply elem_of_app; right; by apply list_elem_of_singleton
      | apply elem_of_app; by left].
  - apply Forall_app. split; [| apply Forall_singleton; lia].
    eapply Forall_impl; [exact H3 |]. cbn. lia.
  - apply Forall_app. split; [| apply Forall_singleton; lia].
    eapply Forall_impl; [exact H4 |]. cbn. lia.
Qed.

(** X12. The first and the last event time.  Take the times of the
    events of the subscriber's media type received since the construction
    or the last [Reset], each as [UpdateFirstLastEventTime] corrects it: a
    receiver event is moved by the receiver offset, and left out when
    there are no offset bounds.  The first event time is never after the
    last one; both are null when there was no such event; the time of the
    latest event lies between them; and when none of the times is the
    null time 0, the first event time is the smallest and the last event
    time the largest of them. *)
Theorem first_last_event_time_bounds (mt : EventMediaType)
    (now : Time.TimeTicks) (calls : list call) :
  let s := run calls (new mt now) in
  let times := event_times mt (since_reset calls) in
  first_event_time_ s <= last_event_time_ s /\
  (times = [] -> first_event_time_ s = 0 /\ last_event_time_ s = 0) /\
  (forall times' t, times = times' ++ [t] ->
     first_event_time_ s <= t <= last_event_time_ s) /\
  (Forall (fun t => t <> 0) times -> times <> [] ->
   first_event_time_ s ∈ times /\ last_event_time_ s ∈ times /\
   Forall (fun t => first_event_time_ s <= t <= last_event_time_ s) times).
Proof.
  intros s times. pose proof (first_last_run mt now calls) as H.
  fold s times in H. unfold first_last_event_time in H.
  assert (H1 : first_event_time_ s = (foldl note_time (0, 0) times).1)
    by by rewrite <- H.
  assert (H2 : last_event_time_ s = (foldl note_time (0, 0) times).2)
    by by rewrite <- H.
  rewrite H1, H2. clear H H1 H2. split_and!.
  - apply foldl_note_time_ordered.
  - by intros ->.
  - intros times' t ->. rewrite foldl_snoc.
    apply note_time_bracket, foldl_note_time_ordered.
  - intros Hall Hne.
    destruct (foldl_note_time_extremes times Hall Hne) as (? & ? & H3 & H4).
    split_and!; try done. rewrite Forall_forall in H3, H4 |- *.
    intros t Ht. split; [by apply H3 | by apply H4].
Qed.

(** *** The media-type test *)

Lemma step_not_relevant c s :
  relevant (event_media_type_ s) c = false -> step s c = s.
Proof.
  destruct c as [bounds e|bounds e|now']; cbn; [| | done]; intros H;
    [unfold StatsEventSubscriber.OnReceiveFrameEvent
    | unfold OnReceivePacketEvent]; by rewrite H.
Qed.

(** X13. Events of another media type are dropped whole: the subscriber
    after a sequence of calls is the one after the calls that are left
    when every frame and packet event of another media type is taken
    out; such an event changes no counter, time, cache or histogram. *)
Theorem run_ignores_other_media (calls : list call) (s : t) :
  run calls s = run (List.filter (relevant (event_media_type_ s)) calls) s.
Proof.
  induction calls as [|c calls IH] using rev_ind; [done |].
  rewrite List.filter_app, !run_snoc_call. cbn [List.filter].
  destruct (relevant (event_media_type_ s) c) eqn:Hc.
  - by rewrite run_snoc_call, <- IH.
  - rewrite app_nil_r, <- IH. apply step_not_relevant.
    by rewrite event_media_type_run.
Qed.

(** X8. The per-kind frame counters hold what was received since the
    construction or the last [Reset], for every enumerator of
    [CastLoggingEvent], named in the subscriber or not, each under its
    own key: a kind has a counter exactly when
    a frame event of that kind and of the subscriber's media type was
    received, and then the counter holds the number of these events, the
    sum of their delays and, their sizes being [size_t] values, the sum of
    their sizes modulo 2^64.  Events of another media type and packet
    events are not counted. *)
Theorem frame_stats_count_events (mt : EventMediaType) (now : Time.TimeTicks)
    (calls : list call) (type : CastLoggingEvent) :
  let s := run calls (new mt now) in
  let events := frame_events mt type (since_reset calls) in
  match frame_stats_ s !! type with
  | None => events = []
  | Some it =>
      events <> [] /\
      FrameLogStats.event_counter it = Z.of_nat (length events) /\
      FrameLogStats.sum_delay it = sum_of FrameEvent.delay_delta events /\
      (Forall (fun e => 0 <= FrameEvent.size e < 2 ^ 64) events ->
       FrameLogStats.sum_size it = size_t (sum_of FrameEvent.size events))
  end.
Proof. apply frame_stats_run. Qed.

(** X9. The per-kind packet counters hold what was received since the
    construction or the last [Reset], for every enumerator of
    [CastLoggingEvent], named in the subscriber or not, each under its
    own key: a kind has a counter exactly when
    a packet event of that kind and of the subscriber's media type was
    received, and then the counter holds the number of these events and,
    their sizes being [size_t] values, the sum of their sizes modulo
    2^64. *)
Theorem packet_stats_count_events (mt : EventMediaType)
    (now : Time.TimeTicks) (calls : list call) (type : CastLoggingEvent) :
  let s := run calls (new mt now) in
  let events := packet_events mt type (since_reset calls) in
  match packet_stats_ s !! type with
  | None => events = []
  | Some it =>
      events <> [] /\
      PacketLogStats.event_counter it = Z.of_nat (length events) /\
      (Forall (fun e => 0 <= PacketEvent.size e < 2 ^ 64) events ->
       PacketLogStats.sum_size it
       = size_t (sum_of PacketEvent.size events))
  end.
Proof. apply packet_stats_run. Qed.

End HandlerPhases.

Section CounterInstances.
Import StatsEventSubscriber.

(** Two frame events of two kinds that the subscriber does not name: each
    kind has a counter of its own, of 1. *)
Lemma frame_stats_count_events_witness :
  let calls :=
    [CallFrameEvent None
       (FrameEvent.mk 1 (OTHER_EVENT 0) VIDEO_EVENT 7 0 100 0);
     CallFrameEvent None
       (FrameEvent.mk 2 (OTHER_EVENT 4) VIDEO_EVENT 7 0 50 0)] in
  let s := run 100 calls (new VIDEO_EVENT 5) in
  FrameLogStats.event_counter <$> frame_stats_ s !! OTHER_EVENT 0 = Some 1 /\
  FrameLogStats.event_counter <$> frame_stats_ s !! OTHER_EVENT 4 = Some 1.
Proof.
  intros calls s.
  pose proof (frame_stats_count_events 100 VIDEO_EVENT 5 calls
                (OTHER_EVENT 0)) as H0.
  pose proof (frame_stats_count_events 100 VIDEO_EVENT 5 calls
                (OTHER_EVENT 4)) as H4.
  cbv zeta in H0, H4. fold s in H0, H4.
  destruct (frame_stats_ s !! OTHER_EVENT 0) as [it0|];
    [| by vm_compute in H0].
  destruct (frame_stats_ s !! OTHER_EVENT 4) as [it4|];
    [| by vm_compute in H4].
  destruct H0 as (_ & Hc0 & _). destruct H4 as (_ & Hc4 & _).
  split; [exact (f_equal Some Hc0) | exact (f_equal Some Hc4)].
Defined.

(** The same for two packet events. *)
Lemma packet_stats_count_events_witness :
  let calls :=
    [CallPacketEvent None
       (PacketEvent.mk 1 (OTHER_EVENT 0) VIDEO_EVENT 7 0 0 0 100);
     CallPacketEvent None
       (PacketEvent.mk 2 (OTHER_EVENT 4) VIDEO_EVENT 7 0 0 0 50)] in
  let s := run 100 calls (new VIDEO_EVENT 5) in
  PacketLogStats.event_counter <$> packet_stats_ s !! OTHER_EVENT 0
  = Some 1 /\
  PacketLogStats.event_counter <$> packet_stats_ s !! OTHER_EVENT 4
  = Some 1.
Proof.
  intros calls s.
  pose proof (packet_stats_count_events 100 VIDEO_EVENT 5 calls
                (OTHER_EVENT 0)) as H0.
  pose proof (packet_stats_count_events 100 VIDEO_EVENT 5 calls
                (OTHER_EVENT 4)) as H4.
  cbv zeta in H0, H4. fold s in H0, H4.
  destruct (packet_stats_ s !! OTHER_EVENT 0) as [it0|];
    [| by vm_compute in H0].
  destruct (packet_stats_ s !! OTHER_EVENT 4) as [it4|];
    [| by vm_compute in H4].
  destruct H0 as (_ & Hc0 & _). destruct H4 as (_ & Hc4 & _).
  split; [exact (f_equal Some Hc0) | exact (f_equal Some Hc4)].
Defined.

End CounterInstances.

(** ** What a snapshot holds *)

Section SnapshotLookup.
Import StatsEventSubscriber.

Lemma PopulatePacketLossPercentageStat_lookup_ne s m k :
  PACKET_LOSS_FRACTION <> k ->
  PopulatePacketLossPercentageStat s m !! k = m !! k.
Proof.
  intros Hne. unfold PopulatePacketLossPercentageStat. case_match; [| done].
  by apply stats_insert_lookup_ne.
Qed.

Lemma stats_insert_if_lookup_ne (c : bool) (k k' : CastStat) (v : Q)
    (m : gmap CastStat Q) :
  k <> k' -> (if c then stats_insert k v m else m) !! k' = m !! k'.
Proof. intros Hne. destruct c; [by apply stats_insert_lookup_ne | done]. Qed.

End SnapshotLookup.

(** [peel_stats] moves a lookup in the snapshot inward through the
    statements of [GetStatsInternal] that write another key. *)
Ltac peel_stats :=
  repeat first
    [ rewrite stats_insert_lookup_ne by done
    | rewrite PopulateFpsStat_lookup_ne by done
    | rewrite PopulateFrameCountStat_lookup_ne by done
    | rewrite PopulatePacketCountStat_lookup_ne by done
    | rewrite PopulatePlayoutDelayStat_lookup_ne by done
    | rewrite PopulateFrameBitrateStat_lookup_ne by done
    | rewrite PopulatePacketBitrateStat_lookup_ne by done
    | rewrite PopulatePacketLossPercentageStat_lookup_ne by done
    | rewrite stats_insert_if_lookup_ne by done ].

Ltac stats_absent := peel_stats; apply lookup_empty.

Section SnapshotContents.
Import StatsEventSubscriber.
Variable kMaxFrameInfoMapSize : nat.

Local Abbreviation run := (run kMaxFrameInfoMapSize).

Lemma GetStatsInternal_frame_count unix_epoch end_time s :
  GetStatsInternal unix_epoch end_time s !! NUM_FRAMES_CAPTURED =
  (fun it => inject_Z (FrameLogStats.event_counter it))
    <$> frame_stats_ s !! FRAME_CAPTURE_END.
Proof.
  unfold GetStatsInternal. cbv zeta. peel_stats.
  all: unfold PopulateFrameCountStat;
    destruct (frame_stats_ s !! FRAME_CAPTURE_END); cbn;
    [rewrite stats_insert_lookup_eq; [done |] |]; stats_absent.
Qed.

Lemma GetStatsInternal_packet_count unix_epoch end_time s :
  let m := GetStatsInternal unix_epoch end_time s in
  let count event :=
    (fun it => inject_Z (PacketLogStats.event_counter it))
      <$> packet_stats_ s !! event in
  m !! NUM_PACKETS_SENT = count PACKET_SENT_TO_NETWORK /\
  m !! NUM_PACKETS_RETRANSMITTED = count PACKET_RETRANSMITTED /\
  m !! NUM_PACKETS_RTX_REJECTED = count PACKET_RTX_REJECTED.
Proof.
  unfold GetStatsInternal. cbv zeta. split_and!; peel_stats.
  all: unfold PopulatePacketCountStat at 1;
    destruct (packet_stats_ s !! _); cbn;
    [rewrite stats_insert_lookup_eq; [done |] |]; stats_absent.
Qed.

Lemma GetStatsInternal_always unix_epoch end_time s :
  let m := GetStatsInternal unix_epoch end_time s in
  m !! NUM_FRAMES_DROPPED_BY_ENCODER
  = Some (inject_Z (num_frames_dropped_by_encoder_ s)) /\
  m !! NUM_FRAMES_LATE = Some (inject_Z (num_frames_late_ s)).
Proof.
  unfold GetStatsInternal. cbv zeta. split_and!; peel_stats.
  all: rewrite stats_insert_lookup_eq; [done |]; stats_absent.
Qed.

Lemma frame_count_stat mt now calls ty :
  (fun it => inject_Z (FrameLogStats.event_counter it))
    <$> frame_stats_ (run calls (new mt now)) !! ty
  = count_stat (length (frame_events mt ty (since_reset calls))).
Proof.
  pose proof (frame_stats_run kMaxFrameInfoMapSize mt now calls ty) as H.
  cbv zeta in H. destruct (frame_stats_ _ !! ty) as [it|].
  - destruct H as (Hn & Hc & _). cbn. rewrite Hc.
    by destruct (frame_events _ _ _).
  - by rewrite H.
Qed.

Lemma packet_count_stat mt now calls ty :
  (fun it => inject_Z (PacketLogStats.event_counter it))
    <$> packet_stats_ (run calls (new mt now)) !! ty
  = count_stat (length (packet_events mt ty (since_reset calls))).
Proof.
  pose proof (packet_stats_run kMaxFrameInfoMapSize mt now calls ty) as H.
  cbv zeta in H. destruct (packet_stats_ _ !! ty) as [it|].
  - destruct H as (Hn & Hc & _). cbn. rewrite Hc.
    by destruct (packet_events _ _ _).
  - by rewrite H.
Qed.

(** X10. The counts of a snapshot are counts of events received since
    the construction or the last [Reset], of the subscriber's media type:
    NUM_FRAMES_CAPTURED counts the capture-end events, NUM_PACKETS_SENT,
    NUM_PACKETS_RETRANSMITTED and NUM_PACKETS_RTX_REJECTED the packet
    events of their kind, each absent when there was no such event; and
    NUM_FRAMES_LATE, always present, counts the playout events whose
    delay is zero or negative. *)
Theorem GetStatsInternal_event_counts (mt : EventMediaType)
    (now : Time.TimeTicks) (calls : list call)
    (unix_epoch end_time : Time.TimeTicks) :
  let s := run calls (new mt now) in
  let m := GetStatsInternal unix_epoch end_time s in
  let frames type := frame_events mt type (since_reset calls) in
  let packets type := packet_events mt type (since_reset calls) in
  m !! NUM_FRAMES_CAPTURED
  = count_stat (length (frames FRAME_CAPTURE_END)) /\
  m !! NUM_PACKETS_SENT
  = count_stat (length (packets PACKET_SENT_TO_NETWORK)) /\
  m !! NUM_PACKETS_RETRANSMITTED
  = count_stat (length (packets PACKET_RETRANSMITTED)) /\
  m !! NUM_PACKETS_RTX_REJECTED
  = count_stat (length (packets PACKET_RTX_REJECTED)) /\
  m !! NUM_FRAMES_LATE
  = Some (inject_Z
            (Z.of_nat
               (length (filter (fun e => FrameEvent.delay_delta e <= 0)
                               (frames FRAME_PLAYOUT))))).
Proof.
  intros s m frames packets. subst m frames packets.
  destruct (GetStatsInternal_packet_count unix_epoch end_time s)
    as (H1 & H2 & H3).
  destruct (GetStatsInternal_always unix_epoch end_time s) as [_ H4].
  rewrite GetStatsInternal_frame_count, H1, H2, H3, H4.
  unfold s.
  rewrite frame_count_stat, !packet_count_stat.
  by rewrite (num_frames_late_run kMaxFrameInfoMapSize).
Qed.

Lemma GetStatsInternal_no_histogram unix_epoch end_time s :
  let m := GetStatsInternal unix_epoch end_time s in
  m !! CAPTURE_LATENCY_MS_HISTO = None /\
  m !! ENCODE_LATENCY_MS_HISTO = None /\
  m !! PACKET_LATENCY_MS_HISTO = None /\
  m !! FRAME_LATENCY_MS_HISTO = None /\
  m !! PLAYOUT_DELAY_MS_HISTO = None.
Proof. unfold GetStatsInternal. cbv zeta. split_and!; stats_absent. Qed.

(** X11. Whatever the state, a snapshot holds the two counts
    NUM_FRAMES_DROPPED_BY_ENCODER and NUM_FRAMES_LATE, and it never holds
    AVG_ENCODE_TIME_MS nor one of the five histogram keys, which
    [GetStatsInternal] does not write. *)
Theorem GetStatsInternal_keys (unix_epoch end_time : Time.TimeTicks)
    (s : t) :
  let m := GetStatsInternal unix_epoch end_time s in
  m !! NUM_FRAMES_DROPPED_BY_ENCODER
  = Some (inject_Z (num_frames_dropped_by_encoder_ s)) /\
  m !! NUM_FRAMES_LATE = Some (inject_Z (num_frames_late_ s)) /\
  m !! AVG_ENCODE_TIME_MS = None /\
  m !! CAPTURE_LATENCY_MS_HISTO = None /\
  m !! ENCODE_LATENCY_MS_HISTO = None /\
  m !! PACKET_LATENCY_MS_HISTO = None /\
  m !! FRAME_LATENCY_MS_HISTO = None /\
  m !! PLAYOUT_DELAY_MS_HISTO = None.
Proof.
  intros m. subst m.
  destruct (GetStatsInternal_always unix_epoch end_time s) as [H1 H2].
  split; [done |]. split; [done |].
  split; [unfold GetStatsInternal; cbv zeta; stats_absent |].
  apply GetStatsInternal_no_histogram.
Qed.

Lemma GetStatsInternal_last_response unix_epoch end_time s :
  GetStatsInternal unix_epoch end_time s !! MS_SINCE_LAST_RECEIVER_RESPONSE
  = if Time.is_null (last_response_received_time_ s) then None
    else Some (Time.InMillisecondsF
                 (end_time - last_response_received_time_ s)).
Proof.
  unfold GetStatsInternal. cbv zeta. peel_stats.
  destruct (Time.is_null _); cbn [negb]; [stats_absent |].
  rewrite stats_insert_lookup_eq; [done |]. stats_absent.
Qed.

(** X16. The time of the last receiver response.  A frame or packet
    event of the subscriber's media type and of a receiver kind (frame
    decoded, frame playout, ack sent, packet received) sets it to the
    event's timestamp minus the receiver offset, when the estimator has
    offset bounds; every other event leaves it as it is, and [Reset]
    makes it null.  The offset is the midpoint of the bounds rounded
    toward 0, so the time set lies between (timestamp - upper bound) and
    (timestamp - lower bound).  A snapshot holds
    MS_SINCE_LAST_RECEIVER_RESPONSE, the time elapsed since then in
    milliseconds, exactly when that time is not null. *)
Theorem last_response_received_time_events (c : call) (s : t)
    (unix_epoch end_time : Time.TimeTicks) :
  let s' := step kMaxFrameInfoMapSize s c in
  last_response_received_time_ s' =
    match c with
    | CallFrameEvent bounds e =>
        if relevant (event_media_type_ s) c
           && IsReceiverEvent (FrameEvent.type e)
        then default (last_response_received_time_ s)
               (corrected_time bounds (FrameEvent.timestamp e)
                               (FrameEvent.type e))
        else last_response_received_time_ s
    | CallPacketEvent bounds e =>
        if relevant (event_media_type_ s) c
           && IsReceiverEvent (PacketEvent.type e)
        then default (last_response_received_time_ s)
               (corrected_time bounds (PacketEvent.timestamp e)
                               (PacketEvent.type e))
        else last_response_received_time_ s
    | CallReset _ => 0
    end /\
  (forall (lo hi : Time.TimeDelta) ts ty t,
     lo <= hi -> IsReceiverEvent ty = true ->
     corrected_time (Some (lo, hi)) ts ty = Some t ->
     t = ts - Z.quot (lo + hi) 2 /\ ts - hi <= t <= ts - lo) /\
  GetStatsInternal unix_epoch end_time s'
    !! MS_SINCE_LAST_RECEIVER_RESPONSE
  = (if Time.is_null (last_response_received_time_ s') then None
     else Some (Qmake (end_time - last_response_received_time_ s') 1000)).
Proof.
  intros s'. split_and!.
  - destruct c as [bounds e|bounds e|now']; cbn [step relevant] in *.
    + apply last_response_OnReceiveFrameEvent.
    + apply last_response_OnReceivePacketEvent.
    + done.
  - apply corrected_time_receiver.
  - apply GetStatsInternal_last_response.
Qed.

End SnapshotContents.

(** ** The life of a frame *)

Section FrameLife.
Import StatsEventSubscriber.
Variable kMaxFrameInfoMapSize : nat.

Local Abbreviation OnReceiveFrameEvent :=
  (OnReceiveFrameEvent kMaxFrameInfoMapSize).

Lemma record_frame_event_congr bounds e s1 s2 :
  frame_view s1 = frame_view s2 ->
  frame_view (record_frame_event kMaxFrameInfoMapSize bounds e s1)
  = frame_view (record_frame_event kMaxFrameInfoMapSize bounds e s2).
Proof.
  unfold frame_view. intros [= Hr Hh Ht Hn Hd Hl].
  unfold record_frame_event, RecordFrameCaptureTime, RecordCaptureLatency,
    RecordEncodeLatency, RecordFrameTxLatency, RecordE2ELatency,
    MaybeInsertFrameInfo.
  rewrite Hr. repeat case_match; cbn; congruence.
Qed.

Lemma frame_view_OnReceiveFrameEvent bounds e s :
  FrameEvent.media_type e = event_media_type_ s ->
  frame_view (OnReceiveFrameEvent bounds e s)
  = frame_view (record_frame_event kMaxFrameInfoMapSize bounds e s).
Proof.
  intros Hmt. unfold StatsEventSubscriber.OnReceiveFrameEvent.
  rewrite bool_decide_true by done. cbn [negb].
  set (s2 := UpdateFirstLastEventTime _ _ _ _).
  assert (H2 : frame_view s2 = frame_view s)
    by (unfold s2, UpdateFirstLastEventTime; by repeat case_match).
  clearbody s2.
  transitivity (frame_view (record_frame_event kMaxFrameInfoMapSize
                              bounds e s2));
    [| by apply record_frame_event_congr].
  unfold record_frame_event, UpdateLastResponseTime.
  by repeat case_match.
Qed.

Lemma frame_view_split s1 s2 :
  frame_view s1 = frame_view s2 ->
  recent_frame_infos_ s1 = recent_frame_infos_ s2 /\
  histograms_ s1 = histograms_ s2 /\
  total_e2e_latency_ s1 = total_e2e_latency_ s2 /\
  e2e_latency_datapoints_ s1 = e2e_latency_datapoints_ s2 /\
  num_frames_dropped_by_encoder_ s1 = num_frames_dropped_by_encoder_ s2 /\
  num_frames_late_ s1 = num_frames_late_ s2.
Proof. unfold frame_view. by intros [= ? ? ? ? ? ?]. Qed.

(** With room in the cache a new entry is put in and nothing is
    erased. *)
Lemma MaybeInsertFrameInfo_room rtp fi s :
  OrdMap.find rtp (recent_frame_infos_ s) = None ->
  (S (length (recent_frame_infos_ s)) < kMaxFrameInfoMapSize)%nat ->
  MaybeInsertFrameInfo kMaxFrameInfoMapSize rtp fi s
  = set_recent_frame_infos_
      (OrdMap.insert Z.ltb rtp fi (recent_frame_infos_ s)) s.
Proof.
  intros Hfind Hroom. unfold MaybeInsertFrameInfo.
  pose proof (insert_length_None Z.ltb rtp fi _ Hfind) as Hlen.
  unfold OrdMap.size.
  rewrite (bool_decide_false (length _ = _)) by lia. cbn [andb].
  by rewrite bool_decide_false by lia.
Qed.

Lemma find_update_eq {V : Type} (k : Z) (f : V -> V) (m : list (Z * V)) :
  OrdMap.find k (OrdMap.update k f m) = f <$> OrdMap.find k m.
Proof. by rewrite find_update, decide_True. Qed.

Lemma frame_view_capture_begin bounds e s :
  FrameEvent.type e = FRAME_CAPTURE_BEGIN ->
  FrameEvent.media_type e = event_media_type_ s ->
  OrdMap.find (FrameEvent.rtp_timestamp e) (recent_frame_infos_ s) = None ->
  (S (length (recent_frame_infos_ s)) < kMaxFrameInfoMapSize)%nat ->
  frame_view (OnReceiveFrameEvent bounds e s)
  = (OrdMap.insert Z.ltb (FrameEvent.rtp_timestamp e)
       (captured (FrameEvent.timestamp e)) (recent_frame_infos_ s),
     histograms_ s,
     (total_e2e_latency_ s, e2e_latency_datapoints_ s),
     num_frames_dropped_by_encoder_ s, num_frames_late_ s).
Proof.
  intros Hty Hmt Hfind Hroom.
  rewrite (frame_view_OnReceiveFrameEvent bounds e s Hmt).
  unfold record_frame_event, RecordFrameCaptureTime.
  by rewrite Hty, MaybeInsertFrameInfo_room.
Qed.

Lemma frame_view_capture_end bounds e s fi :
  FrameEvent.type e = FRAME_CAPTURE_END ->
  FrameEvent.media_type e = event_media_type_ s ->
  OrdMap.find (FrameEvent.rtp_timestamp e) (recent_frame_infos_ s)
  = Some fi ->
  frame_view (OnReceiveFrameEvent bounds e s)
  = (OrdMap.update (FrameEvent.rtp_timestamp e)
       (FrameInfo.set_capture_end_time (FrameEvent.timestamp e))
       (recent_frame_infos_ s),
     (if Time.is_null (FrameInfo.capture_time fi) then histograms_ s
      else Histograms.on_capture_latency
             (SimpleHistogram.Add
                (Z.quot (FrameInfo.capture_time fi - FrameEvent.timestamp e)
                        1000))
             (histograms_ s)),
     (total_e2e_latency_ s, e2e_latency_datapoints_ s),
     num_frames_dropped_by_encoder_ s, num_frames_late_ s).
Proof.
  intros Hty Hmt Hfind.
  rewrite (frame_view_OnReceiveFrameEvent bounds e s Hmt).
  unfold record_frame_event, RecordCaptureLatency.
  rewrite Hty, Hfind. by destruct (Time.is_null _).
Qed.

Lemma frame_view_encoded bounds e s fi :
  FrameEvent.type e = FRAME_ENCODED ->
  FrameEvent.media_type e = event_media_type_ s ->
  OrdMap.find (FrameEvent.rtp_timestamp e) (recent_frame_infos_ s)
  = Some fi ->
  frame_view (OnReceiveFrameEvent bounds e s)
  = (OrdMap.update (FrameEvent.rtp_timestamp e)
       (FrameInfo.set_encode_time (FrameEvent.timestamp e))
       (recent_frame_infos_ s),
     (if Time.is_null (FrameInfo.capture_end_time fi) then histograms_ s
      else Histograms.on_encode_latency
             (SimpleHistogram.Add
                (Z.quot (FrameEvent.timestamp e
                         - FrameInfo.capture_end_time fi) 1000))
             (histograms_ s)),
     (total_e2e_latency_ s, e2e_latency_datapoints_ s),
     num_frames_dropped_by_encoder_ s, num_frames_late_ s).
Proof.
  intros Hty Hmt Hfind.
  rewrite (frame_view_OnReceiveFrameEvent bounds e s Hmt).
  unfold record_frame_event, RecordEncodeLatency.
  rewrite Hty, Hfind. by destruct (Time.is_null _).
Qed.

(** X14. A frame from capture to encoding.  When the cache has room and
    no entry for the frame, the three events capture begin, capture end
    and encoded of the frame leave an entry with the three timestamps;
    the capture-end event gives the capture-latency histogram the sample
    (capture begin - capture end), the encoded event gives the
    encode-latency histogram the sample (encoded - capture end), each in
    whole milliseconds rounded toward 0; a sample is left out when the
    earlier of its two timestamps is the null time 0.  The three other
    histograms, the counts of dropped and of late frames, the end-to-end
    latency total and count, the packet counters and the time of the
    last receiver response are as before.  (The frame counters and the
    first and last event time move as for any event.) *)
Theorem frame_capture_to_encode (s : t) (rtp : Z)
    (e0 e1 e2 : FrameEvent.t)
    (b0 b1 b2 : option (Time.TimeDelta * Time.TimeDelta)) :
  FrameEvent.type <$> [e0; e1; e2]
  = [FRAME_CAPTURE_BEGIN; FRAME_CAPTURE_END; FRAME_ENCODED] ->
  Forall (fun e => FrameEvent.media_type e = event_media_type_ s /\
                   FrameEvent.rtp_timestamp e = rtp) [e0; e1; e2] ->
  OrdMap.find rtp (recent_frame_infos_ s) = None ->
  (S (length (recent_frame_infos_ s)) < kMaxFrameInfoMapSize)%nat ->
  let t0 := FrameEvent.timestamp e0 in
  let t1 := FrameEvent.timestamp e1 in
  let t2 := FrameEvent.timestamp e2 in
  let s3 := OnReceiveFrameEvent b2 e2
              (OnReceiveFrameEvent b1 e1 (OnReceiveFrameEvent b0 e0 s)) in
  let h := histograms_ s in
  let h3 := histograms_ s3 in
  OrdMap.find rtp (recent_frame_infos_ s3)
  = Some (FrameInfo.mk t0 t1 t2 false) /\
  Histograms.capture_latency h3
  = (if Time.is_null t0 then Histograms.capture_latency h
     else SimpleHistogram.Add (Z.quot (t0 - t1) 1000)
                              (Histograms.capture_latency h)) /\
  Histograms.encode_latency h3
  = (if Time.is_null t1 then Histograms.encode_latency h
     else SimpleHistogram.Add (Z.quot (t2 - t1) 1000)
                              (Histograms.encode_latency h)) /\
  Histograms.packet_latency h3 = Histograms.packet_latency h /\
  Histograms.frame_latency h3 = Histograms.frame_latency h /\
  Histograms.playout_delay h3 = Histograms.playout_delay h /\
  num_frames_dropped_by_encoder_ s3 = num_frames_dropped_by_encoder_ s /\
  num_frames_late_ s3 = num_frames_late_ s /\
  total_e2e_latency_ s3 = total_e2e_latency_ s /\
  e2e_latency_datapoints_ s3 = e2e_latency_datapoints_ s /\
  packet_stats_ s3 = packet_stats_ s /\
  last_response_received_time_ s3 = last_response_received_time_ s.
Proof.
  intros [= Hty0 Hty1 Hty2] Hall Hfind Hroom t0 t1 t2 s3 h h3.
  apply Forall_cons in Hall as [[Hm0 Hr0] Hall].
  apply Forall_cons in Hall as [[Hm1 Hr1] Hall].
  apply Forall_cons in Hall as [[Hm2 Hr2] _].
  set (s1 := OnReceiveFrameEvent b0 e0 s) in *.
  set (s2 := OnReceiveFrameEvent b1 e1 s1) in *.
  assert (Hmt1 : event_media_type_ s1 = event_media_type_ s)
    by apply event_media_type_OnReceiveFrameEvent.
  assert (Hmt2 : event_media_type_ s2 = event_media_type_ s)
    by (unfold s2; by rewrite event_media_type_OnReceiveFrameEvent).
  (* capture begin *)
  pose proof (frame_view_capture_begin b0 e0 s Hty0 Hm0
                ltac:(by rewrite Hr0) Hroom) as V1.
  fold s1 t0 in V1. rewrite Hr0 in V1.
  unfold frame_view in V1. injection V1 as R1 H1 T1 N1 D1 L1.
  cbn in R1, H1, D1.
  pose proof (find_insert_None Z.ltb rtp (captured t0) _ Hfind) as Hf1.
  rewrite <- R1 in Hf1.
  (* capture end *)
  pose proof (frame_view_capture_end b1 e1 s1 (captured t0) Hty1
                ltac:(by rewrite Hmt1) ltac:(by rewrite Hr1)) as V2.
  fold s2 t1 in V2. rewrite Hr1 in V2.
  unfold frame_view in V2. injection V2 as R2 H2 T2 N2 D2 L2.
  cbn in R2, H2, D2.
  assert (Hf2 : OrdMap.find rtp (recent_frame_infos_ s2)
                = Some (FrameInfo.mk t0 t1 0 false))
    by by rewrite R2, find_update_eq, Hf1.
  (* encoded *)
  pose proof (frame_view_encoded b2 e2 s2 _ Hty2
                ltac:(by rewrite Hmt2) ltac:(by rewrite Hr2)) as V3.
  fold s3 t2 in V3. rewrite Hr2 in V3.
  unfold frame_view in V3. injection V3 as R3 H3 T3 N3 D3 L3.
  cbn in R3, H3, D3.
  split; [by rewrite R3, find_update_eq, Hf2 |].
  assert (Hps : packet_stats_ s3 = packet_stats_ s).
  { unfold s3, s2, s1.
    by rewrite !(packet_stats_OnReceiveFrameEvent kMaxFrameInfoMapSize). }
  assert (Hlr : last_response_received_time_ s3
                = last_response_received_time_ s).
  { unfold s3, s2, s1.
    rewrite !(last_response_OnReceiveFrameEvent kMaxFrameInfoMapSize),
      Hty0, Hty1, Hty2.
    by rewrite !andb_false_r. }
  unfold h3, h. rewrite H3, D3, D2, D1, L3, L2, L1, T3, T2, T1, N3, N2, N1.
  destruct (Time.is_null t1); cbn; rewrite H2;
    destruct (Time.is_null t0); cbn; rewrite H1; done.
Qed.

Lemma frame_view_ack_sent bounds e s fi :
  FrameEvent.type e = FRAME_ACK_SENT ->
  FrameEvent.media_type e = event_media_type_ s ->
  OrdMap.find (FrameEvent.rtp_timestamp e) (recent_frame_infos_ s)
  = Some fi ->
  frame_view (OnReceiveFrameEvent bounds e s)
  = (recent_frame_infos_ s,
     match GetReceiverOffset bounds with
     | Some receiver_offset =>
         if Time.is_null (FrameInfo.encode_time fi) then histograms_ s
         else Histograms.on_frame_latency
                (SimpleHistogram.Add
                   (Z.quot (FrameEvent.timestamp e - receiver_offset
                            - FrameInfo.encode_time fi) 1000))
                (histograms_ s)
     | None => histograms_ s
     end,
     (total_e2e_latency_ s, e2e_latency_datapoints_ s),
     num_frames_dropped_by_encoder_ s, num_frames_late_ s).
Proof.
  intros Hty Hmt Hfind.
  rewrite (frame_view_OnReceiveFrameEvent bounds e s Hmt).
  unfold record_frame_event, RecordFrameTxLatency.
  rewrite Hty, Hfind.
  by destruct (Time.is_null _), (GetReceiverOffset bounds).
Qed.

Lemma frame_view_playout bounds e s fi :
  FrameEvent.type e = FRAME_PLAYOUT ->
  FrameEvent.media_type e = event_media_type_ s ->
  OrdMap.find (FrameEvent.rtp_timestamp e) (recent_frame_infos_ s)
  = Some fi ->
  frame_view (OnReceiveFrameEvent bounds e s)
  = (recent_frame_infos_ s,
     Histograms.on_playout_delay
       (SimpleHistogram.Add (Z.quot (FrameEvent.delay_delta e) 1000))
       (histograms_ s),
     match GetReceiverOffset bounds with
     | Some receiver_offset =>
         (total_e2e_latency_ s
          + (FrameEvent.timestamp e + FrameEvent.delay_delta e
             - receiver_offset - FrameInfo.capture_time fi),
          e2e_latency_datapoints_ s + 1)
     | None => (total_e2e_latency_ s, e2e_latency_datapoints_ s)
     end,
     num_frames_dropped_by_encoder_ s,
     num_frames_late_ s
     + (if FrameEvent.delay_delta e <=? 0 then 1 else 0)).
Proof.
  intros Hty Hmt Hfind.
  rewrite (frame_view_OnReceiveFrameEvent bounds e s Hmt).
  unfold record_frame_event, RecordE2ELatency.
  rewrite Hty, Hfind.
  destruct (GetReceiverOffset bounds), (FrameEvent.delay_delta e <=? 0);
    unfold frame_view; cbn; repeat f_equal; lia.
Qed.

(** X15. A frame at the receiver.  For a frame with an entry in the
    cache, the acknowledgement event and then the playout event give: the
    frame-latency histogram the sample (ack time - receiver offset -
    encode time), left out when the entry has no encode time or the
    estimator has no offset bounds; the playout-delay histogram the delay
    of the playout event, whatever the bounds; one more late frame when
    that delay is zero or negative; and, with offset bounds, one more
    end-to-end datapoint of (playout time + delay - receiver offset -
    capture time).  The cache, the three other histograms and the count
    of dropped frames are as before. *)
Theorem frame_ack_and_playout (s : t) (rtp : Z) (e3 e4 : FrameEvent.t)
    (b3 b4 : option (Time.TimeDelta * Time.TimeDelta)) (fi : FrameInfo.t) :
  FrameEvent.type <$> [e3; e4] = [FRAME_ACK_SENT; FRAME_PLAYOUT] ->
  Forall (fun e => FrameEvent.media_type e = event_media_type_ s /\
                   FrameEvent.rtp_timestamp e = rtp) [e3; e4] ->
  OrdMap.find rtp (recent_frame_infos_ s) = Some fi ->
  let s5 := OnReceiveFrameEvent b4 e4 (OnReceiveFrameEvent b3 e3 s) in
  let delay := FrameEvent.delay_delta e4 in
  let h := histograms_ s in
  let h5 := histograms_ s5 in
  Histograms.frame_latency h5
  = match GetReceiverOffset b3 with
    | Some receiver_offset =>
        if Time.is_null (FrameInfo.encode_time fi)
        then Histograms.frame_latency h
        else SimpleHistogram.Add
               (Z.quot (FrameEvent.timestamp e3 - receiver_offset
                        - FrameInfo.encode_time fi) 1000)
               (Histograms.frame_latency h)
    | None => Histograms.frame_latency h
    end /\
  Histograms.playout_delay h5
  = SimpleHistogram.Add (Z.quot delay 1000) (Histograms.playout_delay h) /\
  num_frames_late_ s5
  = num_frames_late_ s + (if delay <=? 0 then 1 else 0) /\
  (total_e2e_latency_ s5, e2e_latency_datapoints_ s5)
  = match GetReceiverOffset b4 with
    | Some receiver_offset =>
        (total_e2e_latency_ s
         + (FrameEvent.timestamp e4 + delay - receiver_offset
            - FrameInfo.capture_time fi),
         e2e_latency_datapoints_ s + 1)
    | None => (total_e2e_latency_ s, e2e_latency_datapoints_ s)
    end /\
  recent_frame_infos_ s5 = recent_frame_infos_ s /\
  Histograms.capture_latency h5 = Histograms.capture_latency h /\
  Histograms.encode_latency h5 = Histograms.encode_latency h /\
  Histograms.packet_latency h5 = Histograms.packet_latency h /\
  num_frames_dropped_by_encoder_ s5 = num_frames_dropped_by_encoder_ s.
Proof.
  intros [= Hty3 Hty4] Hall Hfind s5 delay h h5.
  apply Forall_cons in Hall as [[Hm3 Hr3] Hall].
  apply Forall_cons in Hall as [[Hm4 Hr4] _].
  set (s4 := OnReceiveFrameEvent b3 e3 s) in *.
  assert (Hmt4 : event_media_type_ s4 = event_media_type_ s)
    by apply event_media_type_OnReceiveFrameEvent.
  pose proof (frame_view_ack_sent b3 e3 s fi Hty3 Hm3
                ltac:(by rewrite Hr3)) as V4.
  fold s4 in V4. unfold frame_view in V4.
  injection V4 as R4 H4 T4 N4 D4 L4.
  pose proof (frame_view_playout b4 e4 s4 fi Hty4
                ltac:(by rewrite Hmt4) ltac:(by rewrite Hr4, R4)) as V5.
  fold s5 delay in V5. unfold frame_view in V5.
  injection V5 as R5 H5 TN5 D5 L5.
  unfold h5, h. rewrite H5, H4, L5, L4, R5, R4, D5, D4.
  assert (HTN : (total_e2e_latency_ s5, e2e_latency_datapoints_ s5)
                = match GetReceiverOffset b4 with
                  | Some receiver_offset =>
                      (total_e2e_latency_ s4
                       + (FrameEvent.timestamp e4 + delay - receiver_offset
                          - FrameInfo.capture_time fi),
                       e2e_latency_datapoints_ s4 + 1)
                  | None =>
                      (total_e2e_latency_ s4, e2e_latency_datapoints_ s4)
                  end).
  { destruct (GetReceiverOffset b4); injection TN5 as -> ->; done. }
  rewrite HTN, T4, N4.
  destruct (GetReceiverOffset b3), (Time.is_null (FrameInfo.encode_time fi));
    done.
Qed.

Lemma find_Some_elem_of {V : Type} (k : Z) (v : V) (m : list (Z * V)) :
  OrdMap.find k m = Some v -> (k, v) ∈ m.
Proof.
  induction m as [|[k0 v0] m IH]; cbn; [done |].
  destruct (decide (k = k0)) as [->|].
  - intros [= ->]. by left.
  - intros H. right. by apply IH.
Qed.

(** [std::map::insert] keeps the entry of a key that is present. *)
Lemma insert_present {V : Type} (k : Z) (v v' : V) (m : list (Z * V)) :
  OrdMap.sorted Z.ltb m -> OrdMap.find k m = Some v ->
  OrdMap.insert Z.ltb k v' m = m.
Proof.
  unfold OrdMap.sorted.
  induction m as [|[k0 v0] m IH]; cbn; intros Hs; [done |].
  apply StronglySorted_cons in Hs as [Hall Hs].
  destruct (decide (k = k0)); [done |]. intros Hfind.
  pose proof (find_Some_elem_of _ _ _ Hfind) as Hin.
  rewrite Forall_forall in Hall. specialize (Hall _ Hin). cbn in Hall.
  destruct (Z.ltb_spec k k0); [lia |].
  f_equal. by apply IH.
Qed.

(** X25. A second capture-begin event for a frame that is in the cache
    does not replace its entry: in every state a subscriber with a cache
    capacity above 0 can reach, the cache, with the capture time recorded
    first, the histograms and the latency and frame counts are as
    before.  So is the entry of an encoded frame when a capture-begin event
    for it comes late. *)
Theorem repeated_capture_begin_keeps_entry (mt : EventMediaType)
    (now : Time.TimeTicks) (calls : list call)
    (bounds : option (Time.TimeDelta * Time.TimeDelta))
    (e : FrameEvent.t) (fi : FrameInfo.t) :
  let s := run kMaxFrameInfoMapSize calls (new mt now) in
  (0 < kMaxFrameInfoMapSize)%nat ->
  FrameEvent.type e = FRAME_CAPTURE_BEGIN ->
  FrameEvent.media_type e = mt ->
  OrdMap.find (FrameEvent.rtp_timestamp e) (recent_frame_infos_ s)
  = Some fi ->
  frame_view (OnReceiveFrameEvent bounds e s) = frame_view s.
Proof.
  intros s Hn Hty Hmt Hfind.
  pose proof (Inv_reachable kMaxFrameInfoMapSize mt now calls) as HI.
  fold s in HI.
  rewrite frame_view_OnReceiveFrameEvent
    by (unfold s; by rewrite event_media_type_run).
  unfold record_frame_event, RecordFrameCaptureTime, MaybeInsertFrameInfo.
  rewrite Hty.
  rewrite (insert_present _ fi _ _ (inv_frames_sorted _ _ HI) Hfind).
  pose proof (inv_frames_size _ _ HI Hn) as Hsz. unfold OrdMap.size.
  rewrite (bool_decide_false (length _ = _)) by lia. cbn [andb].
  rewrite bool_decide_false by lia. by destruct s.
Qed.

End FrameLife.

Section FrameLifeExamples.
Import StatsEventSubscriber.

(** The design document's scenario: capture begin at the null time 0,
    capture end at 10 ms, encoded at 25 ms. *)
Lemma frame_capture_to_encode_witness :
  let s3 := run 100
              [CallFrameEvent None
                 (FrameEvent.mk 0 FRAME_CAPTURE_BEGIN VIDEO_EVENT 7 0 0 0);
               CallFrameEvent None
                 (FrameEvent.mk 10000 FRAME_CAPTURE_END VIDEO_EVENT 7 0 0 0);
               CallFrameEvent None
                 (FrameEvent.mk 25000 FRAME_ENCODED VIDEO_EVENT 7 0 0 0)]
              (new VIDEO_EVENT 5) in
  Histograms.encode_latency (histograms_ s3)
  = SimpleHistogram.Add 15 (Histograms.encode_latency InitHistograms) /\
  Histograms.capture_latency (histograms_ s3)
  = Histograms.capture_latency InitHistograms.
Proof.
  destruct (frame_capture_to_encode 100 (new VIDEO_EVENT 5) 7
              (FrameEvent.mk 0 FRAME_CAPTURE_BEGIN VIDEO_EVENT 7 0 0 0)
              (FrameEvent.mk 10000 FRAME_CAPTURE_END VIDEO_EVENT 7 0 0 0)
              (FrameEvent.mk 25000 FRAME_ENCODED VIDEO_EVENT 7 0 0 0)
              None None None)
    as (_ & Hc & He & _).
  - reflexivity.
  - repeat (constructor; [split; reflexivity |]). constructor.
  - reflexivity.
  - cbn. lia.
  - split; [exact He | exact Hc].
Defined.

(** A frame encoded at 25 ms, acknowledged at 60 ms and played out at
    70 ms with a delay of -3 ms on the receiver's clock, which is known to
    be 2 to 4 ms ahead. *)
Lemma frame_ack_and_playout_witness :
  let s := run 100
             [CallFrameEvent None
                (FrameEvent.mk 25000 FRAME_ENCODED VIDEO_EVENT 7 0 0 0)]
             (new VIDEO_EVENT 5) in
  let s5 := run 100
              [CallFrameEvent (Some (2000, 4000))
                 (FrameEvent.mk 60000 FRAME_ACK_SENT VIDEO_EVENT 7 0 0 0);
               CallFrameEvent (Some (2000, 4000))
                 (FrameEvent.mk 70000 FRAME_PLAYOUT VIDEO_EVENT 7 0 0
                                (-3000))] s in
  Histograms.frame_latency (histograms_ s5)
  = SimpleHistogram.Add 32 (Histograms.frame_latency InitHistograms) /\
  num_frames_late_ s5 = 1.
Proof.
  destruct (frame_ack_and_playout 100
              (run 100
                 [CallFrameEvent None
                    (FrameEvent.mk 25000 FRAME_ENCODED VIDEO_EVENT 7 0 0
                                   0)]
                 (new VIDEO_EVENT 5)) 7
              (FrameEvent.mk 60000 FRAME_ACK_SENT VIDEO_EVENT 7 0 0 0)
              (FrameEvent.mk 70000 FRAME_PLAYOUT VIDEO_EVENT 7 0 0 (-3000))
              (Some (2000, 4000)) (Some (2000, 4000))
              (FrameInfo.mk 0 0 25000 false))
    as (Hf & _ & Hl & _).
  - reflexivity.
  - repeat (constructor; [split; reflexivity |]). constructor.
  - reflexivity.
  - split; [exact Hf | exact Hl].
Defined.

(** A second capture begin at 9 ms for the frame captured at 1 ms. *)
Lemma repeated_capture_begin_keeps_entry_witness :
  let s := run 100
             [CallFrameEvent None
                (FrameEvent.mk 1000 FRAME_CAPTURE_BEGIN VIDEO_EVENT 7 0 0
                               0)]
             (new VIDEO_EVENT 5) in
  OrdMap.find 7
    (recent_frame_infos_
       (OnReceiveFrameEvent 100 None
          (FrameEvent.mk 9000 FRAME_CAPTURE_BEGIN VIDEO_EVENT 7 0 0 0) s))
  = Some (captured 1000).
Proof.
  pose proof (repeated_capture_begin_keeps_entry 100 VIDEO_EVENT 5
                [CallFrameEvent None
                   (FrameEvent.mk 1000 FRAME_CAPTURE_BEGIN VIDEO_EVENT 7 0
                                  0 0)]
                None
                (FrameEvent.mk 9000 FRAME_CAPTURE_BEGIN VIDEO_EVENT 7 0 0 0)
                (captured 1000)) as H.
  cbv zeta in H.
  specialize (H ltac:(lia) eq_refl eq_refl eq_refl).
  apply (f_equal (fun v => OrdMap.find 7 v.1.1.1.1)) in H. exact H.
Defined.

End FrameLifeExamples.

(** ** The histograms and the counters *)

Section HistogramTotals.
Import StatsEventSubscriber.
Variable kMaxFrameInfoMapSize : nat.

Local Abbreviation run := (run kMaxFrameInfoMapSize).
Local Abbreviation OnReceiveFrameEvent :=
  (OnReceiveFrameEvent kMaxFrameInfoMapSize).

(** What one [Record...] call does to the histograms and to the number of
    end-to-end datapoints. *)
Lemma record_frame_event_histograms bounds e s :
  let h := histograms_ s in
  let s' := record_frame_event kMaxFrameInfoMapSize bounds e s in
  let h' := histograms_ s' in
  (Histograms.capture_latency h' = Histograms.capture_latency h \/
   FrameEvent.type e = FRAME_CAPTURE_END /\
   exists x, Histograms.capture_latency h'
             = SimpleHistogram.Add x (Histograms.capture_latency h)) /\
  (Histograms.encode_latency h' = Histograms.encode_latency h \/
   FrameEvent.type e = FRAME_ENCODED /\
   exists x, Histograms.encode_latency h'
             = SimpleHistogram.Add x (Histograms.encode_latency h)) /\
  (Histograms.frame_latency h' = Histograms.frame_latency h \/
   FrameEvent.type e = FRAME_ACK_SENT /\
   exists x, Histograms.frame_latency h'
             = SimpleHistogram.Add x (Histograms.frame_latency h)) /\
  Histograms.playout_delay h'
  = (if bool_decide (FrameEvent.type e = FRAME_PLAYOUT)
     then SimpleHistogram.Add (Z.quot (FrameEvent.delay_delta e) 1000)
                              (Histograms.playout_delay h)
     else Histograms.playout_delay h) /\
  Histograms.packet_latency h' = Histograms.packet_latency h /\
  (e2e_latency_datapoints_ s' = e2e_latency_datapoints_ s \/
   FrameEvent.type e = FRAME_PLAYOUT /\
   e2e_latency_datapoints_ s' = e2e_latency_datapoints_ s + 1).
Proof.
  cbv zeta. unfold record_frame_event.
  destruct (FrameEvent.type e) eqn:Hty;
    first [rewrite bool_decide_true by done
          | rewrite bool_decide_false by done];
    unfold RecordFrameCaptureTime, RecordCaptureLatency,
      RecordEncodeLatency, RecordFrameTxLatency, RecordE2ELatency,
      MaybeInsertFrameInfo, AddF;
    repeat case_match; cbn; split_and!; eauto.
Qed.

Lemma totals_view_respond bounds ts ty s :
  totals_view (respond bounds ts ty s) = totals_view s.
Proof. unfold respond, UpdateLastResponseTime. by repeat case_match. Qed.

Lemma totals_view_packet_prologue bounds ts r e s :
  totals_view (UpdateFirstLastEventTime bounds ts r (count_packet_event e s))
  = totals_view s.
Proof. unfold UpdateFirstLastEventTime. by repeat case_match. Qed.

Lemma record_packet_event_totals bounds e s :
  let s' := record_packet_event bounds e s in
  let h := histograms_ s in
  let h' := histograms_ s' in
  (Histograms.capture_latency h' = Histograms.capture_latency h /\
   Histograms.encode_latency h' = Histograms.encode_latency h /\
   Histograms.frame_latency h' = Histograms.frame_latency h /\
   Histograms.playout_delay h' = Histograms.playout_delay h /\
   e2e_latency_datapoints_ s' = e2e_latency_datapoints_ s) /\
  ((network_latency_datapoints_ s' = network_latency_datapoints_ s /\
    Histograms.packet_latency h' = Histograms.packet_latency h) \/
   (network_latency_datapoints_ s' = network_latency_datapoints_ s + 1 /\
    exists x, Histograms.packet_latency h'
              = SimpleHistogram.Add x (Histograms.packet_latency h))).
Proof.
  cbv zeta. unfold record_packet_event, RecordNetworkLatency,
    ErasePacketSentTime, AddF.
  repeat case_match; cbn; split_and!; eauto.
Qed.

Lemma OnReceivePacketEvent_totals bounds e s :
  let s' := OnReceivePacketEvent bounds e s in
  let h := histograms_ s in
  let h' := histograms_ s' in
  (Histograms.capture_latency h' = Histograms.capture_latency h /\
   Histograms.encode_latency h' = Histograms.encode_latency h /\
   Histograms.frame_latency h' = Histograms.frame_latency h /\
   Histograms.playout_delay h' = Histograms.playout_delay h /\
   e2e_latency_datapoints_ s' = e2e_latency_datapoints_ s) /\
  ((network_latency_datapoints_ s' = network_latency_datapoints_ s /\
    Histograms.packet_latency h' = Histograms.packet_latency h) \/
   (network_latency_datapoints_ s' = network_latency_datapoints_ s + 1 /\
    exists x, Histograms.packet_latency h'
              = SimpleHistogram.Add x (Histograms.packet_latency h))).
Proof.
  cbv zeta. rewrite OnReceivePacketEvent_phases.
  case_bool_decide; [| split; [done | by left]].
  set (s2 := UpdateFirstLastEventTime _ _ _ _).
  pose proof (totals_view_packet_prologue bounds (PacketEvent.timestamp e)
                (IsReceiverEvent (PacketEvent.type e)) e s) as V2.
  fold s2 in V2. unfold totals_view in V2. injection V2 as Hh He Hn.
  pose proof (totals_view_respond bounds (PacketEvent.timestamp e)
                (PacketEvent.type e) (record_packet_event bounds e s2))
    as V4.
  unfold totals_view in V4. injection V4 as -> -> ->.
  rewrite <- Hh, <- He, <- Hn. apply record_packet_event_totals.
Qed.

Lemma packet_side_OnReceiveFrameEvent bounds e s :
  network_latency_datapoints_ (OnReceiveFrameEvent bounds e s)
  = network_latency_datapoints_ s.
Proof.
  rewrite OnReceiveFrameEvent_phases. case_bool_decide; [| done].
  by through network_latency_datapoints_.
Qed.

Lemma frame_events_count_snoc mt ty calls bounds e :
  Z.of_nat (length (frame_events mt ty
                      (calls ++ [CallFrameEvent bounds e]))) =
  Z.of_nat (length (frame_events mt ty calls)) +
  (if bool_decide (FrameEvent.media_type e = mt)
      && bool_decide (FrameEvent.type e = ty) then 1 else 0).
Proof.
  rewrite frame_events_snoc, length_app.
  destruct (_ && _); cbn; lia.
Qed.

Lemma histogram_totals_run (mt : EventMediaType) (now : Time.TimeTicks)
    (calls : list call) :
  let s := run calls (new mt now) in
  let h := histograms_ s in
  let n type :=
    Z.of_nat (length (frame_events mt type (since_reset calls))) in
  SimpleHistogram.total (Histograms.playout_delay h) = n FRAME_PLAYOUT /\
  SimpleHistogram.total (Histograms.packet_latency h)
  = network_latency_datapoints_ s /\
  0 <= SimpleHistogram.total (Histograms.capture_latency h)
    <= n FRAME_CAPTURE_END /\
  0 <= SimpleHistogram.total (Histograms.encode_latency h)
    <= n FRAME_ENCODED /\
  0 <= SimpleHistogram.total (Histograms.frame_latency h)
    <= n FRAME_ACK_SENT /\
  0 <= e2e_latency_datapoints_ s <= n FRAME_PLAYOUT.
Proof.
  cbv zeta.
  induction calls as [|c calls IH] using rev_ind.
  { by vm_compute. }
  pose proof (Inv_reachable kMaxFrameInfoMapSize mt now calls) as HI.
  destruct (inv_histograms _ _ HI) as (Sc & Se & Sp & Sf & Sd).
  pose proof (event_media_type_run kMaxFrameInfoMapSize calls (new mt now))
    as Hmt. cbn [event_media_type_ new] in Hmt.
  rewrite run_snoc_call, since_reset_snoc.
  set (s := run calls (new mt now)) in *.
  destruct IH as (Id & Ip & Ic & Ie & If & I2).
  destruct c as [bounds e|bounds e|now']; cbn [StatsEventSubscriber.step].
  - rewrite !frame_events_count_snoc, packet_side_OnReceiveFrameEvent.
    destruct (decide (FrameEvent.media_type e = mt)) as [Hm|Hm].
    + rewrite (bool_decide_true _ Hm). cbn [andb].
      pose proof (frame_view_OnReceiveFrameEvent kMaxFrameInfoMapSize
                    bounds e s ltac:(by rewrite Hmt)) as V.
      unfold frame_view in V. injection V as _ Hh _ HN _ _.
      rewrite Hh, HN.
      destruct (record_frame_event_histograms bounds e s)
        as (Rc & Re & Rf & Rd & Rp & R2).
      rewrite Rd, Rp.
      split_and!.
      * destruct (bool_decide (FrameEvent.type e = FRAME_PLAYOUT));
          rewrite ?(Add_total _ _ _ _ _ Sd); lia.
      * done.
      * destruct Rc as [->|[Hty [x ->]]];
          rewrite ?(Add_total _ _ _ _ _ Sc); lia.
      * destruct Rc as [->|[Hty [x ->]]];
          [destruct (bool_decide (FrameEvent.type e = FRAME_CAPTURE_END));
           lia |].
          rewrite (Add_total _ _ _ _ _ Sc), bool_decide_true by done. lia.
      * destruct Re as [->|[Hty [x ->]]];
          rewrite ?(Add_total _ _ _ _ _ Se); lia.
      * destruct Re as [->|[Hty [x ->]]];
          [destruct (bool_decide (FrameEvent.type e = FRAME_ENCODED));
           lia |].
          rewrite (Add_total _ _ _ _ _ Se), bool_decide_true by done. lia.
      * destruct Rf as [->|[Hty [x ->]]];
          rewrite ?(Add_total _ _ _ _ _ Sf); lia.
      * destruct Rf as [->|[Hty [x ->]]];
          [destruct (bool_decide (FrameEvent.type e = FRAME_ACK_SENT));
           lia |].
          rewrite (Add_total _ _ _ _ _ Sf), bool_decide_true by done. lia.
      * destruct R2 as [->|[Hty ->]]; lia.
      * destruct R2 as [->|[Hty ->]];
          [destruct (bool_decide (FrameEvent.type e = FRAME_PLAYOUT));
           lia |].
        rewrite bool_decide_true by done. lia.
    + rewrite (bool_decide_false _ Hm). cbn [andb]. rewrite !Z.add_0_r.
      unfold StatsEventSubscriber.OnReceiveFrameEvent.
      rewrite Hmt, (bool_decide_false _ Hm). cbn [negb].
      split_and!; try done; lia.
  - rewrite !frame_events_snoc, !app_nil_r.
    destruct (OnReceivePacketEvent_totals bounds e s)
      as [(-> & -> & -> & -> & ->) [[-> ->]|[-> [x ->]]]];
      rewrite ?(Add_total _ _ _ _ _ Sp); split_and!; try done; lia.
  - cbn. unfold SimpleHistogram.total, SimpleHistogram.Reset. cbn.
    rewrite !sum_replicate_0. done.
Qed.

(** X17. The histograms against the counters, in every state the
    subscriber can reach.  The playout-delay histogram holds one sample
    for each playout event received since the construction or the last
    [Reset], and the packet-latency histogram one sample for each
    network-latency datapoint.  The capture-latency, encode-latency and
    frame-latency histograms hold at most one sample for each capture-end,
    encoded and ack-sent event, and there is at most one end-to-end
    datapoint for each playout event. *)
Theorem histograms_count_events (mt : EventMediaType)
    (now : Time.TimeTicks) (calls : list call) :
  let s := run calls (new mt now) in
  let h := histograms_ s in
  let n type :=
    Z.of_nat (length (frame_events mt type (since_reset calls))) in
  SimpleHistogram.total (Histograms.playout_delay h) = n FRAME_PLAYOUT /\
  SimpleHistogram.total (Histograms.packet_latency h)
  = network_latency_datapoints_ s /\
  0 <= SimpleHistogram.total (Histograms.capture_latency h)
    <= n FRAME_CAPTURE_END /\
  0 <= SimpleHistogram.total (Histograms.encode_latency h)
    <= n FRAME_ENCODED /\
  0 <= SimpleHistogram.total (Histograms.frame_latency h)
    <= n FRAME_ACK_SENT /\
  0 <= e2e_latency_datapoints_ s <= n FRAME_PLAYOUT.
Proof. apply histogram_totals_run. Qed.

End HistogramTotals.

(** ** The two caches *)

Section Caches.
Import StatsEventSubscriber.
Variable kMaxFrameInfoMapSize : nat.

Local Abbreviation run := (run kMaxFrameInfoMapSize).
Local Abbreviation OnReceiveFrameEvent :=
  (OnReceiveFrameEvent kMaxFrameInfoMapSize).

Lemma Forall_OrdMap_insert {K V} `{EqDecision K} (ltb : K -> K -> bool)
    (P : K * V -> Prop) k v (m : list (K * V)) :
  P (k, v) -> Forall P m -> Forall P (OrdMap.insert ltb k v m).
Proof.
  intros Hkv. induction 1 as [|[k0 v0] m H0 Hm IH]; cbn.
  - by constructor.
  - destruct (decide (k = k0)); [by constructor |].
    destruct (ltb k k0); repeat constructor; done.
Qed.

Lemma Forall_OrdMap_erase {K V} `{EqDecision K}
    (P : K * V -> Prop) k (m : list (K * V)) :
  Forall P m -> Forall P (OrdMap.erase k m).
Proof.
  induction 1 as [|[k0 v0] m H0 Hm IH]; cbn; [done |].
  destruct (decide (k = k0)); [done | by constructor].
Qed.

Lemma Forall_OrdMap_erase_begin {K V} (P : K * V -> Prop)
    (m : list (K * V)) :
  Forall P m -> Forall P (OrdMap.erase_begin m).
Proof. unfold OrdMap.erase_begin. by destruct 1. Qed.


Lemma sorted_NoDup {K V} (ltb : K -> K -> bool) (m : list (K * V)) :
  (forall a, ltb a a = false) ->
  OrdMap.sorted ltb m -> NoDup m.*1.
Proof.
  intros Hirr. unfold OrdMap.sorted.
  induction 1 as [|[k v] m Hs IH Hall]; cbn; constructor; [| done].
  intros Hin. apply list_elem_of_fmap in Hin as ([k' v'] & Hk & Hin).
  cbn in Hk. subst k'. rewrite Forall_forall in Hall.
  specialize (Hall _ Hin). cbn in Hall. by rewrite Hirr in Hall.
Qed.

Lemma pairing_kinds_record_packet_event bounds e s :
  pairing_kinds (packet_sent_times_ s) ->
  pairing_kinds (packet_sent_times_ (record_packet_event bounds e s)).
Proof.
  intros HK. unfold record_packet_event.
  destruct (bool_decide (PacketEvent.type e = PACKET_SENT_TO_NETWORK)
            || bool_decide (PacketEvent.type e = PACKET_RECEIVED)) eqn:Hty.
  - assert (Hty' : PacketEvent.type e = PACKET_SENT_TO_NETWORK \/
                   PacketEvent.type e = PACKET_RECEIVED).
    { apply orb_true_iff in Hty as [H|H]; apply bool_decide_eq_true in H;
        [by left | by right]. }
    unfold RecordNetworkLatency, pairing_kinds in *.
    repeat case_match; cbn;
      try apply Forall_OrdMap_erase_begin;
      try apply Forall_OrdMap_insert;
      try apply Forall_OrdMap_erase; done.
  - destruct (bool_decide (PacketEvent.type e = PACKET_RETRANSMITTED));
      [| done].
    unfold pairing_kinds in *. cbn. by apply Forall_OrdMap_erase.
Qed.

Lemma pairing_kinds_run mt now calls :
  pairing_kinds (packet_sent_times_ (run calls (new mt now))).
Proof.
  induction calls as [|c calls IH] using rev_ind; [constructor |].
  rewrite run_snoc_call.
  destruct c as [bounds e|bounds e|now']; cbn [StatsEventSubscriber.step].
  - rewrite OnReceiveFrameEvent_phases. case_bool_decide; [| done].
    by through packet_sent_times_.
  - rewrite OnReceivePacketEvent_phases. case_bool_decide; [| done].
    through packet_sent_times_.
    apply pairing_kinds_record_packet_event.
    by through packet_sent_times_.
  - constructor.
Qed.

(** X18. The two caches stay bounded and well formed in every state the
    subscriber can reach: the pairing map holds at most 1000 entries and
    the frame cache fewer than [kMaxFrameInfoMapSize]; no key occurs
    twice in either; and every entry of the pairing map is of kind
    sent-to-network or received, a retransmitted or rejected packet event
    is never stored. *)
Theorem caches_bounded (mt : EventMediaType) (now : Time.TimeTicks)
    (calls : list call) :
  let s := run calls (new mt now) in
  (length (packet_sent_times_ s) <= 1000)%nat /\
  (0 < kMaxFrameInfoMapSize ->
   length (recent_frame_infos_ s) < kMaxFrameInfoMapSize)%nat /\
  NoDup (packet_sent_times_ s).*1 /\
  NoDup (recent_frame_infos_ s).*1 /\
  Forall (fun kv => kv.2.2 = PACKET_SENT_TO_NETWORK \/
                    kv.2.2 = PACKET_RECEIVED) (packet_sent_times_ s).
Proof.
  intros s.
  pose proof (Inv_reachable kMaxFrameInfoMapSize mt now calls) as HI.
  fold s in HI. destruct HI as [_ Hps Hpl Hfl _ Hfs]. split_and!.
  - exact Hpl.
  - exact Hfl.
  - by apply (sorted_NoDup OrdMap.pair_ltb _ pair_ltb_irrefl).
  - apply (sorted_NoDup Z.ltb); [| done]. intros a. lia.
  - apply pairing_kinds_run.
Qed.


End Caches.

(** ** Rates and averages of a snapshot *)

Section SnapshotRates.
Import StatsEventSubscriber.
Variable kMaxFrameInfoMapSize : nat.

Local Abbreviation run := (run kMaxFrameInfoMapSize).
Local Abbreviation OnReceiveFrameEvent :=
  (OnReceiveFrameEvent kMaxFrameInfoMapSize).

Lemma start_time_run mt now calls :
  start_time_ (run calls (new mt now)) = start_of now calls.
Proof.
  induction calls as [|c calls IH] using rev_ind; [done |].
  rewrite run_snoc_call. unfold start_of. rewrite foldl_snoc.
  fold (start_of now calls).
  destruct c as [bounds e|bounds e|now']; cbn [StatsEventSubscriber.step].
  - rewrite OnReceiveFrameEvent_phases. case_bool_decide; [| done].
    by through start_time_.
  - rewrite OnReceivePacketEvent_phases. case_bool_decide; [| done].
    by through start_time_.
  - done.
Qed.

Lemma GetStatsInternal_fps unix_epoch end_time s :
  let m := GetStatsInternal unix_epoch end_time s in
  let fps it :=
    if (0 <? end_time - start_time_ s)%Z
    then (inject_Z (FrameLogStats.event_counter it)
          / Time.InSecondsF (end_time - start_time_ s)%Z)%Q
    else 0%Q in
  m !! CAPTURE_FPS = fps <$> frame_stats_ s !! FRAME_CAPTURE_BEGIN /\
  m !! ENCODE_FPS = fps <$> frame_stats_ s !! FRAME_ENCODED /\
  m !! DECODE_FPS = fps <$> frame_stats_ s !! FRAME_DECODED.
Proof.
  unfold GetStatsInternal. cbv zeta. split_and!; peel_stats.
  all: unfold PopulateFpsStat at 1;
    destruct (frame_stats_ s !! _); cbn;
    [rewrite stats_insert_lookup_eq; [done |] |]; stats_absent.
Qed.

Lemma GetStatsInternal_kbps unix_epoch end_time s :
  let m := GetStatsInternal unix_epoch end_time s in
  let kbps bytes :=
    if (0 <? end_time - start_time_ s)%Z
    then (inject_Z bytes
          / Time.InMillisecondsF (end_time - start_time_ s)%Z * 8)%Q
    else 0%Q in
  m !! ENCODE_KBPS
  = (fun it => kbps (FrameLogStats.sum_size it))
      <$> frame_stats_ s !! FRAME_ENCODED /\
  m !! TRANSMISSION_KBPS
  = (fun it => kbps (PacketLogStats.sum_size it))
      <$> packet_stats_ s !! PACKET_SENT_TO_NETWORK /\
  m !! RETRANSMISSION_KBPS
  = (fun it => kbps (PacketLogStats.sum_size it))
      <$> packet_stats_ s !! PACKET_RETRANSMITTED.
Proof.
  unfold GetStatsInternal. cbv zeta. split_and!; peel_stats.
  - unfold PopulateFrameBitrateStat at 1.
    destruct (frame_stats_ s !! _); cbn;
      [rewrite stats_insert_lookup_eq; [done |] |]; stats_absent.
  - unfold PopulatePacketBitrateStat at 1.
    destruct (packet_stats_ s !! _); cbn;
      [rewrite stats_insert_lookup_eq; [done |] |]; stats_absent.
  - unfold PopulatePacketBitrateStat at 1.
    destruct (packet_stats_ s !! _); cbn;
      [rewrite stats_insert_lookup_eq; [done |] |]; stats_absent.
Qed.

Lemma GetStatsInternal_playout_delay unix_epoch end_time s :
  GetStatsInternal unix_epoch end_time s !! AVG_PLAYOUT_DELAY_MS
  = (fun it =>
       if negb (FrameLogStats.event_counter it =? 0)
       then (Time.InMillisecondsF (FrameLogStats.sum_delay it)
             / inject_Z (FrameLogStats.event_counter it))%Q
       else 0%Q)
      <$> frame_stats_ s !! FRAME_PLAYOUT.
Proof.
  unfold GetStatsInternal. cbv zeta. peel_stats.
  unfold PopulatePlayoutDelayStat at 1.
  destruct (frame_stats_ s !! _); cbn;
    [rewrite stats_insert_lookup_eq; [done |] |]; stats_absent.
Qed.

Lemma frame_stat_of_events mt now calls ty (f : Z -> Z -> Q) :
  (fun it => f (FrameLogStats.event_counter it)
               (FrameLogStats.sum_delay it))
    <$> frame_stats_ (run calls (new mt now)) !! ty
  = stat_of_events
      (fun events => f (Z.of_nat (length events))
                       (sum_of FrameEvent.delay_delta events))
      (frame_events mt ty (since_reset calls)).
Proof.
  pose proof (frame_stats_run kMaxFrameInfoMapSize mt now calls ty) as H.
  cbv zeta in H. destruct (frame_stats_ _ !! ty) as [it|].
  - destruct H as (Hn & Hc & Hd & _). cbn. rewrite Hc, Hd.
    by destruct (frame_events _ _ _).
  - by rewrite H.
Qed.

Lemma frame_size_stat_of_events mt now calls ty (f : Z -> Q) :
  Forall (fun e => 0 <= FrameEvent.size e < 2 ^ 64)
         (frame_events mt ty (since_reset calls)) ->
  (fun it => f (FrameLogStats.sum_size it))
    <$> frame_stats_ (run calls (new mt now)) !! ty
  = stat_of_events
      (fun events => f (size_t (sum_of FrameEvent.size events)))
      (frame_events mt ty (since_reset calls)).
Proof.
  intros Hall.
  pose proof (frame_stats_run kMaxFrameInfoMapSize mt now calls ty) as H.
  cbv zeta in H. destruct (frame_stats_ _ !! ty) as [it|].
  - destruct H as (Hn & _ & _ & Hs). cbn. rewrite (Hs Hall).
    by destruct (frame_events _ _ _).
  - by rewrite H.
Qed.

Lemma packet_size_stat_of_events mt now calls ty (f : Z -> Q) :
  Forall (fun e => 0 <= PacketEvent.size e < 2 ^ 64)
         (packet_events mt ty (since_reset calls)) ->
  (fun it => f (PacketLogStats.sum_size it))
    <$> packet_stats_ (run calls (new mt now)) !! ty
  = stat_of_events
      (fun events => f (size_t (sum_of PacketEvent.size events)))
      (packet_events mt ty (since_reset calls)).
Proof.
  intros Hall.
  pose proof (packet_stats_run kMaxFrameInfoMapSize mt now calls ty) as H.
  cbv zeta in H. destruct (packet_stats_ _ !! ty) as [it|].
  - destruct H as (Hn & _ & Hs). cbn. rewrite (Hs Hall).
    by destruct (packet_events _ _ _).
  - by rewrite H.
Qed.

(** X20. The three frame rates of a snapshot.  CAPTURE_FPS, ENCODE_FPS
    and DECODE_FPS are the numbers of capture-begin, encoded and decoded
    events of the subscriber's media type received since the construction
    or the last [Reset], divided by the seconds elapsed since then on
    the clock; each is absent when there was no such event, is 0 when no
    time has elapsed or the clock reads earlier than at the start, and is
    never negative. *)
Theorem GetStatsInternal_frame_rates (mt : EventMediaType)
    (now : Time.TimeTicks) (calls : list call)
    (unix_epoch end_time : Time.TimeTicks) :
  let s := run calls (new mt now) in
  let m := GetStatsInternal unix_epoch end_time s in
  let duration := end_time - start_of now calls in
  let fps (events : list FrameEvent.t) :=
    if (0 <? duration)%Z
    then (inject_Z (Z.of_nat (length events))
          / Time.InSecondsF duration)%Q
    else 0%Q in
  let frames type := frame_events mt type (since_reset calls) in
  m !! CAPTURE_FPS = stat_of_events fps (frames FRAME_CAPTURE_BEGIN) /\
  m !! ENCODE_FPS = stat_of_events fps (frames FRAME_ENCODED) /\
  m !! DECODE_FPS = stat_of_events fps (frames FRAME_DECODED) /\
  (forall events, (0 <= fps events)%Q) /\
  (duration <= 0 -> forall events, fps events = 0%Q).
Proof.
  intros s m duration fps frames. subst m frames.
  destruct (GetStatsInternal_fps unix_epoch end_time s) as (H1 & H2 & H3).
  rewrite H1, H2, H3. unfold s.
  rewrite start_time_run. fold duration.
  rewrite !(frame_stat_of_events mt now calls _
              (fun count _ =>
                 if (0 <? duration)%Z
                 then (inject_Z count / Time.InSecondsF duration)%Q
                 else 0%Q)).
  split_and!; try done.
  - intros events. unfold fps.
    destruct (Z.ltb_spec 0 duration) as [Hd|Hd]; [| done].
    apply Qle_shift_div_l; [unfold Qlt; cbn; lia |].
    unfold Qle. cbn. lia.
  - intros Hd events. unfold fps.
    by destruct (Z.ltb_spec 0 duration); [lia |].
Qed.

(** X21. The three bit rates of a snapshot.  ENCODE_KBPS,
    TRANSMISSION_KBPS and RETRANSMISSION_KBPS are 8 times the bytes of
    the encoded frame events, of the sent-to-network and of the
    retransmitted packet events received since the construction or the
    last [Reset], the sum taken modulo 2^64, divided by the milliseconds
    elapsed since then; each is absent when there was no such event and is
    0 when no time has elapsed. *)
Theorem GetStatsInternal_bit_rates (mt : EventMediaType)
    (now : Time.TimeTicks) (calls : list call)
    (unix_epoch end_time : Time.TimeTicks) :
  let s := run calls (new mt now) in
  let m := GetStatsInternal unix_epoch end_time s in
  let duration := end_time - start_of now calls in
  let kbps bytes :=
    if (0 <? duration)%Z
    then (inject_Z (size_t bytes) / Time.InMillisecondsF duration * 8)%Q
    else 0%Q in
  let frames := frame_events mt FRAME_ENCODED (since_reset calls) in
  let packets type := packet_events mt type (since_reset calls) in
  (Forall (fun e => 0 <= FrameEvent.size e < 2 ^ 64) frames ->
   m !! ENCODE_KBPS
   = stat_of_events (fun events => kbps (sum_of FrameEvent.size events))
                    frames) /\
  (Forall (fun e => 0 <= PacketEvent.size e < 2 ^ 64)
          (packets PACKET_SENT_TO_NETWORK) ->
   m !! TRANSMISSION_KBPS
   = stat_of_events (fun events => kbps (sum_of PacketEvent.size events))
                    (packets PACKET_SENT_TO_NETWORK)) /\
  (Forall (fun e => 0 <= PacketEvent.size e < 2 ^ 64)
          (packets PACKET_RETRANSMITTED) ->
   m !! RETRANSMISSION_KBPS
   = stat_of_events (fun events => kbps (sum_of PacketEvent.size events))
                    (packets PACKET_RETRANSMITTED)) /\
  (duration <= 0 -> forall bytes, kbps bytes = 0%Q).
Proof.
  intros s m duration kbps frames packets. subst m frames packets.
  destruct (GetStatsInternal_kbps unix_epoch end_time s) as (H1 & H2 & H3).
  rewrite H1, H2, H3. unfold s.
  rewrite start_time_run. fold duration.
  split_and!.
  - intros Hall.
    by rewrite (frame_size_stat_of_events mt now calls _
                  (fun bytes =>
                     if (0 <? duration)%Z
                     then (inject_Z bytes
                           / Time.InMillisecondsF duration * 8)%Q
                     else 0%Q) Hall).
  - intros Hall.
    by rewrite (packet_size_stat_of_events mt now calls _
                  (fun bytes =>
                     if (0 <? duration)%Z
                     then (inject_Z bytes
                           / Time.InMillisecondsF duration * 8)%Q
                     else 0%Q) Hall).
  - intros Hall.
    by rewrite (packet_size_stat_of_events mt now calls _
                  (fun bytes =>
                     if (0 <? duration)%Z
                     then (inject_Z bytes
                           / Time.InMillisecondsF duration * 8)%Q
                     else 0%Q) Hall).
  - intros Hd bytes. unfold kbps.
    by destruct (Z.ltb_spec 0 duration); [lia |].
Qed.

(** X22. AVG_PLAYOUT_DELAY_MS of a snapshot is the mean of the delays of
    the playout events of the subscriber's media type received since the
    construction or the last [Reset], in milliseconds; it is absent when
    there was no playout event. *)
Theorem GetStatsInternal_playout_delay_mean (mt : EventMediaType)
    (now : Time.TimeTicks) (calls : list call)
    (unix_epoch end_time : Time.TimeTicks) :
  let s := run calls (new mt now) in
  let m := GetStatsInternal unix_epoch end_time s in
  m !! AVG_PLAYOUT_DELAY_MS
  = stat_of_events
      (fun events =>
         (Time.InMillisecondsF (sum_of FrameEvent.delay_delta events)
          / inject_Z (Z.of_nat (length events)))%Q)
      (frame_events mt FRAME_PLAYOUT (since_reset calls)).
Proof.
  intros s m. subst m.
  rewrite GetStatsInternal_playout_delay. unfold s.
  rewrite (frame_stat_of_events mt now calls _
             (fun count sum_delay =>
                if negb (count =? 0)
                then (Time.InMillisecondsF sum_delay / inject_Z count)%Q
                else 0%Q)).
  by destruct (frame_events _ _ _).
Qed.

Lemma GetStatsInternal_times unix_epoch end_time s :
  let m := GetStatsInternal unix_epoch end_time s in
  m !! FIRST_EVENT_TIME_MS
  = (if Time.is_null (first_event_time_ s) then None
     else Some (Time.InMillisecondsF (first_event_time_ s - unix_epoch)%Z)) /\
  m !! LAST_EVENT_TIME_MS
  = (if Time.is_null (last_event_time_ s) then None
     else Some (Time.InMillisecondsF (last_event_time_ s - unix_epoch)%Z)).
Proof.
  unfold GetStatsInternal. cbv zeta. split.
  - peel_stats. destruct (Time.is_null (first_event_time_ s)); cbn [negb];
      [stats_absent |].
    rewrite stats_insert_lookup_eq; [done |]. stats_absent.
  - destruct (Time.is_null (last_event_time_ s)); cbn [negb];
      [stats_absent |].
    rewrite stats_insert_lookup_eq; [done |]. stats_absent.
Qed.

Lemma GetStatsInternal_latency_means unix_epoch end_time s :
  let m := GetStatsInternal unix_epoch end_time s in
  m !! AVG_NETWORK_LATENCY_MS
  = (if (0 <? network_latency_datapoints_ s)%Z
     then Some (Time.InMillisecondsF (total_network_latency_ s)
                / inject_Z (network_latency_datapoints_ s))%Q
     else None) /\
  m !! AVG_E2E_LATENCY_MS
  = (if (0 <? e2e_latency_datapoints_ s)%Z
     then Some (Time.InMillisecondsF (total_e2e_latency_ s)
                / inject_Z (e2e_latency_datapoints_ s))%Q
     else None).
Proof.
  unfold GetStatsInternal. cbv zeta. split; peel_stats.
  - destruct (0 <? network_latency_datapoints_ s); [| stats_absent].
    rewrite stats_insert_lookup_eq; [done |]. stats_absent.
  - destruct (0 <? e2e_latency_datapoints_ s); [| stats_absent].
    rewrite stats_insert_lookup_eq; [done |]. stats_absent.
Qed.

(** X24. The event times and the latency means of a snapshot, in every
    state the subscriber can reach.  FIRST_EVENT_TIME_MS and
    LAST_EVENT_TIME_MS are the first and the last event time in
    milliseconds since the Unix epoch, each present when its time is not
    null, and the first is never larger than the last.
    AVG_NETWORK_LATENCY_MS is present exactly when the packet-latency
    histogram holds a sample, AVG_E2E_LATENCY_MS exactly when there is an
    end-to-end datapoint, and each is then the total divided by the
    number of datapoints, in milliseconds. *)
Theorem GetStatsInternal_times_and_means (mt : EventMediaType)
    (now : Time.TimeTicks) (calls : list call)
    (unix_epoch end_time : Time.TimeTicks) :
  let s := run calls (new mt now) in
  let m := GetStatsInternal unix_epoch end_time s in
  m !! FIRST_EVENT_TIME_MS
  = (if Time.is_null (first_event_time_ s) then None
     else Some (Qmake (first_event_time_ s - unix_epoch) 1000)) /\
  m !! LAST_EVENT_TIME_MS
  = (if Time.is_null (last_event_time_ s) then None
     else Some (Qmake (last_event_time_ s - unix_epoch) 1000)) /\
  (forall first last,
     m !! FIRST_EVENT_TIME_MS = Some first ->
     m !! LAST_EVENT_TIME_MS = Some last -> (first <= last)%Q) /\
  m !! AVG_NETWORK_LATENCY_MS
  = (if (0 <? SimpleHistogram.total
                (Histograms.packet_latency (histograms_ s)))%Z
     then Some (Qmake (total_network_latency_ s) 1000
                / inject_Z (network_latency_datapoints_ s))%Q
     else None) /\
  m !! AVG_E2E_LATENCY_MS
  = (if (0 <? e2e_latency_datapoints_ s)%Z
     then Some (Qmake (total_e2e_latency_ s) 1000
                / inject_Z (e2e_latency_datapoints_ s))%Q
     else None).
Proof.
  intros s m. subst m.
  destruct (GetStatsInternal_times unix_epoch end_time s) as [H1 H2].
  destruct (GetStatsInternal_latency_means unix_epoch end_time s)
    as [H3 H4].
  destruct (histogram_totals_run kMaxFrameInfoMapSize mt now calls)
    as (_ & Hp & _). fold s in Hp.
  rewrite H1, H2, H3, H4, Hp. split_and!; try done.
  intros first last.
  pose proof (first_last_run kMaxFrameInfoMapSize mt now calls) as Hfl.
  pose proof (foldl_note_time_ordered
                (event_times mt (since_reset calls))) as Hle.
  rewrite <- Hfl in Hle. fold s in Hle. cbn [fst snd first_last_event_time]
    in Hle.
  destruct (Time.is_null (first_event_time_ s)); [done |].
  destruct (Time.is_null (last_event_time_ s)); [done |].
  intros [= <-] [= <-].
  unfold Qle, Time.InMillisecondsF, Time.kMicrosecondsPerMillisecond. cbn.
  lia.
Qed.

End SnapshotRates.

(** ** The names of the statistics *)

Section StatNames.
Import StatsEventSubscriber.

#[local] Instance CastStatToString_inj : Inj (=) (=) CastStatToString.
Proof. intros [] [] H; first [reflexivity | discriminate H]. Qed.

(** X23. The dictionary of [GetStats].  [CastStatToString] gives every
    statistic a name of its own, and the statistics of a snapshot are
    never histogram keys; so the keys [GetStats] sets, one for each
    statistic of the snapshot and one for each of the five histograms,
    are pairwise distinct and no entry replaces another.  The dictionary
    is filed under "audio" for an audio subscriber and under "video" for
    every other one. *)
Theorem GetStats_keys_distinct (unix_epoch now : Time.TimeTicks) (s : t) :
  (forall a b, CastStatToString a = CastStatToString b -> a = b) /\
  NoDup (GetStats_keys unix_epoch now s) /\
  length (GetStats_keys unix_epoch now s)
  = (size (GetStatsInternal unix_epoch now s) + 5)%nat /\
  (GetStats unix_epoch now s).1.1
  = (if bool_decide (event_media_type_ s = AUDIO_EVENT)
     then "audio" else "video").
Proof.
  split; [apply CastStatToString_inj |].
  unfold GetStats_keys, GetStats. cbn [fst snd fmap list_fmap].
  set (m := GetStatsInternal unix_epoch now s).
  destruct (GetStatsInternal_no_histogram unix_epoch now s)
    as (H1 & H2 & H3 & H4 & H5). fold m in H1, H2, H3, H4, H5.
  set (keys := filter (fun stat => is_Some (m !! stat)) (enum CastStat)).
  assert (Hkeys : NoDup keys) by apply NoDup_filter, NoDup_enum.
  split_and!; [| | done].
  - change [CastStatToString CAPTURE_LATENCY_MS_HISTO;
            CastStatToString ENCODE_LATENCY_MS_HISTO;
            CastStatToString PACKET_LATENCY_MS_HISTO;
            CastStatToString FRAME_LATENCY_MS_HISTO;
            CastStatToString PLAYOUT_DELAY_MS_HISTO]
      with (CastStatToString <$> [CAPTURE_LATENCY_MS_HISTO;
                                  ENCODE_LATENCY_MS_HISTO;
                                  PACKET_LATENCY_MS_HISTO;
                                  FRAME_LATENCY_MS_HISTO;
                                  PLAYOUT_DELAY_MS_HISTO]).
    rewrite <- fmap_app.
    apply (NoDup_fmap_2 _). apply NoDup_app. split_and!; [done | |].
    + intros k Hk Hin. apply list_elem_of_filter in Hk as [[v Hv] _].
      repeat (apply elem_of_cons in Hin as [->|Hin]; [congruence |]).
      by apply elem_of_nil in Hin.
    + by apply (bool_decide_unpack _); vm_compute.
  - rewrite length_app, length_fmap. cbn [length]. f_equal.
    rewrite <- (length_fmap (fun k => (k, default 0%Q (m !! k))) keys).
    rewrite <- map_size_list_to_map.
    + f_equal. apply map_eq. intros k.
      destruct (m !! k) as [v|] eqn:Hk.
      * apply elem_of_list_to_map.
        { rewrite <- list_fmap_compose. by rewrite list_fmap_id. }
        apply list_elem_of_fmap. exists k. rewrite Hk. split; [done |].
        apply list_elem_of_filter. split; [by eexists | apply elem_of_enum].
      * apply not_elem_of_list_to_map.
        rewrite <- list_fmap_compose, list_fmap_id.
        intros Hin. apply list_elem_of_filter in Hin as [[v Hv] _].
        congruence.
    + rewrite <- list_fmap_compose. by rewrite list_fmap_id.
Qed.

Lemma GetHistogram_latency h :
  latency_shape h ->
  (SimpleHistogram.GetHistogram h).*1 = labels 0 800 20 40 /\
  (SimpleHistogram.GetHistogram h).*2 = SimpleHistogram.buckets_ h /\
  length (SimpleHistogram.GetHistogram h) = 42%nat.
Proof.
  intros Hs. destruct (GetHistogram_zip _ _ _ _ Hs) as (_ & Hlen & ->).
  destruct Hs as (_ & _ & _ & _ & _ & Hsz & _).
  change (Z.quot (kMaxLatencyBucketMs - 0) kBucketWidthMs + 2) with 42
    in Hsz.
  assert (Hsize : SimpleHistogram.size h = 42%nat) by lia.
  rewrite Hsize in Hlen |- *. change (42 - 2)%nat with 40%nat in *.
  unfold SimpleHistogram.size in Hsize.
  change kMaxLatencyBucketMs with 800 in *.
  change kBucketWidthMs with 20 in *.
  split_and!.
  - apply fst_zip. rewrite Hlen, Hsize. done.
  - apply snd_zip. rewrite Hlen, Hsize. done.
  - rewrite length_zip_with, Hlen, Hsize. done.
Qed.

(** X26. The histograms of [GetStats], in every state the subscriber can
    reach: five histograms, for capture latency, encode latency, packet
    latency, frame latency and playout delay, in this order, each with 42
    entries that carry the labels of the buckets over (0, 800, 20), "< 0",
    "0 - 19", "20 - 39" up to "780 - 799" and ">= 800", and the counts of
    the buckets in order. *)
Theorem GetStats_histograms (kMaxFrameInfoMapSize : nat)
    (mt : EventMediaType) (now : Time.TimeTicks) (calls : list call)
    (unix_epoch end_time : Time.TimeTicks) :
  let s := run kMaxFrameInfoMapSize calls (new mt now) in
  let histograms := (GetStats unix_epoch end_time s).2 in
  histograms.*1
  = [CAPTURE_LATENCY_MS_HISTO; ENCODE_LATENCY_MS_HISTO;
     PACKET_LATENCY_MS_HISTO; FRAME_LATENCY_MS_HISTO;
     PLAYOUT_DELAY_MS_HISTO] /\
  Forall (fun kh => kh.2.*1 = labels 0 800 20 40 /\ length kh.2 = 42%nat)
         histograms /\
  (fun kh => kh.2.*2) <$> histograms
  = SimpleHistogram.buckets_ <$> all_histograms (histograms_ s) /\
  labels 0 800 20 40
  = SimpleHistogram.Below 0
      :: ((fun j : nat => SimpleHistogram.Between (20 * Z.of_nat j)
                                                  (20 * Z.of_nat j + 19))
            <$> seq 0 40)
      ++ [SimpleHistogram.AtLeast 800].
Proof.
  intros s histograms.
  pose proof (Inv_reachable kMaxFrameInfoMapSize mt now calls) as HI.
  fold s in HI.
  destruct (inv_histograms _ _ HI) as (Hc & He & Hp & Hf & Hd).
  destruct (GetHistogram_latency _ Hc) as (Lc & Bc & Nc).
  destruct (GetHistogram_latency _ He) as (Le & Be & Ne).
  destruct (GetHistogram_latency _ Hp) as (Lp & Bp & Np).
  destruct (GetHistogram_latency _ Hf) as (Lf & Bf & Nf).
  destruct (GetHistogram_latency _ Hd) as (Ld & Bd & Nd).
  unfold histograms, GetStats, all_histograms.
  cbn [fst snd fmap list_fmap]. split_and!.
  - done.
  - by repeat constructor.
  - by rewrite Bc, Be, Bp, Bf, Bd.
  - by vm_compute.
Qed.

End StatNames.
